(** * Bible study companion: the caching and profile-reconciliation core

    A shallow embedding of the TypeScript sources that decide how a user's
    profile is decoded and encoded ([services/authService.ts]), how a
    locally persisted blob is read ([utils/cache.ts]) and how the per-chapter
    fetch pipeline of [components/StudyApp.tsx] fills the view and the
    persistent cache, together with the properties the specification states
    about them.

    Conventions of the embedding.
    - A JavaScript value is a [JsVal]; TypeScript's types are erased at run
      time, so every function that sits on a boundary with the backend or
      with local storage takes and returns [JsVal]s.
    - A JavaScript string is a [string]; one [ascii] stands for one UTF-16
      code unit below 256.  Numbers are the integers [Z].
    - A JavaScript object used as a record or as a dictionary is a
      [gmap string JsVal]; reading a property that is not there gives
      [JUndefined].
    - Code with effects runs in the monad [M W]: a state [W] is threaded
      through, and a computation ends normally or by a thrown value. *)

From Stdlib Require Import ZArith Ascii String List Bool Lia.
From stdpp Require Import base option list gmap strings fin_maps pretty.

#[local] Set Warnings "-register-all".
#[local] Open Scope string_scope.

(* ===================================================================== *)
(** * JavaScript values *)
(* ===================================================================== *)

Module Js.

Inductive JsVal : Type :=
  | JUndefined
  | JNull
  | JBool (b : bool)
  | JNum (z : Z)
  | JStr (s : string)
  | JArr (xs : list JsVal)
  | JObj (o : gmap string JsVal).

(** [ToBoolean]: what [if (v)], [v || d] and [v && w] test. *)
Definition truthy (v : JsVal) : bool :=
  match v with
  | JUndefined | JNull => false
  | JBool b => b
  | JNum z => negb (z =? 0)%Z
  | JStr s => negb (String.eqb s "")
  | JArr _ | JObj _ => true
  end.

(** [v || d] *)
Definition or_else (v d : JsVal) : JsVal := if truthy v then v else d.

(** [v ?? d] *)
Definition nullish (v d : JsVal) : JsVal :=
  match v with
  | JUndefined | JNull => d
  | _ => v
  end.

(** [v !== undefined] *)
Definition is_defined (v : JsVal) : bool :=
  match v with
  | JUndefined => false
  | _ => true
  end.

(** [typeof v] *)
Definition typeof (v : JsVal) : string :=
  match v with
  | JUndefined => "undefined"
  | JNull | JArr _ | JObj _ => "object"
  | JBool _ => "boolean"
  | JNum _ => "number"
  | JStr _ => "string"
  end.

(** [Array.isArray(v)] *)
Definition Array_isArray (v : JsVal) : bool :=
  match v with
  | JArr _ => true
  | _ => false
  end.

(** A dictionary-like object: neither [null], nor an array, nor a primitive. *)
Definition is_object (v : JsVal) : bool :=
  match v with
  | JObj _ => true
  | _ => false
  end.

(** [o.k] for an object held as a map. *)
Definition prop (o : gmap string JsVal) (k : string) : JsVal :=
  default JUndefined (o !! k).

(** [v.k] for a value that is not [null] or [undefined]: only objects have
    the own properties the sources read. *)
Definition get (v : JsVal) (k : string) : JsVal :=
  match v with
  | JObj o => prop o k
  | _ => JUndefined
  end.

(** [v !== s] for a string literal [s]. *)
Definition strict_neq_str (v : JsVal) (s : string) : bool :=
  match v with
  | JStr t => negb (String.eqb t s)
  | _ => true
  end.

(** What a [throw] carries: an [Error] instance with its [message], or any
    other value ([error instanceof Error] tells them apart). *)
Inductive Thrown : Type :=
  | JsError (message : string)
  | NonError (v : JsVal).

(** How an evaluation ends. *)
Inductive Completion (A : Type) : Type :=
  | Normal (a : A)
  | Throw (e : Thrown).
Arguments Normal {A} a.
Arguments Throw {A} e.

(** ** The monad of effectful code: state [W] and thrown values *)

Definition M (W A : Type) : Type := W -> Completion A * W.

Definition ret {W A} (a : A) : M W A := fun w => (Normal a, w).

Definition bind {W A B} (m : M W A) (k : A -> M W B) : M W B :=
  fun w =>
    match m w with
    | (Normal a, w') => k a w'
    | (Throw e, w') => (Throw e, w')
    end.

Definition throw {W A} (e : Thrown) : M W A := fun w => (Throw e, w).

(** [await p] for a promise whose outcome is known. *)
Definition settle {W A} (c : Completion A) : M W A := fun w => (c, w).

(** A state update that cannot fail. *)
Definition modify {W} (f : W -> W) : M W unit := fun w => (Normal tt, f w).

(** [try { m } catch (e) { h e }] *)
Definition try_catch {W A} (m : M W A) (h : Thrown -> M W A) : M W A :=
  fun w =>
    match m w with
    | (Throw e, w') => h e w'
    | r => r
    end.

(** [try { m } finally { f }]: [f] runs on both exits; the completion of
    [m] stands unless [f] itself throws. *)
Definition try_finally {W A} (m : M W A) (f : M W unit) : M W A :=
  fun w =>
    let '(r, w') := m w in
    match f w' with
    | (Normal _, w'') => (r, w'')
    | (Throw e, w'') => (Throw e, w'')
    end.

Definition when {W} (b : bool) (m : M W unit) : M W unit :=
  if b then m else ret tt.

Module Notations.
  Notation "'let*' x ':=' m 'in' k" := (bind m (fun x => k))
    (at level 10, x name, m at level 100, k at level 200).
  Notation "'run' m 'then' k" := (bind m (fun _ => k))
    (at level 10, m at level 100, k at level 200).
End Notations.

(** ** Strings *)

(** The characters the regular expression [\s] matches, among the code
    units below 256: tab, line feed, vertical tab, form feed, carriage
    return, space and no-break space. *)
Definition is_space (c : ascii) : bool :=
  let n := nat_of_ascii c in
  (n =? 9)%nat || (n =? 10)%nat || (n =? 11)%nat || (n =? 12)%nat
  || (n =? 13)%nat || (n =? 32)%nat || (n =? 160)%nat.

Fixpoint map_chars (f : ascii -> ascii) (s : string) : string :=
  match s with
  | EmptyString => EmptyString
  | String c s' => String (f c) (map_chars f s')
  end.

(** [s.replace(/\s/g, r)] for a one-character replacement [r]. *)
Definition replace_spaces (r : ascii) (s : string) : string :=
  map_chars (fun c => if is_space c then r else c) s.

(** [s.replace(/\n/g, ' ')] *)
Definition replace_newlines (s : string) : string :=
  map_chars (fun c => if Ascii.eqb c "010"%char then " "%char else c) s.

Fixpoint trim_start (s : string) : string :=
  match s with
  | String c s' => if is_space c then trim_start s' else s
  | EmptyString => EmptyString
  end.

Fixpoint trim_end (s : string) : string :=
  match s with
  | EmptyString => EmptyString
  | String c s' =>
      match trim_end s' with
      | EmptyString => if is_space c then EmptyString else String c EmptyString
      | t => String c t
      end
  end.

(** [s.trim()] *)
Definition trim (s : string) : string := trim_end (trim_start s).

(** [s.includes(sub)] *)
Fixpoint includes (s sub : string) : bool :=
  String.prefix sub s ||
  match s with
  | EmptyString => false
  | String _ s' => includes s' sub
  end.

(** [`${n}`] for an integer *)
Definition number_to_string (n : Z) : string := pretty n.

End Js.

(* ===================================================================== *)
(** * types.ts *)
(* ===================================================================== *)

Module Types.
Import Js.

(** [enum StudyMode], with the string each member stands for. *)
Inductive StudyMode : Type :=
  | RANDOM
  | BOOK
  | READ_THROUGH
  | BOOKMARKS
  | SCRIPTURE_READER.

Definition StudyMode_value (m : StudyMode) : string :=
  match m with
  | RANDOM => "Random Chapter"
  | BOOK => "Book Study"
  | READ_THROUGH => "Read Through"
  | BOOKMARKS => "Bookmarks"
  | SCRIPTURE_READER => "Scripture Reader"
  end.

Definition StudyMode_members : list StudyMode :=
  [RANDOM; BOOK; READ_THROUGH; BOOKMARKS; SCRIPTURE_READER].

#[global] Instance StudyMode_eq_dec : EqDecision StudyMode.
Proof. solve_decision. Defined.

(** A run-time value is a member of the enumeration when it is the string
    of one of its members. *)
Definition is_StudyMode (v : JsVal) : bool :=
  match v with
  | JStr s => existsb (fun m => String.eqb s (StudyMode_value m)) StudyMode_members
  | _ => false
  end.

(** [ChapterIdentifier] of constants.ts, as every use in the sources reads
    it: [{ book, chapter }]. *)
Record ChapterIdentifier : Type := {
  book : string;
  chapter : Z
}.

Record Verse : Type := {
  book_id : string;
  book_name : string;
  verse_chapter : Z;
  verse : Z;
  text : string
}.

Record CrossReference : Type := {
  cr_reference : string;
  cr_explanation : string;
  cr_verse : option Z
}.

Record WordStudy : Type := {
  originalWord : string;
  transliteration : string;
  strongsNumber : string;
  meaning : string;
  contextualUse : string;
  ws_verse : option Z
}.

Record HistoricalContext : Type := {
  geography : string;
  customs : string;
  politicalClimate : string
}.

Record LiteraryAnalysis : Type := {
  structure : string;
  themes : list string
}.

Record Interpretation : Type := {
  viewpoint : string;
  summary : string;
  in_verse : option Z
}.

Record DeepDiveData : Type := {
  summaryAndThemes : string;
  dd_historicalContext : string;
  keyVerses : list (string * string);
  reflectionQuestions : list string
}.

(** Every field of [AllEnrichmentData] is optional in the interface. *)
Record AllEnrichmentData : Type := {
  crossReferences : option (list CrossReference);
  wordStudies : option (list WordStudy);
  historicalContext : option HistoricalContext;
  literaryAnalysis : option LiteraryAnalysis;
  interpretations : option (list Interpretation)
}.

Record CachedChapterContent : Type := {
  cc_verses : list Verse;
  cc_deepDiveData : option DeepDiveData;
  cc_allEnrichmentData : AllEnrichmentData
}.

(** [Passage], the text API's answer.  [passage_verses] is [None] when the
    answer's [verses] is not an array. *)
Record Passage : Type := {
  reference : string;
  passage_verses : option (list Verse);
  passage_text : string;
  translation_id : string;
  translation_name : string;
  translation_note : string
}.

End Types.

(* ===================================================================== *)
(** * services/authService.ts *)
(* ===================================================================== *)

Module AuthService.
Import Js Js.Notations Types.

(** The in-memory profile.  The casts of [fromSupabase] are erased at run
    time, so a field holds whatever value the decoder put there. *)
Record UserData : Type := {
  id : JsVal;
  username : JsVal;
  studyMode : JsVal;
  readThroughIndex : JsVal;
  userSelectedChapter : JsVal;
  completedChapters : JsVal;
  bookmarks : JsVal;
  notes : JsVal;
  cachedContent : JsVal;
  translation : JsVal;
  updated_at : JsVal
}.

(** [obj && typeof obj.book === 'string' && typeof obj.chapter === 'number'],
    as the condition it is used for. *)
Definition isChapterIdentifier (obj : JsVal) : bool :=
  truthy obj
  && String.eqb (typeof (get obj "book")) "string"
  && String.eqb (typeof (get obj "chapter")) "number".

Definition fromSupabase (profile : gmap string JsVal) : UserData :=
  let rawChapter := prop profile "user_selected_chapter" in
  let validatedChapter := if isChapterIdentifier rawChapter then rawChapter else JNull in
  {| id := prop profile "id";
     username := or_else (prop profile "username") (JStr "User");
     studyMode := or_else (prop profile "study_mode") (JStr (StudyMode_value READ_THROUGH));
     readThroughIndex := nullish (prop profile "read_through_index") (JNum 0);
     userSelectedChapter := validatedChapter;
     completedChapters :=
       if Array_isArray (prop profile "completed_chapters")
       then prop profile "completed_chapters" else JArr [];
     bookmarks :=
       if Array_isArray (prop profile "bookmarks")
       then prop profile "bookmarks" else JArr [];
     notes := or_else (prop profile "notes") (JObj ∅);
     cachedContent := or_else (prop profile "cached_content") (JObj ∅);
     translation := or_else (prop profile "translation") (JStr "web");
     updated_at := or_else (prop profile "updated_at") JUndefined |}.

(** [if (data.f !== undefined) dbData.w = data.f;] *)
Definition copy_field (data : gmap string JsVal) (f w : string)
    (dbData : gmap string JsVal) : gmap string JsVal :=
  if is_defined (prop data f) then <[w := prop data f]> dbData else dbData.

Definition toSupabase (data : gmap string JsVal) : gmap string JsVal :=
  let dbData : gmap string JsVal := ∅ in
  let dbData := copy_field data "username" "username" dbData in
  let dbData := copy_field data "studyMode" "study_mode" dbData in
  let dbData := copy_field data "readThroughIndex" "read_through_index" dbData in
  let dbData := copy_field data "userSelectedChapter" "user_selected_chapter" dbData in
  let dbData := copy_field data "completedChapters" "completed_chapters" dbData in
  let dbData := copy_field data "bookmarks" "bookmarks" dbData in
  let dbData := copy_field data "notes" "notes" dbData in
  let dbData := copy_field data "cachedContent" "cached_content" dbData in
  let dbData := copy_field data "translation" "translation" dbData in
  dbData.

(** The fields of [UserData] (types.ts), each with the key of the profile
    row it is decoded from by [fromSupabase]. *)
Definition wire_names : list (string * string) :=
  [ ("id", "id");
    ("username", "username");
    ("studyMode", "study_mode");
    ("readThroughIndex", "read_through_index");
    ("userSelectedChapter", "user_selected_chapter");
    ("completedChapters", "completed_chapters");
    ("bookmarks", "bookmarks");
    ("notes", "notes");
    ("cachedContent", "cached_content");
    ("translation", "translation");
    ("updated_at", "updated_at") ].

(** The fields [toSupabase] has a line for: all but [id] and [updated_at]. *)
Definition encoded_fields : list (string * string) :=
  List.filter (fun fw => negb (String.eqb fw.1 "id" || String.eqb fw.1 "updated_at"))
              wire_names.

(** What the patch holds under a key: the value of the one encoded field
    with that wire name, when the update has it. *)
Definition encoded_value (data : gmap string JsVal) (w : string) : option JsVal :=
  match List.find (fun fw => String.eqb fw.2 w) encoded_fields with
  | Some fw => if is_defined (prop data fw.1) then Some (prop data fw.1) else None
  | None => None
  end.

(** ** getUserData *)

(** What the function does that the outside sees. *)
Inductive Event : Type :=
  | EvGetSession
  | EvQuery (id : string) (attempt : nat)
  | EvDelay (ms : nat).

Definition emit (e : Event) : M (list Event) unit := modify (fun t => (t ++ [e])%list).

(** [const delay = (ms) => new Promise(resolve => setTimeout(resolve, ms))] *)
Definition delay (ms : nat) : M (list Event) unit := emit (EvDelay ms).

(** One answer of the backend to the profile query: the [{ data, error }]
    the awaited query resolves to (or what it rejects with), and whether the
    2000 ms timer armed before the query fired before the query settled. *)
Record QueryOutcome : Type := {
  q_result : Completion (JsVal * JsVal);
  q_timer_fired : bool
}.

(** The backend, as it answers the [attempt]-th query for [id]. *)
Definition Backend : Type := string -> nat -> QueryOutcome.

(** A truthy [data] read as a row: a value that is not an object has none
    of the row's properties. *)
Definition as_row (data : JsVal) : gmap string JsVal :=
  match data with
  | JObj o => o
  | _ => ∅
  end.

(** Evaluation of an identifier that no enclosing function or module scope
    binds: it is looked up as a property of the global object, and reading
    one that is not there throws a [ReferenceError]. *)
Definition free_identifier {W} (globalThis : gmap string JsVal) (x : string) : M W JsVal :=
  match globalThis !! x with
  | Some v => ret v
  | None => throw (JsError (x ++ " is not defined"))
  end.

(** How one iteration of a loop body ends: it falls through to the next
    iteration or returns from the function. *)
Inductive Step (A : Type) : Type :=
  | Next
  | Return (a : A).
Arguments Next {A}.
Arguments Return {A} a.

(** [for (let attempt = first; attempt <= last; attempt++) body], for a body
    that does not assign [attempt]: the attempts are run in order until one
    returns, and [after] follows the loop. *)
Fixpoint for_attempts {W A} (body : nat -> M W (Step A)) (attempts : list nat)
    (after : M W A) : M W A :=
  match attempts with
  | [] => after
  | attempt :: rest =>
      let* s := body attempt in
      match s with
      | Return r => ret r
      | Next => for_attempts body rest after
      end
  end.

(** The body of the [for] loop of [getUserData].

    [const { data, error }] is declared inside the [try] block, so the two
    names are in scope up to the end of that block only (inside it [error]
    is only logged).  The statements after the [catch] read [error] and
    [data] again: there the names are bound by no block, by no parameter of
    the function and by no declaration or import of the module, and so they
    are free identifiers. *)
Definition attempt_body (backend : Backend) (globalThis : gmap string JsVal)
    (id : string) (attempt : nat) : M (list Event) (Step (option UserData)) :=
  run emit (EvQuery id attempt) then
  let q := backend id attempt in
  let* in_try :=
    try_catch
      (let* de := settle (q_result q) in
       let data := de.1 in
       if truthy data
       then ret (Return (Some (fromSupabase (as_row data))))
       else ret Next)
      (fun err => ret (Return None)) in
  match in_try with
  | Return r => ret (Return r)
  | Next =>
      if q_timer_fired q then ret (Return None) else
      let* error := free_identifier globalThis "error" in
      if truthy error && strict_neq_str (get error "code") "PGRST116"
      then ret (Return None) else
      let* data := free_identifier globalThis "data" in
      if truthy data
      then ret (Return (Some (fromSupabase (as_row data)))) else
      run when (attempt <? 3)%nat (delay (attempt * 500)) then
      ret Next
  end.

(** [getUserData(id)]: [None] is the [null] it resolves to.  The session is
    fetched first, for the log only: its result is not used and its failure
    is caught. *)
Definition getUserData (backend : Backend) (globalThis : gmap string JsVal)
    (id : string) : M (list Event) (option UserData) :=
  run emit EvGetSession then
  for_attempts (attempt_body backend globalThis id) (seq 1 3) (ret None).

(** The attempts that sent a query, and the pauses, in order. *)
Definition queries (t : list Event) : list nat :=
  omap (fun e => match e with EvQuery _ attempt => Some attempt | _ => None end) t.

Definition delays (t : list Event) : list nat :=
  omap (fun e => match e with EvDelay ms => Some ms | _ => None end) t.

End AuthService.

(* ===================================================================== *)
(** * utils/cache.ts *)
(* ===================================================================== *)

Module Cache.
Import Js Js.Notations.

(** The world [robustSafeParse] acts on: the local store, the warnings
    written to the console, and the state [S] of the caller.  The callback
    [onCorrupt] is the caller's code: it is modelled by what it does to the
    caller's state (in StudyApp.tsx it sets the banner flag), and is taken
    to return. *)
Record World (S : Type) : Type := {
  localStorage : gmap string string;
  console : list string;
  caller : S
}.
Arguments localStorage {S} w.
Arguments console {S} w.
Arguments caller {S} w.

Section RobustSafeParse.
Context {S : Type}.

(** [JSON.parse]: the value a text denotes, or the [SyntaxError] thrown for
    a text that is not JSON. *)
Variable JSON_parse : string -> Completion JsVal.

(** [localStorage.getItem(key)]: [None] is [null]. *)
Definition getItem (key : string) : M (World S) (option string) :=
  fun w => (Normal (localStorage w !! key), w).

(** [localStorage.removeItem(key)] *)
Definition removeItem (key : string) : M (World S) unit :=
  modify (fun w =>
    {| localStorage := delete key (localStorage w);
       console := console w;
       caller := caller w |}).

(** [console.warn(...)], kept as the key it names. *)
Definition console_warn (key : string) : M (World S) unit :=
  modify (fun w =>
    {| localStorage := localStorage w;
       console := (console w ++ [key])%list;
       caller := caller w |}).

(** [onCorrupt()] *)
Definition call (onCorrupt : S -> S) : M (World S) unit :=
  modify (fun w =>
    {| localStorage := localStorage w;
       console := console w;
       caller := onCorrupt (caller w) |}).

Definition robustSafeParse (key : string) (fallback : JsVal)
    (onCorrupt : option (S -> S)) : M (World S) JsVal :=
  let* raw := getItem key in
  match raw with
  | None => ret fallback                          (* [!raw]: [null] *)
  | Some raw =>
      if String.eqb raw "" then ret fallback      (* [!raw]: the empty string *)
      else
        try_catch
          (settle (JSON_parse raw))
          (fun e =>
             run console_warn key then
             run removeItem key then
             run (match onCorrupt with
                  | Some f => call f
                  | None => ret tt
                  end) then
             ret fallback)
  end.

End RobustSafeParse.

(** The world after a corrupted entry under [key] was reset. *)
Definition reset_world {S : Type} (key : string) (onCorrupt : option (S -> S))
    (w : World S) : World S :=
  {| localStorage := delete key (localStorage w);
     console := (console w ++ [key])%list;
     caller := match onCorrupt with
               | Some f => f (caller w)
               | None => caller w
               end |}.

(** The texts of the three JSON literal names, read as [JSON.parse] reads
    them; every other text is refused.  It stands for [JSON.parse] where a
    statement is run on a concrete parser, and is used there only on texts
    on which the two agree: [null], the empty text and the cut text [{]. *)
Definition parse_literal (raw : string) : Completion JsVal :=
  if String.eqb raw "null" then Normal JNull
  else if String.eqb raw "true" then Normal (JBool true)
  else if String.eqb raw "false" then Normal (JBool false)
  else Throw (JsError "Unexpected token").

(** The specification's reading of [safeRead] on a blob stored under [key]
    that [JSON.parse] refuses: the fallback comes back, the key is gone and
    the callback has run once. *)
Definition corrupted_blob_is_reset {S : Type}
    (JSON_parse : string -> Completion JsVal)
    (key : string) (fallback : JsVal) (onCorrupt : S -> S) (w : World S) : Prop :=
  forall raw e,
    localStorage w !! key = Some raw ->
    JSON_parse raw = Throw e ->
    let '(r, w') := robustSafeParse JSON_parse key fallback (Some onCorrupt) w in
    r = Normal fallback
    /\ localStorage w' !! key = None
    /\ caller w' = onCorrupt (caller w).

End Cache.

(* ===================================================================== *)
(** * components/StudyApp.tsx, with the two services it awaits *)
(* ===================================================================== *)

Module StudyApp.
Import Js Js.Notations Types.

(** [Partial<UserData>], as the component passes it to [onUpdateUserData]:
    [None] is a field the object literal does not have. *)
Record PartialUserData : Type := {
  p_id : option string;
  p_username : option string;
  p_studyMode : option StudyMode;
  p_readThroughIndex : option Z;
  p_userSelectedChapter : option (option ChapterIdentifier);
  p_completedChapters : option (list string);
  p_bookmarks : option (list string);
  p_notes : option (gmap string string);
  p_cachedContent : option (gmap string CachedChapterContent);
  p_translation : option string;
  p_updated_at : option string
}.

(** [{ cachedContent: m }] *)
Definition cachedContent_update (m : gmap string CachedChapterContent) : PartialUserData :=
  {| p_id := None; p_username := None; p_studyMode := None;
     p_readThroughIndex := None; p_userSelectedChapter := None;
     p_completedChapters := None; p_bookmarks := None; p_notes := None;
     p_cachedContent := Some m; p_translation := None; p_updated_at := None |}.

(** [{ completedChapters: l }] *)
Definition completedChapters_update (l : list string) : PartialUserData :=
  {| p_id := None; p_username := None; p_studyMode := None;
     p_readThroughIndex := None; p_userSelectedChapter := None;
     p_completedChapters := Some l; p_bookmarks := None; p_notes := None;
     p_cachedContent := None; p_translation := None; p_updated_at := None |}.

(** The component's state that the pipeline sets. *)
Record View : Type := {
  verses : list Verse;
  deepDiveData : option DeepDiveData;
  allEnrichmentData : option AllEnrichmentData;
  isChapterLoading : bool
}.

(** The calls that leave the component. *)
Inductive Event : Type :=
  | EvGetPassage (passageRef translation : string)
  | EvDeepDive (identifier : ChapterIdentifier)
  | EvEnrichments (identifier : ChapterIdentifier)
  | EvUpdateUserData (data : PartialUserData).

Record World : Type := {
  view : View;
  trace : list Event
}.

(** The collaborators, by the outcome of each awaited call:
    - [getPassage] of bibleApiService.ts, which resolves to the passage or
      rejects with the error it caught;
    - the AI completion for the deep dive and for the enrichments, each
      followed by [JSON.parse] of its text ([None] is a parsed [null]);
    - the parent's [onUpdateUserData], which writes the profile. *)
Record Services : Type := {
  getPassage : string -> string -> Completion Passage;
  generateDeepDive : ChapterIdentifier -> Completion (option DeepDiveData);
  generateEnrichments : ChapterIdentifier -> Completion (option AllEnrichmentData);
  updateUserData : PartialUserData -> Completion unit
}.

Definition emit (e : Event) : M World unit :=
  modify (fun w => {| view := view w; trace := (trace w ++ [e])%list |}).

Definition setVerses (vs : list Verse) : M World unit :=
  modify (fun w =>
    {| view := {| verses := vs;
                  deepDiveData := deepDiveData (view w);
                  allEnrichmentData := allEnrichmentData (view w);
                  isChapterLoading := isChapterLoading (view w) |};
       trace := trace w |}).

Definition setDeepDiveData (d : option DeepDiveData) : M World unit :=
  modify (fun w =>
    {| view := {| verses := verses (view w);
                  deepDiveData := d;
                  allEnrichmentData := allEnrichmentData (view w);
                  isChapterLoading := isChapterLoading (view w) |};
       trace := trace w |}).

Definition setAllEnrichmentData (a : option AllEnrichmentData) : M World unit :=
  modify (fun w =>
    {| view := {| verses := verses (view w);
                  deepDiveData := deepDiveData (view w);
                  allEnrichmentData := a;
                  isChapterLoading := isChapterLoading (view w) |};
       trace := trace w |}).

Definition setIsChapterLoading (b : bool) : M World unit :=
  modify (fun w =>
    {| view := {| verses := verses (view w);
                  deepDiveData := deepDiveData (view w);
                  allEnrichmentData := allEnrichmentData (view w);
                  isChapterLoading := b |};
       trace := trace w |}).

(** [await onUpdateUserData(data)] *)
Definition onUpdateUserData (svc : Services) (data : PartialUserData) : M World unit :=
  run emit (EvUpdateUserData data) then
  settle (updateUserData svc data).

(** ** services/bibleApiService.ts *)

(** [{...v, text: v.text.replace(/\n/g, ' ').trim()}] *)
Definition clean_verse (v : Verse) : Verse :=
  {| book_id := book_id v;
     book_name := book_name v;
     verse_chapter := verse_chapter v;
     verse := verse v;
     text := trim (replace_newlines (text v)) |}.

Definition getChapterTextFromApi (svc : Services) (identifier : ChapterIdentifier)
    (translation : string) : M World (list Verse) :=
  let passageRef := book identifier ++ " " ++ number_to_string (chapter identifier) in
  try_catch
    (run emit (EvGetPassage passageRef translation) then
     let* passageData := settle (getPassage svc passageRef translation) in
     match passage_verses passageData with
     | Some (v :: vs) => ret (map clean_verse (v :: vs))
     | Some [] | None =>
         throw (JsError
           (if String.eqb (passage_text passageData) ""
            then "Passage not found or API returned empty/malformed verses."
            else passage_text passageData))
     end)
    (fun error => throw error).

(** ** services/geminiService.ts *)

Definition emptyEnrichments : AllEnrichmentData :=
  {| crossReferences := Some [];
     wordStudies := Some [];
     historicalContext := Some {| geography := ""; customs := ""; politicalClimate := "" |};
     literaryAnalysis := Some {| structure := ""; themes := [] |};
     interpretations := Some [] |}.

Definition getChapterDeepDive (svc : Services) (identifier : ChapterIdentifier)
    : M World (option DeepDiveData) :=
  try_catch
    (run emit (EvDeepDive identifier) then
     settle (generateDeepDive svc identifier))
    (fun error => ret None).

Definition getAllChapterEnrichments (svc : Services) (identifier : ChapterIdentifier)
    : M World (option AllEnrichmentData) :=
  try_catch
    (run emit (EvEnrichments identifier) then
     settle (generateEnrichments svc identifier))
    (fun error => ret (Some emptyEnrichments)).

(** ** The component *)

Definition getCacheKey (identifier : ChapterIdentifier) (translation : string) : string :=
  replace_spaces "_" (book identifier) ++ "-"
  ++ number_to_string (chapter identifier) ++ "-" ++ translation.

(** [currentChapter ? `${book.replace(/\s/g, '_')}-${chapter}` : null] *)
Definition chapterIdentifierKey (currentChapter : option ChapterIdentifier) : option string :=
  match currentChapter with
  | Some c => Some (replace_spaces "_" (book c) ++ "-" ++ number_to_string (chapter c))
  | None => None
  end.

(** The message of the [catch] block. *)
Definition errorMessage (error : Thrown) : string :=
  match error with
  | JsError message =>
      if includes message "quota"
      then "Failed to load chapter data: Daily API quota exceeded. Please try again tomorrow."
      else "There was an error loading the chapter text: " ++ message ++ ". Please try again."
  | NonError _ =>
      "There was an error loading the chapter text: " ++ "Unknown error" ++ ". Please try again."
  end.

(** The verse the [catch] block shows in place of the chapter. *)
Definition errorVerse (currentChapter : ChapterIdentifier) (error : Thrown) : Verse :=
  {| book_id := "";
     book_name := book currentChapter;
     verse_chapter := chapter currentChapter;
     verse := 0;
     text := errorMessage error |}.

(** The [try] block of [fetchAllChapterData].  The two AI calls are started
    together and awaited together; neither rejects, so running one after
    the other gives the same events and the same results. *)
Definition fetchBody (svc : Services) (safeCachedContent : gmap string CachedChapterContent)
    (currentChapter : ChapterIdentifier) (cacheKey safeTranslation : string) : M World unit :=
  let* chapterVerses := getChapterTextFromApi svc currentChapter safeTranslation in
  run setVerses chapterVerses then
  let* deepDive := getChapterDeepDive svc currentChapter in
  let* enrichments := getAllChapterEnrichments svc currentChapter in
  run setDeepDiveData deepDive then
  run setAllEnrichmentData enrichments then
  (* [if (chapterVerses.length > 0 && deepDive && enrichments)] *)
  match chapterVerses, deepDive, enrichments with
  | _ :: _, Some _, Some en =>
      let dataToCache :=
        {| cc_verses := chapterVerses;
           cc_deepDiveData := deepDive;
           cc_allEnrichmentData := en |} in
      onUpdateUserData svc (cachedContent_update (<[cacheKey := dataToCache]> safeCachedContent))
  | _, _, _ => ret tt
  end.

(** The [catch] block. *)
Definition fetchFallback (currentChapter : ChapterIdentifier) (error : Thrown) : M World unit :=
  run setVerses [errorVerse currentChapter error] then
  setAllEnrichmentData (Some emptyEnrichments).

Definition fetchAllChapterData (svc : Services)
    (safeCachedContent : gmap string CachedChapterContent)
    (currentChapter : ChapterIdentifier) (cacheKey safeTranslation : string) : M World unit :=
  run setIsChapterLoading true then
  match safeCachedContent !! cacheKey with
  | Some cachedData =>
      run setVerses (cc_verses cachedData) then
      run setDeepDiveData (cc_deepDiveData cachedData) then
      run setAllEnrichmentData (Some (cc_allEnrichmentData cachedData)) then
      setIsChapterLoading false
  | None =>
      run setVerses [] then
      run setDeepDiveData None then
      run setAllEnrichmentData None then
      try_finally
        (try_catch
           (fetchBody svc safeCachedContent currentChapter cacheKey safeTranslation)
           (fetchFallback currentChapter))
        (setIsChapterLoading false)
  end.

(** The effect that runs the pipeline:
    [if (currentChapter && cacheKey && safeStudyMode !== StudyMode.SCRIPTURE_READER)]. *)
Definition chapterEffect (svc : Services)
    (safeCachedContent : gmap string CachedChapterContent)
    (currentChapter : option ChapterIdentifier) (safeStudyMode : StudyMode)
    (safeTranslation : string) : M World unit :=
  match currentChapter with
  | Some c =>
      let cacheKey := getCacheKey c safeTranslation in
      if negb (String.eqb cacheKey "") && negb (bool_decide (safeStudyMode = SCRIPTURE_READER))
      then fetchAllChapterData svc safeCachedContent c cacheKey safeTranslation
      else setIsChapterLoading false
  | None => setIsChapterLoading false
  end.

(** [safeCompletedChapters.includes(key)] *)
Definition list_includes (l : list string) (key : string) : bool :=
  existsb (String.eqb key) l.

Definition markChapterComplete (svc : Services) (chapterIdentifierKey : option string)
    (safeCompletedChapters : list string) : M World unit :=
  match chapterIdentifierKey with
  | Some key =>
      if negb (String.eqb key "") && negb (list_includes safeCompletedChapters key)
      then onUpdateUserData svc
             (completedChapters_update (safeCompletedChapters ++ [key])%list)
      else ret tt
  | None => ret tt
  end.

(** ** Reading a run *)

(** A run starts with some view on the screen and nothing sent yet. *)
Definition start (v : View) : World := {| view := v; trace := [] |}.

(** The profile updates a run sent, in order. *)
Definition updates (t : list Event) : list PartialUserData :=
  omap (fun e => match e with EvUpdateUserData p => Some p | _ => None end) t.

(** The calls to the AI service a run made. *)
Definition ai_calls (t : list Event) : list Event :=
  List.filter (fun e => match e with EvDeepDive _ | EvEnrichments _ => true | _ => false end) t.

(** The profile's cache mapping once the updates of a run are stored: an
    update that carries [cachedContent] replaces the mapping. *)
Definition cachedContent_after (cache : gmap string CachedChapterContent)
    (t : list Event) : gmap string CachedChapterContent :=
  fold_left (fun m p => default m (p_cachedContent p)) (updates t) cache.

(** Likewise for the list of completed chapters. *)
Definition completedChapters_after (completed : list string) (t : list Event) : list string :=
  fold_left (fun l p => default l (p_completedChapters p)) (updates t) completed.

(** What the three fetches of a chapter give, read off a run of each. *)
Definition fetched_verses (svc : Services) (c : ChapterIdentifier) (translation : string)
    (v : View) : Completion (list Verse) :=
  (getChapterTextFromApi svc c translation (start v)).1.

Definition fetched_deepDive (svc : Services) (c : ChapterIdentifier) (v : View)
    : Completion (option DeepDiveData) :=
  (getChapterDeepDive svc c (start v)).1.

Definition fetched_enrichments (svc : Services) (c : ChapterIdentifier) (v : View)
    : Completion (option AllEnrichmentData) :=
  (getAllChapterEnrichments svc c (start v)).1.

(** A fetch that got everything: the key was not in the cache, the verse
    list is not empty, and neither AI result is [null]. *)
Definition complete_fetch (svc : Services) (cache : gmap string CachedChapterContent)
    (c : ChapterIdentifier) (key translation : string) (v : View)
    (vs : list Verse) (dd : DeepDiveData) (en : AllEnrichmentData) : Prop :=
  cache !! key = None
  /\ fetched_verses svc c translation v = Normal vs
  /\ vs <> []
  /\ fetched_deepDive svc c v = Normal (Some dd)
  /\ fetched_enrichments svc c v = Normal (Some en).

(** The world on entry to the [try] statement: the view was cleared and
    nothing was sent. *)
Definition cleared : World :=
  {| view := {| verses := []; deepDiveData := None; allEnrichmentData := None;
                isChapterLoading := true |};
     trace := [] |}.

(** A message mentions a word when the word is a part of it. *)
Definition mentions (s word : string) : Prop := exists a b, s = a ++ word ++ b.

(** ** Book names that differ in whitespace only *)

(** Every run of whitespace made one space: the usual normal form under
    which two texts differ in whitespace only. *)
Fixpoint collapse_spaces (s : string) : string :=
  match s with
  | EmptyString => EmptyString
  | String c s' =>
      if is_space c then
        match s' with
        | String c' _ => if is_space c' then collapse_spaces s' else String " " (collapse_spaces s')
        | EmptyString => String " " EmptyString
        end
      else String c (collapse_spaces s')
  end.

(** Two names of the same length that agree character by character, except
    that where one has a whitespace character the other may have another. *)
Fixpoint same_but_space_kind (a b : string) : bool :=
  match a, b with
  | EmptyString, EmptyString => true
  | String x a', String y b' =>
      (Ascii.eqb x y || (is_space x && is_space y)) && same_but_space_kind a' b'
  | _, _ => false
  end.

(** The claim as stated: names that differ in whitespace only, that is,
    names with the same normal form, get the same key. *)
Definition key_ignores_whitespace : Prop :=
  forall b1 b2 ch tr,
    collapse_spaces b1 = collapse_spaces b2 ->
    getCacheKey {| book := b1; chapter := ch |} tr
    = getCacheKey {| book := b2; chapter := ch |} tr.

End StudyApp.

(* ===================================================================== *)
(** * Scenarios: concrete collaborators and stored data *)
(* ===================================================================== *)

Module Scenarios.
Import Js Types AuthService Cache StudyApp.

Definition genesis1 : ChapterIdentifier := {| book := "Genesis"; chapter := 1 |}.

Definition genesis_1_1 : Verse :=
  {| book_id := "GEN";
     book_name := "Genesis";
     verse_chapter := 1;
     verse := 1;
     text := "In the beginning, God created the heavens and the earth." |}.

Definition genesis_passage : Passage :=
  {| reference := "Genesis 1";
     passage_verses := Some [genesis_1_1];
     passage_text := "In the beginning, God created the heavens and the earth.";
     translation_id := "web";
     translation_name := "World English Bible";
     translation_note := "Public Domain" |}.

Definition genesis_deepDive : DeepDiveData :=
  {| summaryAndThemes := "Creation in six days";
     dd_historicalContext := "Ancient Near East";
     keyVerses := [("Genesis 1:1", "God is the maker of all that is")];
     reflectionQuestions := ["What does rest mean?"] |}.

(** Enrichments with content: one cross-reference. *)
Definition genesis_enrichments : AllEnrichmentData :=
  {| crossReferences :=
       Some [ {| cr_reference := "John 1:1";
                 cr_explanation := "The Word was in the beginning";
                 cr_verse := Some 1%Z |} ];
     wordStudies := Some [];
     historicalContext :=
       Some {| geography := "Mesopotamia"; customs := ""; politicalClimate := "" |};
     literaryAnalysis := Some {| structure := "Seven days"; themes := ["order"] |};
     interpretations := Some [] |}.

(** Every collaborator answers. *)
Definition full_service : Services :=
  {| getPassage := fun _ _ => Normal genesis_passage;
     generateDeepDive := fun _ => Normal (Some genesis_deepDive);
     generateEnrichments := fun _ => Normal (Some genesis_enrichments);
     updateUserData := fun _ => Normal tt |}.

(** The text API refuses with a quota error; the AI service would answer. *)
Definition quota_on_text : Services :=
  {| getPassage := fun _ _ => Throw (JsError "Request failed: quota exceeded");
     generateDeepDive := fun _ => Normal (Some genesis_deepDive);
     generateEnrichments := fun _ => Normal (Some genesis_enrichments);
     updateUserData := fun _ => Normal tt |}.

(** The view before anything was loaded. *)
Definition blank : View :=
  {| verses := []; deepDiveData := None; allEnrichmentData := None;
     isChapterLoading := false |}.

(** A profile row whose study mode is a string the enumeration does not
    have: the row type allows it ([study_mode: string | null]). *)
Definition row_with_unknown_mode : gmap string JsVal :=
  {[ "id" := JStr "u1"; "study_mode" := JStr "Weekly Plan" ]}.

(** The answer "no row yet": the query resolves before the timer fires, with
    no [data] and the error whose code is [PGRST116]. *)
Definition row_not_found : QueryOutcome :=
  {| q_result :=
       Normal (JNull,
               JObj {[ "code" := JStr "PGRST116";
                       "message" := JStr "JSON object requested, multiple (or no) rows returned" ]});
     q_timer_fired := false |}.

(** A backend on which the profile row never shows up. *)
Definition never_found : Backend := fun _ _ => row_not_found.

(** A store whose entry under [cachedContent] is the empty string, and a
    caller that counts the calls of its callback. *)
Definition store_with_empty_blob : Cache.World nat :=
  {| localStorage := {[ "cachedContent" := "" ]}; console := []; caller := 0 |}.

(** A store whose entry under [cachedContent] is cut short. *)
Definition store_with_cut_blob : Cache.World nat :=
  {| localStorage := {[ "cachedContent" := "{" ; "enrichmentCollapsed" := "true" ]};
     console := [];
     caller := 0 |}.

(** A store that holds the text [null] where the cache mapping belongs. *)
Definition store_with_null : Cache.World nat :=
  {| localStorage := {[ "cachedContent" := "null" ]}; console := []; caller := 0 |}.

End Scenarios.

(* ===================================================================== *)
(** * What the specification says of the codec, as predicates *)
(* ===================================================================== *)

Module CodecSpec.
Import Js Types AuthService.

(** A decoded profile whose containers and study mode have the kinds the
    [UserData] interface declares. *)
Definition decoded_well_formed (u : UserData) : Prop :=
  Array_isArray (completedChapters u) = true
  /\ Array_isArray (bookmarks u) = true
  /\ is_object (notes u) = true
  /\ is_object (cachedContent u) = true
  /\ is_StudyMode (studyMode u) = true.

(** A wire value that is absent or empty in the sense of [||]. *)
Definition missing (v : JsVal) : Prop := truthy v = false.

(** The defaults, each taken when the wire value is missing. *)
Definition defaults_substituted (profile : gmap string JsVal) (u : UserData) : Prop :=
  (missing (prop profile "username") -> username u = JStr "User")
  /\ (missing (prop profile "study_mode") -> studyMode u = JStr "Read Through")
  /\ (Array_isArray (prop profile "completed_chapters") = false -> completedChapters u = JArr [])
  /\ (Array_isArray (prop profile "bookmarks") = false -> bookmarks u = JArr [])
  /\ (missing (prop profile "notes") -> notes u = JObj ∅)
  /\ (missing (prop profile "cached_content") -> cachedContent u = JObj ∅)
  /\ (missing (prop profile "translation") -> translation u = JStr "web").

(** The patch holds the wire key of every field of [fields] the update
    has, and no other key. *)
Definition patch_keys_are (fields : list (string * string))
    (data patch : gmap string JsVal) : Prop :=
  forall w, w ∈ dom patch <-> exists f, (f, w) ∈ fields /\ prop data f <> JUndefined.

(** The claim as stated, over every field of [UserData]. *)
Definition encode_covers_every_field (data : gmap string JsVal) : Prop :=
  patch_keys_are wire_names data (toSupabase data).

End CodecSpec.

(* ===================================================================== *)
(** * utils/cache.ts: the older reader *)
(* ===================================================================== *)

Module CacheLegacy.
Import Js Js.Notations.

(** [safeParse(raw, fallback)]: the deprecated reader, which is handed the
    stored item and touches nothing. *)
Definition safeParse {W : Type} (JSON_parse : string -> Completion JsVal)
    (raw : option string) (fallback : JsVal) : M W JsVal :=
  match raw with
  | None => ret fallback                          (* [!raw]: [null] *)
  | Some raw =>
      if String.eqb raw "" then ret fallback      (* [!raw]: the empty string *)
      else try_catch (settle (JSON_parse raw)) (fun e => ret fallback)
  end.

End CacheLegacy.

(* ===================================================================== *)
(** * services/authService.ts: writing and creating a profile *)
(* ===================================================================== *)

Module Profiles.
Import Js Js.Notations Types AuthService.

(** A decoded profile as the object it is at run time. *)
Definition as_object (u : UserData) : gmap string JsVal :=
  {[ "id" := id u;
     "username" := username u;
     "studyMode" := studyMode u;
     "readThroughIndex" := readThroughIndex u;
     "userSelectedChapter" := userSelectedChapter u;
     "completedChapters" := completedChapters u;
     "bookmarks" := bookmarks u;
     "notes" := notes u;
     "cachedContent" := cachedContent u;
     "translation" := translation u;
     "updated_at" := updated_at u ]}.

(** The row the backend holds after an update: the columns the patch names
    take the patch's values, the others stay. *)
Definition stored (row patch : gmap string JsVal) : gmap string JsVal :=
  patch ∪ row.

(** ** updateUserData *)

Inductive WriteEvent : Type :=
  | EvUpdate (id : string) (patch : gmap string JsVal).

(** [updateUserData(id, data)].  [update] is the backend's answer to the
    update call, the [error] of the [{ error }] it resolves to (or what it
    rejects with); [now] is [new Date().toISOString()]. *)
Definition updateUserData (update : string -> gmap string JsVal -> Completion JsVal)
    (now : string) (id : string) (data : gmap string JsVal) : M (list WriteEvent) unit :=
  let updateData := toSupabase data in
  (* [{ ...updateData, updated_at: now }] *)
  let patch := <["updated_at" := JStr now]> updateData in
  run modify (fun t => (t ++ [EvUpdate id patch])%list) then
  let* error := settle (update id patch) in
  (* [if (error) console.error(...)] *)
  ret tt.

(** ** createProfileForUser *)

(** The error of an insert, as far as the function reads it. *)
Record PostgrestError : Type := {
  code : string;
  message : string
}.

Inductive ProfileEvent : Type :=
  | EvInsert (row : gmap string JsVal)
  | EvRead (e : Event).

(** The backend: the [{ data, error }] an insert of a row resolves to (or
    what it rejects with), and its answers to the profile query. *)
Record ProfileBackend : Type := {
  insert : gmap string JsVal -> Completion (JsVal * option PostgrestError);
  select : Backend
}.

(** [username && username.trim().length >= 3 ? username.trim()
     : `user_${id.substring(0, 8)}`]; [None] is [undefined] or [null]. *)
Definition baseUsername (id : string) (username : option string) : string :=
  match username with
  | Some u =>
      if negb (String.eqb u "") && (3 <=? String.length (trim u))%nat
      then trim u
      else "user_" ++ String.substring 0 8 id
  | None => "user_" ++ String.substring 0 8 id
  end.

Definition profileToInsert (id username : string) : gmap string JsVal :=
  {[ "id" := JStr id;
     "username" := JStr username;
     "study_mode" := JStr (StudyMode_value READ_THROUGH);
     "read_through_index" := JNum 0;
     "completed_chapters" := JArr [];
     "bookmarks" := JArr [];
     "notes" := JObj ∅;
     "cached_content" := JObj ∅;
     "translation" := JStr "web" ]}.

(** [await supabase.from('profiles').insert(row).select(...).single()] *)
Definition do_insert (backend : ProfileBackend) (row : gmap string JsVal)
    : M (list ProfileEvent) (JsVal * option PostgrestError) :=
  run modify (fun t => (t ++ [EvInsert row])%list) then
  settle (insert backend row).

(** A call of [getUserData] from here: what it does is added to the log. *)
Definition read_profile (backend : ProfileBackend) (globalThis : gmap string JsVal)
    (id : string) : M (list ProfileEvent) (option UserData) :=
  fun t =>
    let '(r, reads) := getUserData (select backend) globalThis id [] in
    (r, (t ++ map EvRead reads)%list).

(** [createProfileForUser(id, username)].  [suffix] is
    [Math.random().toString(36).substring(2, 6)]. *)
Definition createProfileForUser (backend : ProfileBackend)
    (globalThis : gmap string JsVal) (suffix : string)
    (id : string) (username : option string) : M (list ProfileEvent) (option UserData) :=
  let base := baseUsername id username in
  let profile := profileToInsert id base in
  let* first := do_insert backend profile in
  let* result :=
    match first.2 with
    | Some error =>
        if String.eqb (code error) "23505"
           && includes (message error) "profiles_username_key"
        then
          let fallbackUsername := base ++ "_" ++ suffix in
          do_insert backend (<["username" := JStr fallbackUsername]> profile)
        else ret first
    | None => ret first
    end in
  match result.2 with
  | Some error =>
      if String.eqb (code error) "23505"
      then read_profile backend globalThis id
      else ret None
  | None =>
      if truthy result.1
      then ret (Some (fromSupabase (as_row result.1)))
      else ret None
  end.

(** The rows a run inserted, in order. *)
Definition inserted (t : list ProfileEvent) : list (gmap string JsVal) :=
  omap (fun e => match e with EvInsert row => Some row | _ => None end) t.

(** The length of the [username] of a row, when it is a string. *)
Definition username_length (row : gmap string JsVal) : option nat :=
  match prop row "username" with
  | JStr s => Some (String.length s)
  | _ => None
  end.

(** What one inserted row looks like. *)
Definition fresh_row (id : string) (row : gmap string JsVal) : Prop :=
  prop row "id" = JStr id
  /\ (exists n, username_length row = Some n /\ (3 <= n)%nat)
  /\ prop row "study_mode" = JStr "Read Through"
  /\ prop row "read_through_index" = JNum 0
  /\ prop row "completed_chapters" = JArr []
  /\ prop row "bookmarks" = JArr []
  /\ prop row "notes" = JObj ∅
  /\ prop row "cached_content" = JObj ∅
  /\ prop row "translation" = JStr "web".

End Profiles.

(* ===================================================================== *)
(** * components/StudyApp.tsx: moving between chapters *)
(* ===================================================================== *)

Module Navigation.
Import Js Js.Notations Types StudyApp.

(** [Book] of types.ts.  The table [BIBLE_BOOKS] and the list
    [READING_PLAN] of constants.ts are parameters of what follows. *)
Record Book : Type := {
  name : string;
  chapters : Z;
  testament : string
}.

(** [{ readThroughIndex: i }] *)
Definition readThroughIndex_update (i : Z) : PartialUserData :=
  {| p_id := None; p_username := None; p_studyMode := None;
     p_readThroughIndex := Some i; p_userSelectedChapter := None;
     p_completedChapters := None; p_bookmarks := None; p_notes := None;
     p_cachedContent := None; p_translation := None; p_updated_at := None |}.

(** [{ userSelectedChapter: { book, chapter } }] *)
Definition userSelectedChapter_update (c : ChapterIdentifier) : PartialUserData :=
  {| p_id := None; p_username := None; p_studyMode := None;
     p_readThroughIndex := None; p_userSelectedChapter := Some (Some c);
     p_completedChapters := None; p_bookmarks := None; p_notes := None;
     p_cachedContent := None; p_translation := None; p_updated_at := None |}.

(** [{ bookmarks: l }] *)
Definition bookmarks_update (l : list string) : PartialUserData :=
  {| p_id := None; p_username := None; p_studyMode := None;
     p_readThroughIndex := None; p_userSelectedChapter := None;
     p_completedChapters := None; p_bookmarks := Some l; p_notes := None;
     p_cachedContent := None; p_translation := None; p_updated_at := None |}.

(** The [currentChapter] memo.  [safeReadingPlan[i] || null] is the [i]-th
    entry, and [null] for an index that is negative or past the end. *)
Definition currentChapter (safeStudyMode : StudyMode) (safeReadThroughIndex : Z)
    (safeUserSelectedChapter : option ChapterIdentifier)
    (safeReadingPlan : list ChapterIdentifier) : option ChapterIdentifier :=
  if bool_decide (safeStudyMode = READ_THROUGH) then
    if (safeReadThroughIndex <? Z.of_nat (length safeReadingPlan))%Z
    then (if (0 <=? safeReadThroughIndex)%Z
          then safeReadingPlan !! Z.to_nat safeReadThroughIndex
          else None)
    else None
  else safeUserSelectedChapter.

(** [books.find(b => b.name === book)] *)
Definition find_book (books : list Book) (book : string) : option Book :=
  List.find (fun b => String.eqb (name b) book) books.

(** [books.findIndex(b => b.name === book)]: [-1] when there is none. *)
Fixpoint findIndex (books : list Book) (book : string) : Z :=
  match books with
  | [] => -1
  | b :: rest =>
      if String.eqb (name b) book then 0
      else let i := findIndex rest book in
           if (i <? 0)%Z then -1 else (i + 1)%Z
  end.

(** [books[i]] for an integer [i]; reading a property of the [undefined] an
    index outside the table gives throws a [TypeError]. *)
Definition book_at (books : list Book) (i : Z) : M World Book :=
  match (if (0 <=? i)%Z then books !! Z.to_nat i else None) with
  | Some b => ret b
  | None => throw (JsError "Cannot read properties of undefined")
  end.

Definition handleNextChapter (svc : Services) (safeBibleBooks : list Book)
    (safeReadingPlan : list ChapterIdentifier) (safeStudyMode : StudyMode)
    (safeReadThroughIndex : Z) (safeUserSelectedChapter : option ChapterIdentifier)
    (safeCompletedChapters : list string) : M World unit :=
  let current := currentChapter safeStudyMode safeReadThroughIndex
                   safeUserSelectedChapter safeReadingPlan in
  run markChapterComplete svc (chapterIdentifierKey current) safeCompletedChapters then
  if bool_decide (safeStudyMode = READ_THROUGH) then
    if (safeReadThroughIndex <? Z.of_nat (length safeReadingPlan) - 1)%Z
    then onUpdateUserData svc (readThroughIndex_update (safeReadThroughIndex + 1))
    else ret tt
  else
    match current with
    | Some c =>
        match find_book safeBibleBooks (book c) with
        | None => ret tt
        | Some currentBook =>
            if (chapter c <? chapters currentBook)%Z
            then onUpdateUserData svc
                   (userSelectedChapter_update {| book := book c; chapter := chapter c + 1 |})
            else
              let currentBookIndex := findIndex safeBibleBooks (book c) in
              if (-1 <? currentBookIndex)%Z
                 && (currentBookIndex <? Z.of_nat (length safeBibleBooks) - 1)%Z
              then
                let* nextBook := book_at safeBibleBooks (currentBookIndex + 1) in
                onUpdateUserData svc
                  (userSelectedChapter_update {| book := name nextBook; chapter := 1 |})
              else ret tt
        end
    | None => ret tt
    end.

Definition handlePreviousChapter (svc : Services) (safeBibleBooks : list Book)
    (safeReadingPlan : list ChapterIdentifier) (safeStudyMode : StudyMode)
    (safeReadThroughIndex : Z) (safeUserSelectedChapter : option ChapterIdentifier)
    : M World unit :=
  let current := currentChapter safeStudyMode safeReadThroughIndex
                   safeUserSelectedChapter safeReadingPlan in
  if bool_decide (safeStudyMode = READ_THROUGH) then
    if (0 <? safeReadThroughIndex)%Z
    then onUpdateUserData svc (readThroughIndex_update (safeReadThroughIndex - 1))
    else ret tt
  else
    match current with
    | Some c =>
        let currentBookIndex := findIndex safeBibleBooks (book c) in
        if (currentBookIndex =? -1)%Z then ret tt else
        if (1 <? chapter c)%Z
        then onUpdateUserData svc
               (userSelectedChapter_update {| book := book c; chapter := chapter c - 1 |})
        else
          if (0 <? currentBookIndex)%Z
          then
            let* prevBook := book_at safeBibleBooks (currentBookIndex - 1) in
            onUpdateUserData svc
              (userSelectedChapter_update
                 {| book := name prevBook; chapter := chapters prevBook |})
          else ret tt
    | None => ret tt
    end.

(** [handleToggleBookmark] *)
Definition handleToggleBookmark (svc : Services) (chapterIdentifierKey : option string)
    (safeBookmarks : list string) : M World unit :=
  match chapterIdentifierKey with
  | None => ret tt
  | Some key =>
      if String.eqb key "" then ret tt else
      let newBookmarks :=
        if list_includes safeBookmarks key
        then List.filter (fun b => negb (String.eqb b key)) safeBookmarks
        else (safeBookmarks ++ [key])%list in
      onUpdateUserData svc (bookmarks_update newBookmarks)
  end.

(** ** Reading a run *)

(** The chapter a run selected: the one of its last update that names
    [userSelectedChapter]. *)
Definition selected (t : list Event) : option ChapterIdentifier :=
  fold_left (fun s p => match p_userSelectedChapter p with
                        | Some c => c
                        | None => s
                        end) (updates t) None.

(** The read-through indexes a run sent. *)
Definition indexes (t : list Event) : list Z :=
  omap p_readThroughIndex (updates t).

(** The bookmark lists a run sent. *)
Definition bookmark_lists (t : list Event) : list (list string) :=
  omap p_bookmarks (updates t).

(** A chapter of the table: its book is there and its number is one of
    that book's chapters. *)
Definition in_canon (books : list Book) (c : ChapterIdentifier) : Prop :=
  exists b, b ∈ books /\ name b = book c /\ (1 <= chapter c <= chapters b)%Z.

(** A table as the canon is: no book name twice, a chapter in every book. *)
Definition canon (books : list Book) : Prop :=
  NoDup (map name books) /\ Forall (fun b => (1 <= chapters b)%Z) books.

(** The chapter the next-chapter handler moves to outside read-through
    mode, when the parent's updates resolve: the same steps as in
    [handleNextChapter], without the updates. *)
Definition next_target (books : list Book) (c : ChapterIdentifier) : option ChapterIdentifier :=
  match find_book books (book c) with
  | None => None
  | Some currentBook =>
      if (chapter c <? chapters currentBook)%Z
      then Some {| book := book c; chapter := chapter c + 1 |}
      else
        let i := findIndex books (book c) in
        if (-1 <? i)%Z && (i <? Z.of_nat (length books) - 1)%Z
        then match (if (0 <=? i + 1)%Z then books !! Z.to_nat (i + 1) else None) with
             | Some nextBook => Some {| book := name nextBook; chapter := 1 |}
             | None => None
             end
        else None
  end.

(** Likewise for [handlePreviousChapter]. *)
Definition previous_target (books : list Book) (c : ChapterIdentifier)
    : option ChapterIdentifier :=
  let i := findIndex books (book c) in
  if (i =? -1)%Z then None else
  if (1 <? chapter c)%Z
  then Some {| book := book c; chapter := chapter c - 1 |}
  else
    if (0 <? i)%Z
    then match (if (0 <=? i - 1)%Z then books !! Z.to_nat (i - 1) else None) with
         | Some prevBook => Some {| book := name prevBook; chapter := chapters prevBook |}
         | None => None
         end
    else None.

End Navigation.

(** ** A table and runs to try the handlers on *)

Module NavigationScenarios.
Import Js Types StudyApp Navigation.

(** The first two books of [BIBLE_BOOKS]. *)
Definition genesis_exodus : list Book :=
  [ {| name := "Genesis"; chapters := 50; testament := "Old" |};
    {| name := "Exodus"; chapters := 40; testament := "Old" |} ].

Definition genesis50 : ChapterIdentifier := {| book := "Genesis"; chapter := 50 |}.

Definition exodus1 : ChapterIdentifier := {| book := "Exodus"; chapter := 1 |}.

End NavigationScenarios.

(* ===================================================================== *)
(** * Chapter keys and their decoding (components/StudyApp.tsx, Sidebar.tsx) *)
(* ===================================================================== *)

Module ChapterKeys.
Import Js Types StudyApp Navigation.

(** [s.split(sep)] for a one-character separator: the pieces between the
    separators, one more than there are separators. *)
Fixpoint split (sep : ascii) (s : string) : list string :=
  match s with
  | EmptyString => [EmptyString]
  | String c s' =>
      if Ascii.eqb c sep then EmptyString :: split sep s'
      else match split sep s' with
           | p :: ps => String c p :: ps
           | [] => [String c EmptyString]
           end
  end.

(** [parts.pop()]: the last element, [undefined] for an empty array, and
    the array left. *)
Definition pop (parts : list string) : option string * list string :=
  (last parts, removelast parts).

(** [parts.join(sep)] *)
Definition join (sep : string) (parts : list string) : string :=
  String.concat sep parts.

(** [s.replace(/_/g, ' ')] *)
Definition replace_underscores (s : string) : string :=
  map_chars (fun c => if Ascii.eqb c "_"%char then " "%char else c) s.

Definition is_digit (c : ascii) : bool :=
  let n := nat_of_ascii c in (48 <=? n)%nat && (n <=? 57)%nat.

(** The decimal digits at the head of [s], read after [acc]; [None] while
    no digit was read. *)
Fixpoint parse_digits (acc : option Z) (s : string) : option Z :=
  match s with
  | EmptyString => acc
  | String c s' =>
      if is_digit c
      then parse_digits (Some (10 * default 0 acc + (Z.of_nat (nat_of_ascii c) - 48))%Z) s'
      else acc
  end.

(** [parseInt(s, 10)]: white space is skipped, then a sign and the longest
    run of digits are read; [None] stands for [NaN]. *)
Definition parseInt (s : string) : option Z :=
  match trim_start s with
  | EmptyString => None
  | String c s' =>
      if Ascii.eqb c "-"%char then Z.opp <$> parse_digits None s'
      else if Ascii.eqb c "+"%char then parse_digits None s'
      else parse_digits None (String c s')
  end.

(** The book and the chapter [handleRandomChapter] reads back from a key;
    [parseInt(undefined)] is [NaN]. *)
Definition decodeChapterKey (chapterToSetKey : string) : string * option Z :=
  let parts := split "-" chapterToSetKey in
  let '(chapterStr, parts) := pop parts in
  let bookNameWithUnderscores := join "-" parts in
  let book := replace_underscores bookNameWithUnderscores in
  let chapter := match chapterStr with
                 | Some s => parseInt s
                 | None => None
                 end in
  (book, chapter).

(** The same in the bookmark list of the sidebar, where
    [parts.pop() || '1'] is read. *)
Definition decodeBookmarkKey (bookmarkKey : string) : string * option Z :=
  let parts := split "-" bookmarkKey in
  let '(popped, parts) := pop parts in
  let chapterStr := match popped with
                    | Some s => if String.eqb s "" then "1" else s
                    | None => "1"
                    end in
  let bookNameWithUnderscores := join "-" parts in
  let book := replace_underscores bookNameWithUnderscores in
  (book, parseInt chapterStr).

(** [Array.from({ length: book.chapters }, (_, i) => `${name}-${i + 1}`)] *)
Definition chapter_keys (b : Book) : list string :=
  (fun i => replace_spaces "_" (name b) ++ "-" ++ number_to_string (i + 1))
    <$> seqZ 0 (chapters b).

Definition allChapters (safeBibleBooks : list Book) : list string :=
  flat_map chapter_keys safeBibleBooks.

Definition unreadChapters (safeBibleBooks : list Book) (safeCompletedChapters : list string)
    : list string :=
  List.filter (fun ch => negb (list_includes safeCompletedChapters ch))
    (allChapters safeBibleBooks).

(** [f] holds of every character. *)
Fixpoint all_chars (f : ascii -> bool) (s : string) : bool :=
  match s with
  | EmptyString => true
  | String c s' => f c && all_chars f s'
  end.

(** A name as the table of books has them: no underscore, and no white
    space but the plain space. *)
Definition plain_name (s : string) : bool :=
  all_chars (fun c => negb (Ascii.eqb c "_"%char)
                      && (negb (is_space c) || Ascii.eqb c " "%char)) s.

End ChapterKeys.

(* ===================================================================== *)
(** * More collaborators to run the pipeline with *)
(* ===================================================================== *)

Module PipelineScenarios.
Import Js Types StudyApp Scenarios.

(** The text API and the deep dive answer; the enrichment call fails. *)
Definition enrichments_down : Services :=
  {| getPassage := fun _ _ => Normal genesis_passage;
     generateDeepDive := fun _ => Normal (Some genesis_deepDive);
     generateEnrichments := fun _ => Throw (JsError "503 Service Unavailable");
     updateUserData := fun _ => Normal tt |}.

End PipelineScenarios.

(* ===================================================================== *)
(** * components/ChatPanel.tsx and the chat of services/geminiService.ts *)
(* ===================================================================== *)

Module ChatPanel.
Import Js Js.Notations.

(** [ChatMessage] of types.ts. *)
Inductive Role : Type := user | model.

Record ChatMessage : Type := {
  role : Role;
  content : string
}.


(** The state of the panel, the [chatInstance] of the service module
    (whether it is set), and the messages handed to [sendMessageStream]. *)
Record World : Type := {
  messages : list ChatMessage;
  input : string;
  isLoading : bool;
  chatInstance : bool;
  requests : list string
}.

Definition setMessages (f : list ChatMessage -> list ChatMessage) : M World unit :=
  modify (fun w =>
    {| messages := f (messages w); input := input w; isLoading := isLoading w;
       chatInstance := chatInstance w; requests := requests w |}).



(** [initializeChat(identifier)] of geminiService.ts sets [chatInstance]. *)
Definition initializeChat : M World unit :=
  modify (fun w =>
    {| messages := messages w; input := input w; isLoading := isLoading w;
       chatInstance := true; requests := requests w |}).


(** [setupChat] *)
Definition setupChat : M World unit :=
  run setMessages (fun _ => []) then
  initializeChat.






End ChatPanel.

(* ===================================================================== *)
(** * components/StudyView.tsx: what is shown of a chapter *)
(* ===================================================================== *)

Module StudyView.
Import Js Types StudyApp.








End StudyView.

(* ===================================================================== *)
(** * Properties of services/authService.ts *)
(* ===================================================================== *)

Module AuthServiceFacts.
Import Js Js.Notations Types AuthService Scenarios CodecSpec.

(** ** fromSupabase *)

Lemma or_else_missing v d : truthy v = false -> or_else v d = d.
Proof. unfold or_else. intros ->. reflexivity. Qed.

Lemma or_else_present v d : truthy v = true -> or_else v d = v.
Proof. unfold or_else. intros ->. reflexivity. Qed.

Lemma is_object_truthy v : is_object v = true -> truthy v = true.
Proof. destruct v; simpl; congruence. Qed.

Lemma is_StudyMode_truthy v : is_StudyMode v = true -> truthy v = true.
Proof.
  destruct v as [| | |z|s| |]; simpl; try congruence.
  destruct s; [vm_compute; congruence | reflexivity].
Qed.

Lemma fromSupabase_arrays profile :
  Array_isArray (completedChapters (fromSupabase profile)) = true
  /\ Array_isArray (bookmarks (fromSupabase profile)) = true.
Proof.
  unfold fromSupabase; simpl. split.
  - destruct (Array_isArray (prop profile "completed_chapters")) eqn:E; [exact E | reflexivity].
  - destruct (Array_isArray (prop profile "bookmarks")) eqn:E; [exact E | reflexivity].
Qed.

Lemma fromSupabase_defaults profile : defaults_substituted profile (fromSupabase profile).
Proof.
  unfold defaults_substituted, missing, fromSupabase; simpl.
  repeat split; intros H; rewrite ?H; try reflexivity; apply or_else_missing; exact H.
Qed.

(** The selected chapter is trusted only when it has the shape of one. *)
Lemma fromSupabase_selected_chapter profile :
  userSelectedChapter (fromSupabase profile) = JNull
  \/ (exists s z, get (userSelectedChapter (fromSupabase profile)) "book" = JStr s
               /\ get (userSelectedChapter (fromSupabase profile)) "chapter" = JNum z).
Proof.
  unfold fromSupabase; simpl.
  destruct (isChapterIdentifier (prop profile "user_selected_chapter")) eqn:E; [right | left; reflexivity].
  unfold isChapterIdentifier in E.
  apply andb_true_iff in E as [E Ec]. apply andb_true_iff in E as [_ Eb].
  destruct (get (prop profile "user_selected_chapter") "book"); try discriminate Eb.
  destruct (get (prop profile "user_selected_chapter") "chapter"); try discriminate Ec.
  eauto.
Qed.

(** C2, the claim as stated, fails: decoding the row
    [{ id: "u1", study_mode: "Weekly Plan" }] gives a profile whose study
    mode is ["Weekly Plan"], which is no member of [StudyMode]. *)
Lemma fromSupabase_keeps_unknown_mode :
  ~ decoded_well_formed (fromSupabase row_with_unknown_mode).
Proof.
  unfold decoded_well_formed. intros (_ & _ & _ & _ & Hmode).
  vm_compute in Hmode. discriminate Hmode.
Qed.

(** A truthy value that is no object is kept in [notes] as well. *)
Lemma fromSupabase_keeps_non_object_notes :
  notes (fromSupabase {[ "notes" := JNum 42 ]}) = JNum 42.
Proof. reflexivity. Qed.

(** C2, amended.  [fromSupabase] is a function on every row (missing keys
    read as [undefined]).  For every row the two array fields are arrays,
    and each documented default is taken when the wire value is missing,
    [null] or otherwise falsy.  [notes] and [cachedContent] are objects, and
    the study mode is a member of [StudyMode], when the wire value is
    missing or falsy, or is already of that kind. *)
Theorem fromSupabase_total_with_defaults (profile : gmap string JsVal) :
  let u := fromSupabase profile in
  Array_isArray (completedChapters u) = true
  /\ Array_isArray (bookmarks u) = true
  /\ defaults_substituted profile u
  /\ (missing (prop profile "notes") \/ is_object (prop profile "notes") = true ->
      is_object (notes u) = true)
  /\ (missing (prop profile "cached_content") \/ is_object (prop profile "cached_content") = true ->
      is_object (cachedContent u) = true)
  /\ (missing (prop profile "study_mode") \/ is_StudyMode (prop profile "study_mode") = true ->
      is_StudyMode (studyMode u) = true)
  /\ (missing (prop profile "notes") \/ is_object (prop profile "notes") = true ->
      missing (prop profile "cached_content") \/ is_object (prop profile "cached_content") = true ->
      missing (prop profile "study_mode") \/ is_StudyMode (prop profile "study_mode") = true ->
      decoded_well_formed u).
Proof.
  intros u.
  pose proof (fromSupabase_arrays profile) as [Hc Hb].
  assert (Hn : missing (prop profile "notes") \/ is_object (prop profile "notes") = true ->
               is_object (notes u) = true).
  { subst u; unfold fromSupabase, missing; simpl. intros [H | H].
    - rewrite or_else_missing by exact H. reflexivity.
    - rewrite or_else_present by (apply is_object_truthy; exact H). exact H. }
  assert (Hk : missing (prop profile "cached_content") \/ is_object (prop profile "cached_content") = true ->
               is_object (cachedContent u) = true).
  { subst u; unfold fromSupabase, missing; simpl. intros [H | H].
    - rewrite or_else_missing by exact H. reflexivity.
    - rewrite or_else_present by (apply is_object_truthy; exact H). exact H. }
  assert (Hm : missing (prop profile "study_mode") \/ is_StudyMode (prop profile "study_mode") = true ->
               is_StudyMode (studyMode u) = true).
  { subst u; unfold fromSupabase, missing; simpl. intros [H | H].
    - rewrite or_else_missing by exact H. reflexivity.
    - rewrite or_else_present by (apply is_StudyMode_truthy; exact H). exact H. }
  repeat split; try assumption; try (apply fromSupabase_defaults); auto.
Qed.

(** The amended statement at the row a fresh registration stores, with its
    [notes] and [cached_content] the empty object and no study mode yet. *)
Lemma fromSupabase_total_with_defaults_witness :
  decoded_well_formed
    (fromSupabase {[ "id" := JStr "u1"; "notes" := JObj ∅; "cached_content" := JObj ∅ ]}).
Proof.
  apply (fromSupabase_total_with_defaults
           {[ "id" := JStr "u1"; "notes" := JObj ∅; "cached_content" := JObj ∅ ]}).
  - right. reflexivity.
  - right. reflexivity.
  - left. reflexivity.
Defined.

(** ** toSupabase *)

Lemma copy_field_lookup data f w db k :
  copy_field data f w db !! k =
  if decide (w = k)
  then (if is_defined (prop data f) then Some (prop data f) else db !! k)
  else db !! k.
Proof.
  unfold copy_field. destruct (is_defined (prop data f)).
  - rewrite lookup_insert. reflexivity.
  - destruct (decide (w = k)); reflexivity.
Qed.

Lemma encoded_fields_eq :
  encoded_fields =
  [ ("username", "username");
    ("studyMode", "study_mode");
    ("readThroughIndex", "read_through_index");
    ("userSelectedChapter", "user_selected_chapter");
    ("completedChapters", "completed_chapters");
    ("bookmarks", "bookmarks");
    ("notes", "notes");
    ("cachedContent", "cached_content");
    ("translation", "translation") ].
Proof. reflexivity. Qed.

Lemma toSupabase_lookup data w : toSupabase data !! w = encoded_value data w.
Proof.
  unfold toSupabase. rewrite !copy_field_lookup, lookup_empty.
  unfold encoded_value.
  repeat (case_decide; [subst w; simpl; destruct (is_defined _); reflexivity |]).
  rewrite encoded_fields_eq. cbn [List.find fst snd].
  repeat match goal with
         | H : ?a <> w |- context [String.eqb ?a w] =>
             rewrite (proj2 (String.eqb_neq a w) H)
         end.
  reflexivity.
Qed.

Lemma is_defined_true v : is_defined v = true <-> v <> JUndefined.
Proof. destruct v; simpl; split; congruence. Qed.

Lemma encoded_fields_cases f w :
  (f, w) ∈ encoded_fields ->
  List.find (fun fw => String.eqb fw.2 w) encoded_fields = Some (f, w).
Proof.
  rewrite list_elem_of_In. simpl.
  intros H. repeat (destruct H as [[= <- <-] | H]; [reflexivity |]). destruct H.
Qed.

Lemma encoded_fields_find w fw :
  List.find (fun fw => String.eqb fw.2 w) encoded_fields = Some fw ->
  (fw.1, w) ∈ encoded_fields /\ fw.2 = w.
Proof.
  intros H. pose proof (find_some _ _ H) as [Hin Heq].
  apply String.eqb_eq in Heq. split; [| exact Heq].
  apply list_elem_of_In. destruct fw as [f w']. simpl in *. subst w'. exact Hin.
Qed.

Lemma toSupabase_keys data : patch_keys_are encoded_fields data (toSupabase data).
Proof.
  intros w. rewrite elem_of_dom, toSupabase_lookup. unfold encoded_value. split.
  - intros [v Hv].
    destruct (List.find _ encoded_fields) as [fw |] eqn:E; [| discriminate Hv].
    apply encoded_fields_find in E as [Hin _].
    destruct (is_defined (prop data fw.1)) eqn:D; [| discriminate Hv].
    exists fw.1. split; [exact Hin | apply is_defined_true; exact D].
  - intros (f & Hin & Hdef).
    rewrite (encoded_fields_cases _ _ Hin). simpl.
    apply is_defined_true in Hdef. rewrite Hdef. eauto.
Qed.

(** C6, the claim as stated, fails: the partial update [{ id: "u1" }] has
    the field [id], whose wire key is [id], and its patch is empty. *)
Lemma toSupabase_omits_id :
  ~ encode_covers_every_field {[ "id" := JStr "u1" ]}.
Proof.
  intros H. specialize (H "id").
  assert (Hin : "id" ∈ dom (toSupabase {[ "id" := JStr "u1" ]})).
  { apply H. exists "id". split.
    - apply list_elem_of_In. simpl. left. reflexivity.
    - vm_compute. discriminate. }
  apply elem_of_dom in Hin as [v Hv]. vm_compute in Hv. discriminate Hv.
Qed.

(** C6, amended.  For every partial update, the patch of [toSupabase] holds
    exactly the wire keys of the fields the update has (with a value other
    than [undefined]) among the nine fields the function encodes, each
    with the update's value; [id] and [updated_at] are never encoded.  An
    update that has one of the nine fields only gives the patch with that
    field's wire key only. *)
Theorem toSupabase_patch_has_present_fields_only (data : gmap string JsVal) :
  patch_keys_are encoded_fields data (toSupabase data)
  /\ (forall f w, (f, w) ∈ encoded_fields -> prop data f <> JUndefined ->
       toSupabase data !! w = Some (prop data f))
  /\ toSupabase data !! "id" = None
  /\ toSupabase data !! "updated_at" = None
  /\ (forall f w v, (f, w) ∈ encoded_fields -> v <> JUndefined ->
       toSupabase {[ f := v ]} = {[ w := v ]}).
Proof.
  split; [apply toSupabase_keys |].
  split.
  { intros f w Hin Hdef. rewrite toSupabase_lookup. unfold encoded_value.
    rewrite (encoded_fields_cases _ _ Hin). simpl.
    apply is_defined_true in Hdef. rewrite Hdef. reflexivity. }
  split; [rewrite toSupabase_lookup; reflexivity |].
  split; [rewrite toSupabase_lookup; reflexivity |].
  intros f w v Hin Hdef.
  apply list_elem_of_In in Hin. rewrite encoded_fields_eq in Hin.
  repeat (destruct Hin as [[= <- <-] | Hin];
          [destruct v; [congruence | vm_compute; reflexivity ..] |]).
  destruct Hin.
Qed.

(** The amended statement at the update [markChapterComplete] sends. *)
Lemma toSupabase_patch_has_present_fields_only_witness :
  toSupabase {[ "completedChapters" := JArr [JStr "Genesis-1"] ]}
  = {[ "completed_chapters" := JArr [JStr "Genesis-1"] ]}.
Proof.
  apply (toSupabase_patch_has_present_fields_only ∅).
  - apply list_elem_of_In. vm_compute. tauto.
  - discriminate.
Defined.

(** ** getUserData *)

(** An attempt whose query finds no row, and whose timer has not fired,
    reaches the read of [error] after the [try] statement. *)
Lemma attempt_body_not_found backend globalThis id attempt t data error :
  q_result (backend id attempt) = Normal (data, error) ->
  truthy data = false ->
  q_timer_fired (backend id attempt) = false ->
  globalThis !! "error" = None ->
  attempt_body backend globalThis id attempt t
  = (Throw (JsError "error is not defined"), (t ++ [EvQuery id attempt])%list).
Proof.
  intros Hq Hd Ht Hg.
  unfold attempt_body, bind, emit, modify, try_catch, settle, free_identifier, ret, throw.
  rewrite Hq. simpl. rewrite Hd, Ht, Hg. reflexivity.
Qed.

(** Whatever the backend answers, a page whose global object has no
    [error] property sends one query and never pauses: the first attempt
    returns or throws. *)
Lemma getUserData_single_attempt backend globalThis id :
  globalThis !! "error" = None ->
  queries (getUserData backend globalThis id []).2 = [1%nat]
  /\ delays (getUserData backend globalThis id []).2 = [].
Proof.
  intros Hg.
  unfold getUserData, for_attempts, attempt_body, bind, emit, modify,
    try_catch, settle, free_identifier, ret, throw.
  simpl.
  destruct (q_result (backend id 1%nat)) as [[data error] | e]; simpl.
  - destruct (truthy data); simpl.
    + split; reflexivity.
    + destruct (q_timer_fired (backend id 1%nat)); simpl.
      * split; reflexivity.
      * rewrite Hg. split; reflexivity.
  - split; reflexivity.
Qed.

(** C3: on a backend that answers "no row" to every query, in a page
    whose global object has no [error] property, [getUserData] sends the
    first query and then throws the [ReferenceError] of reading [error]
    outside the block that declares it: no pause, no second attempt, no
    [null]. *)
Theorem getUserData_not_found_throws :
  getUserData never_found ∅ "u1" []
  = (Throw (JsError "error is not defined"), [EvGetSession; EvQuery "u1" 1]).
Proof. reflexivity. Qed.

(** The loop around the attempts is the one the claim describes: were
    [error] and [data] global properties holding [undefined], three queries
    would go out, 500 ms and 1000 ms apart, and [null] come back. *)
Example getUserData_loop_shape :
  getUserData never_found {[ "error" := JUndefined; "data" := JUndefined ]} "u1" []
  = (Normal None,
     [EvGetSession; EvQuery "u1" 1; EvDelay 500; EvQuery "u1" 2; EvDelay 1000; EvQuery "u1" 3]).
Proof. reflexivity. Qed.

End AuthServiceFacts.

(* ===================================================================== *)
(** * Properties of utils/cache.ts *)
(* ===================================================================== *)

Module CacheFacts.
Import Js Js.Notations Cache Scenarios.

Section Facts.
Context {S : Type}.
Variable JSON_parse : string -> Completion JsVal.

Lemma robustSafeParse_no_item key fallback (onCorrupt : option (S -> S)) w :
  localStorage w !! key = None \/ localStorage w !! key = Some "" ->
  robustSafeParse JSON_parse key fallback onCorrupt w = (Normal fallback, w).
Proof.
  unfold robustSafeParse, bind, getItem, ret.
  intros [-> | ->]; reflexivity.
Qed.

Lemma robustSafeParse_valid key fallback (onCorrupt : option (S -> S)) w raw v :
  localStorage w !! key = Some raw ->
  raw <> "" ->
  JSON_parse raw = Normal v ->
  robustSafeParse JSON_parse key fallback onCorrupt w = (Normal v, w).
Proof.
  intros Hraw Hne Hv.
  unfold robustSafeParse, bind, getItem, ret, try_catch, settle.
  rewrite Hraw. apply String.eqb_neq in Hne. rewrite Hne, Hv. reflexivity.
Qed.

Lemma robustSafeParse_corrupt key fallback (onCorrupt : option (S -> S)) w raw e :
  localStorage w !! key = Some raw ->
  raw <> "" ->
  JSON_parse raw = Throw e ->
  robustSafeParse JSON_parse key fallback onCorrupt w
  = (Normal fallback, reset_world key onCorrupt w).
Proof.
  intros Hraw Hne He.
  unfold robustSafeParse, bind, getItem, ret, try_catch, settle.
  rewrite Hraw. apply String.eqb_neq in Hne. rewrite Hne, He.
  destruct onCorrupt; reflexivity.
Qed.

Lemma robustSafeParse_returns key fallback (onCorrupt : option (S -> S)) w :
  exists v, (robustSafeParse JSON_parse key fallback onCorrupt w).1 = Normal v.
Proof.
  destruct (localStorage w !! key) as [raw |] eqn:Hraw.
  - destruct (decide (raw = "")) as [-> | Hne].
    + rewrite robustSafeParse_no_item by (right; exact Hraw). eauto.
    + destruct (JSON_parse raw) as [v | e] eqn:Hp.
      * rewrite (robustSafeParse_valid _ _ _ _ _ _ Hraw Hne Hp). eauto.
      * rewrite (robustSafeParse_corrupt _ _ _ _ _ _ Hraw Hne Hp). eauto.
  - rewrite robustSafeParse_no_item by (left; exact Hraw). eauto.
Qed.

End Facts.

(** C8, the claim as stated, fails: the empty string is a stored blob that
    [JSON.parse] refuses, and [robustSafeParse] returns the fallback for it
    with the key still stored and the callback not called. *)
Lemma robustSafeParse_keeps_empty_blob :
  ~ corrupted_blob_is_reset parse_literal "cachedContent" (JObj ∅) Datatypes.S
      store_with_empty_blob.
Proof.
  intros H.
  specialize (H "" (JsError "Unexpected token") eq_refl eq_refl).
  destruct H as (_ & Hgone & _). vm_compute in Hgone. discriminate Hgone.
Qed.

(** C8, amended.  [robustSafeParse] always returns a value, it never
    throws.  On a stored blob that is not the empty string and that
    [JSON.parse] refuses, it returns the fallback, the key is deleted, one
    warning is logged and the callback, when one is given, has run exactly
    once.  On a stored blob that [JSON.parse] accepts it returns the parsed
    value and leaves the store and the caller as they were.  With no entry
    under the key, or the empty string, it returns the fallback and changes
    nothing. *)
Theorem robustSafeParse_resets_corrupted_entries {S : Type}
    (JSON_parse : string -> Completion JsVal)
    (JSON_parse_empty : forall v, JSON_parse "" <> Normal v)
    (key : string) (fallback : JsVal) (onCorrupt : option (S -> S)) (w : World S) :
  (exists v, (robustSafeParse JSON_parse key fallback onCorrupt w).1 = Normal v)
  /\ (forall raw e,
        localStorage w !! key = Some raw -> raw <> "" -> JSON_parse raw = Throw e ->
        robustSafeParse JSON_parse key fallback onCorrupt w
        = (Normal fallback, reset_world key onCorrupt w))
  /\ (forall raw v,
        localStorage w !! key = Some raw -> JSON_parse raw = Normal v ->
        robustSafeParse JSON_parse key fallback onCorrupt w = (Normal v, w))
  /\ (localStorage w !! key = None \/ localStorage w !! key = Some "" ->
      robustSafeParse JSON_parse key fallback onCorrupt w = (Normal fallback, w)).
Proof.
  split; [apply robustSafeParse_returns |].
  split; [intros raw e; apply robustSafeParse_corrupt |].
  split; [| apply robustSafeParse_no_item].
  intros raw v Hraw Hv. apply (robustSafeParse_valid _ _ _ _ _ raw); try assumption.
  intros ->. exact (JSON_parse_empty v Hv).
Qed.

Lemma parse_literal_empty v : parse_literal "" <> Normal v.
Proof. vm_compute. discriminate. Qed.

(** The amended statement on the cut blob: the fallback comes back, the key
    is gone, the other key stays, and the counting callback has counted
    one. *)
Lemma robustSafeParse_resets_corrupted_entries_witness :
  robustSafeParse parse_literal "cachedContent" (JObj ∅) (Some Datatypes.S) store_with_cut_blob
  = (Normal (JObj ∅),
     {| localStorage := {[ "enrichmentCollapsed" := "true" ]};
        console := ["cachedContent"];
        caller := 1 |}).
Proof.
  transitivity (Normal (JObj ∅),
                reset_world "cachedContent" (Some Datatypes.S) store_with_cut_blob).
  - apply (robustSafeParse_resets_corrupted_entries parse_literal parse_literal_empty
             "cachedContent" (JObj ∅) (Some Datatypes.S) store_with_cut_blob)
      with (raw := "{") (e := JsError "Unexpected token").
    + reflexivity.
    + discriminate.
    + reflexivity.
  - vm_compute. reflexivity.
Defined.

(** C9.  [robustSafeParse] checks no shape: when the stored string is a
    JSON text, of any shape, the value it denotes is returned whatever the
    fallback, with the store untouched; for the stored text [null] that
    value is [null]. *)
Theorem robustSafeParse_returns_any_parsed_value {S : Type}
    (JSON_parse : string -> Completion JsVal)
    (JSON_parse_empty : forall v, JSON_parse "" <> Normal v)
    (key : string) (fallback : JsVal) (onCorrupt : option (S -> S)) (w : World S) :
  (forall raw v,
     localStorage w !! key = Some raw -> JSON_parse raw = Normal v ->
     robustSafeParse JSON_parse key fallback onCorrupt w = (Normal v, w))
  /\ (JSON_parse "null" = Normal JNull ->
      localStorage w !! key = Some "null" ->
      robustSafeParse JSON_parse key fallback onCorrupt w = (Normal JNull, w)).
Proof.
  assert (H : forall raw v,
             localStorage w !! key = Some raw -> JSON_parse raw = Normal v ->
             robustSafeParse JSON_parse key fallback onCorrupt w = (Normal v, w)).
  { intros raw v Hraw Hv. apply (robustSafeParse_valid _ _ _ _ _ raw); try assumption.
    intros ->. exact (JSON_parse_empty v Hv). }
  split; [exact H |].
  intros Hnull Hraw. exact (H "null" JNull Hraw Hnull).
Qed.

(** C9 at the stored text [null], read with an object as the fallback: the
    caller gets [null]. *)
Lemma robustSafeParse_returns_any_parsed_value_witness :
  robustSafeParse parse_literal "cachedContent" (JObj ∅) (Some Datatypes.S) store_with_null
  = (Normal JNull, store_with_null).
Proof.
  apply (robustSafeParse_returns_any_parsed_value parse_literal parse_literal_empty
           "cachedContent" (JObj ∅) (Some Datatypes.S) store_with_null).
  - reflexivity.
  - reflexivity.
Defined.

End CacheFacts.

(* ===================================================================== *)
(** * Properties of the cache key and of markChapterComplete *)
(* ===================================================================== *)

Module CacheKeyFacts.
Import Js Js.Notations Types StudyApp Scenarios.

(** ** Strings *)

Lemma map_chars_length f s : String.length (map_chars f s) = String.length s.
Proof. induction s as [| c s IH]; simpl; [reflexivity | rewrite IH; reflexivity]. Qed.

Lemma underscore_is_no_space : is_space "_" = false.
Proof. reflexivity. Qed.

(** After the replacement no whitespace is left. *)
Lemma replace_spaces_no_space s :
  forall n c, String.get n (replace_spaces "_" s) = Some c -> is_space c = false.
Proof.
  unfold replace_spaces.
  induction s as [| x s IH]; intros n c; simpl.
  - destruct n; discriminate.
  - destruct n as [| n].
    + intros [= <-]. destruct (is_space x) eqn:E; [reflexivity | exact E].
    + apply IH.
Qed.

(** The replacement sees only whether a character is whitespace. *)
Lemma replace_spaces_same_kind a b :
  same_but_space_kind a b = true -> replace_spaces "_" a = replace_spaces "_" b.
Proof.
  unfold replace_spaces.
  revert b. induction a as [| x a IH]; intros [| y b]; simpl; try discriminate.
  - reflexivity.
  - intros H. apply andb_true_iff in H as [Hxy Hab].
    rewrite (IH b Hab). f_equal.
    apply orb_true_iff in Hxy as [Heq | Hsp].
    + apply Ascii.eqb_eq in Heq. subst y. reflexivity.
    + apply andb_true_iff in Hsp as [-> ->]. reflexivity.
Qed.

Lemma append_nonempty a c b : (a ++ String c b) <> "".
Proof. destruct a; discriminate. Qed.

(** ** getCacheKey *)

(** C7, the claim as stated, fails: ["1 Samuel"] and ["1  Samuel"] (two
    spaces) differ in whitespace only, and their keys are
    ["1_Samuel-3-web"] and ["1__Samuel-3-web"]. *)
Lemma getCacheKey_keeps_space_runs : ~ key_ignores_whitespace.
Proof.
  intros H. specialize (H "1 Samuel" "1  Samuel" 3%Z "web" eq_refl).
  vm_compute in H. discriminate H.
Qed.

(** C7, amended.  [getCacheKey] is a function of the book, the chapter and
    the translation, and reads nothing else.  It replaces every whitespace
    character of the book name by one underscore, so the key's book part
    has the length of the name and no whitespace, and two names of the same
    length that differ only in which whitespace character stands at a
    position get the same key.  Runs of whitespace are not merged and the
    ends are not trimmed. *)
Theorem getCacheKey_normalizes_each_space (b1 b2 : string) (ch : Z) (tr : string) :
  same_but_space_kind b1 b2 = true ->
  getCacheKey {| book := b1; chapter := ch |} tr
  = getCacheKey {| book := b2; chapter := ch |} tr
  /\ getCacheKey {| book := b1; chapter := ch |} tr
     = replace_spaces "_" b1 ++ "-" ++ number_to_string ch ++ "-" ++ tr
  /\ String.length (replace_spaces "_" b1) = String.length b1
  /\ (forall n c, String.get n (replace_spaces "_" b1) = Some c -> is_space c = false).
Proof.
  intros H. unfold getCacheKey; simpl.
  split; [rewrite (replace_spaces_same_kind _ _ H); reflexivity |].
  split; [reflexivity |].
  split; [apply map_chars_length | apply replace_spaces_no_space].
Qed.

(** The amended statement on a space and a tab. *)
Lemma getCacheKey_normalizes_each_space_witness :
  getCacheKey {| book := "Song of Solomon"; chapter := 2 |} "kjv"
  = getCacheKey {| book := String "S" (String "o" (String "n" (String "g"
                          (String "009" "of Solomon")))); chapter := 2 |} "kjv".
Proof.
  apply (getCacheKey_normalizes_each_space
           "Song of Solomon"
           (String "S" (String "o" (String "n" (String "g" (String "009" "of Solomon")))))
           2 "kjv").
  reflexivity.
Defined.

(** ** markChapterComplete *)

Lemma list_includes_elem l key : list_includes l key = true <-> key ∈ l.
Proof.
  unfold list_includes. rewrite existsb_exists, list_elem_of_In. split.
  - intros (x & Hin & Heq). apply String.eqb_eq in Heq. subst x. exact Hin.
  - intros Hin. exists key. split; [exact Hin | apply String.eqb_refl].
Qed.

Lemma chapterIdentifierKey_nonempty c k :
  chapterIdentifierKey c = Some k -> String.eqb k "" = false.
Proof.
  destruct c as [c |]; simpl; [| discriminate].
  intros [= <-]. apply String.eqb_neq. apply append_nonempty.
Qed.

(** What one call sends. *)
Lemma markChapterComplete_trace svc key completed v :
  trace (markChapterComplete svc key completed (start v)).2 =
  match key with
  | Some k =>
      if negb (String.eqb k "") && negb (list_includes completed k)
      then [EvUpdateUserData (completedChapters_update (completed ++ [k])%list)]
      else []
  | None => []
  end.
Proof.
  unfold markChapterComplete. destruct key as [k |]; [| reflexivity].
  destruct (negb (String.eqb k "") && negb (list_includes completed k)); [| reflexivity].
  unfold onUpdateUserData, bind, emit, modify, settle. simpl.
  destruct (updateUserData svc (completedChapters_update (completed ++ [k])%list));
    reflexivity.
Qed.

(** C10.  [markChapterComplete] sends an update only when the current
    chapter's key is not in the list, and the update appends that key.  For
    a list without duplicates, the list the profile holds afterwards has no
    duplicates, starts with the old entries in their order and contains the
    key of the current chapter; a second call for the same chapter, made on
    that list, sends no update. *)
Theorem markChapterComplete_appends_once (svc : Services)
    (currentChapter : option ChapterIdentifier) (completed : list string) (v : View) :
  NoDup completed ->
  let key := chapterIdentifierKey currentChapter in
  let w1 := (markChapterComplete svc key completed (start v)).2 in
  let completed' := completedChapters_after completed (trace w1) in
  NoDup completed'
  /\ completed `prefix_of` completed'
  /\ (forall k, key = Some k -> k ∈ completed')
  /\ (forall k, key = Some k -> k ∈ completed -> updates (trace w1) = [])
  /\ (forall k, key = Some k -> k ∉ completed ->
      updates (trace w1) = [completedChapters_update (completed ++ [k])%list])
  /\ updates (trace (markChapterComplete svc key completed' (start (view w1))).2) = [].
Proof.
  intros Hnd key w1 completed'.
  assert (Hafter : completed' =
            match key with
            | Some k => if list_includes completed k then completed
                        else (completed ++ [k])%list
            | None => completed
            end).
  { subst completed' w1. rewrite markChapterComplete_trace.
    destruct key as [k |] eqn:Hkey; [| reflexivity].
    rewrite (chapterIdentifierKey_nonempty _ _ Hkey). simpl.
    destruct (list_includes completed k); reflexivity. }
  assert (Hsent : updates (trace w1) =
            match key with
            | Some k => if list_includes completed k then []
                        else [completedChapters_update (completed ++ [k])%list]
            | None => []
            end).
  { subst w1. rewrite markChapterComplete_trace.
    destruct key as [k |] eqn:Hkey; [| reflexivity].
    rewrite (chapterIdentifierKey_nonempty _ _ Hkey). simpl.
    destruct (list_includes completed k); reflexivity. }
  assert (Hagain :
            updates (trace (markChapterComplete svc key completed' (start (view w1))).2) = []).
  { rewrite markChapterComplete_trace, Hafter.
    destruct key as [k |] eqn:Hkey; [| reflexivity].
    rewrite (chapterIdentifierKey_nonempty _ _ Hkey). simpl.
    destruct (list_includes completed k) eqn:Hin.
    - rewrite Hin. reflexivity.
    - assert (Hin' : list_includes (completed ++ [k]) k = true).
      { apply list_includes_elem, elem_of_app. right.
        apply list_elem_of_singleton. reflexivity. }
      rewrite Hin'. reflexivity. }
  cut (NoDup completed'
       /\ completed `prefix_of` completed'
       /\ (forall k, key = Some k -> k ∈ completed')
       /\ (forall k, key = Some k -> k ∈ completed -> updates (trace w1) = [])
       /\ (forall k, key = Some k -> k ∉ completed ->
           updates (trace w1) = [completedChapters_update (completed ++ [k])%list])).
  { intros (? & ? & ? & ? & ?). repeat split; assumption. }
  clear Hagain. rewrite Hsent, Hafter. clear Hafter Hsent.
  destruct key as [k |]; [| repeat split; try assumption; try reflexivity; discriminate].
  destruct (list_includes completed k) eqn:Hin.
  - apply list_includes_elem in Hin.
    repeat split; try assumption; try reflexivity.
    + intros k' [= <-]. exact Hin.
    + intros k' [= <-] Hn. contradiction.
  - assert (Hn : k ∉ completed).
    { intros H. apply list_includes_elem in H. congruence. }
    repeat split; try assumption.
    + apply NoDup_app. repeat split; try assumption.
      * intros x Hx Hx'. apply list_elem_of_singleton in Hx'. subst x. contradiction.
      * apply NoDup_singleton.
    + apply prefix_app_r. reflexivity.
    + intros k' [= <-]. apply elem_of_app. right. apply list_elem_of_singleton. reflexivity.
    + intros k' [= <-] H. contradiction.
    + intros k' [= <-] _. reflexivity.
Qed.

(** C10 on a list that holds two chapters, at a third. *)
Lemma markChapterComplete_appends_once_witness :
  NoDup ["Genesis-1"; "Genesis-2"]
  /\ NoDup (completedChapters_after ["Genesis-1"; "Genesis-2"]
              (trace (markChapterComplete full_service
                        (chapterIdentifierKey (Some {| book := "1 Samuel"; chapter := 3 |}))
                        ["Genesis-1"; "Genesis-2"]
                        (start blank)).2)).
Proof.
  assert (Hnd : NoDup ["Genesis-1"; "Genesis-2"]).
  { apply NoDup_cons. split.
    - intros H. apply list_elem_of_singleton in H. discriminate H.
    - apply NoDup_singleton. }
  split; [exact Hnd |].
  exact (proj1 (markChapterComplete_appends_once full_service
                  (Some {| book := "1 Samuel"; chapter := 3 |})
                  ["Genesis-1"; "Genesis-2"] blank Hnd)).
Defined.

End CacheKeyFacts.

(* ===================================================================== *)
(** * Properties of the chapter pipeline *)
(* ===================================================================== *)

Module PipelineFacts.
Import Js Js.Notations Types StudyApp Scenarios.

(** Unfolds a run of the pipeline down to the outcomes of the collaborators. *)
Ltac unfold_pipeline :=
  unfold fetched_verses, fetched_deepDive, fetched_enrichments,
    fetchAllChapterData, fetchBody, fetchFallback,
    getChapterTextFromApi, getChapterDeepDive, getAllChapterEnrichments,
    onUpdateUserData, try_finally, try_catch, bind, emit,
    setVerses, setDeepDiveData, setAllEnrichmentData, setIsChapterLoading,
    modify, settle, ret, throw, start in *;
  cbn [view trace fst snd] in *.

(** Splits on the answer of the text API. *)
Ltac split_text svc c tr :=
  let p := fresh "p" in
  let e := fresh "e" in
  destruct (getPassage svc (book c ++ " " ++ number_to_string (chapter c)) tr)
    as [p | e] eqn:?;
  [ let vs := fresh "vs" in
    destruct (passage_verses p) as [[| ? vs] |] eqn:? | ];
  cbn [view trace fst snd] in *.

(** Splits on the two answers of the AI service. *)
Ltac split_ai svc c :=
  destruct (generateDeepDive svc c) as [[? |] | ?] eqn:?;
  destruct (generateEnrichments svc c) as [[? |] | ?] eqn:?;
  cbn [view trace fst snd] in *.

(** The text fetch never gives an empty list of verses. *)
Lemma fetched_verses_nonempty svc c tr v vs :
  fetched_verses svc c tr v = Normal vs -> vs <> [].
Proof.
  unfold_pipeline. split_text svc c tr; intros H; try discriminate H.
  injection H as <-. discriminate.
Qed.

(** What the text fetch gives does not depend on the view. *)
Lemma fetched_verses_any_view svc c tr v v' :
  fetched_verses svc c tr v = fetched_verses svc c tr v'.
Proof. unfold_pipeline. split_text svc c tr; reflexivity. Qed.

(** Neither AI fetch throws: the deep dive gives [null] on an error, the
    enrichments the empty structure. *)
Lemma fetched_deepDive_normal svc c v :
  exists d, fetched_deepDive svc c v = Normal d.
Proof. unfold_pipeline. destruct (generateDeepDive svc c); eauto. Qed.

Lemma fetched_enrichments_normal svc c v :
  exists a, fetched_enrichments svc c v = Normal a.
Proof. unfold_pipeline. destruct (generateEnrichments svc c); eauto. Qed.

Lemma fetched_enrichments_on_error svc c v e :
  generateEnrichments svc c = Throw e ->
  fetched_enrichments svc c v = Normal (Some emptyEnrichments).
Proof. intros H. unfold_pipeline. rewrite H. reflexivity. Qed.

(** A hit in the cache: the view is filled from the entry and nothing is
    sent. *)
Lemma fetchAllChapterData_hit svc cache c key tr v cachedData :
  cache !! key = Some cachedData ->
  fetchAllChapterData svc cache c key tr (start v)
  = (Normal tt,
     {| view := {| verses := cc_verses cachedData;
                   deepDiveData := cc_deepDiveData cachedData;
                   allEnrichmentData := Some (cc_allEnrichmentData cachedData);
                   isChapterLoading := false |};
        trace := [] |}).
Proof. intros H. unfold_pipeline. rewrite H. reflexivity. Qed.

(** The updates a run sends, by the outcome of the lookup and of the three
    fetches. *)
Lemma fetchAllChapterData_updates svc cache c key tr v :
  updates (trace (fetchAllChapterData svc cache c key tr (start v)).2) =
  match cache !! key, fetched_verses svc c tr v,
        fetched_deepDive svc c v, fetched_enrichments svc c v with
  | None, Normal (v0 :: vs), Normal (Some dd), Normal (Some en) =>
      [cachedContent_update
         (<[key := {| cc_verses := v0 :: vs;
                      cc_deepDiveData := Some dd;
                      cc_allEnrichmentData := en |}]> cache)]
  | _, _, _, _ => []
  end.
Proof.
  unfold_pipeline.
  destruct (cache !! key) eqn:Hc; cbn [view trace fst snd].
  { split_text svc c tr; try reflexivity; split_ai svc c; reflexivity. }
  split_text svc c tr; try (split_ai svc c; reflexivity).
  split_ai svc c; try reflexivity;
    match goal with
    | |- context [updateUserData svc ?p] => destruct (updateUserData svc p)
    end; reflexivity.
Qed.

(** ** The write to the cache *)

(** C1.  A run of [fetchAllChapterData] sends the profile update that
    carries the cache mapping with the chapter's bundle merged in, and sends
    it once, exactly when the key was not in the cache, the fetched verse
    list is not empty, the deep dive is not [null] and the enrichment fetch
    returned a value that is not [null].  In every other case (a hit in the
    cache, a thrown error, a partial result) it sends no update and the
    cache mapping stays as it was.  The entries under other keys are kept
    in both cases.  The update of a complete fetch names [cachedContent]
    and no other field; the mapping it carries, which is the cache mapping
    once the update is stored, holds under the key the bundle of the
    fetched verses, deep dive and enrichments, and under every other key
    what the cache held. *)
Theorem fetchAllChapterData_writes_complete_bundles_only (svc : Services)
    (cache : gmap string CachedChapterContent) (c : ChapterIdentifier)
    (key tr : string) (v : View) :
  let w' := (fetchAllChapterData svc cache c key tr (start v)).2 in
  (forall vs dd en,
     complete_fetch svc cache c key tr v vs dd en ->
     updates (trace w') =
       [cachedContent_update
          (<[key := {| cc_verses := vs; cc_deepDiveData := Some dd;
                       cc_allEnrichmentData := en |}]> cache)])
  /\ (updates (trace w') <> [] -> exists vs dd en, complete_fetch svc cache c key tr v vs dd en)
  /\ (~ (exists vs dd en, complete_fetch svc cache c key tr v vs dd en) ->
      updates (trace w') = [] /\ cachedContent_after cache (trace w') = cache)
  /\ (forall k, k <> key -> cachedContent_after cache (trace w') !! k = cache !! k)
  /\ (forall vs dd en,
        complete_fetch svc cache c key tr v vs dd en ->
        exists p m,
          updates (trace w') = [p]
          /\ p_cachedContent p = Some m
          /\ m !! key = Some {| cc_verses := vs; cc_deepDiveData := Some dd;
                                cc_allEnrichmentData := en |}
          /\ (forall k, k <> key -> m !! k = cache !! k)
          /\ cachedContent_after cache (trace w') = m
          /\ p_id p = None /\ p_username p = None /\ p_studyMode p = None
          /\ p_readThroughIndex p = None /\ p_userSelectedChapter p = None
          /\ p_completedChapters p = None /\ p_bookmarks p = None /\ p_notes p = None
          /\ p_translation p = None /\ p_updated_at p = None).
Proof.
  intros w'.
  assert (Hif : forall vs dd en,
             complete_fetch svc cache c key tr v vs dd en ->
             updates (trace w') =
               [cachedContent_update
                  (<[key := {| cc_verses := vs; cc_deepDiveData := Some dd;
                               cc_allEnrichmentData := en |}]> cache)]).
  { intros vs dd en (Hmiss & Hvs & Hne & Hdd & Hen).
    subst w'. rewrite fetchAllChapterData_updates, Hmiss, Hvs, Hdd, Hen.
    destruct vs; [contradiction | reflexivity]. }
  assert (Honly : updates (trace w') <> [] ->
                  exists vs dd en, complete_fetch svc cache c key tr v vs dd en).
  { subst w'. rewrite fetchAllChapterData_updates. unfold complete_fetch.
    destruct (cache !! key); [congruence |].
    destruct (fetched_verses svc c tr v) as [[| v0 vs] | e]; try congruence.
    destruct (fetched_deepDive svc c v) as [[dd |] | e]; try congruence.
    destruct (fetched_enrichments svc c v) as [[en |] | e]; try congruence.
    intros _. exists (v0 :: vs), dd, en. repeat split; congruence. }
  assert (Hnone : ~ (exists vs dd en, complete_fetch svc cache c key tr v vs dd en) ->
                  updates (trace w') = []).
  { intros Hn. destruct (updates (trace w')) as [| p l] eqn:E; [reflexivity |].
    exfalso. apply Hn, Honly. discriminate. }
  split; [exact Hif |]. split; [exact Honly |].
  split; [| split].
  - intros Hn. split; [apply Hnone; exact Hn |].
    unfold cachedContent_after. rewrite (Hnone Hn). reflexivity.
  - intros k Hk. unfold cachedContent_after.
    destruct (updates (trace w')) as [| p l] eqn:E; [reflexivity |].
    destruct (Honly ltac:(discriminate)) as (vs & dd & en & Hc).
    rewrite (Hif vs dd en Hc). simpl.
    apply lookup_insert_ne. congruence.
  - intros vs dd en Hc.
    exists (cachedContent_update
              (<[key := {| cc_verses := vs; cc_deepDiveData := Some dd;
                           cc_allEnrichmentData := en |}]> cache)),
           (<[key := {| cc_verses := vs; cc_deepDiveData := Some dd;
                        cc_allEnrichmentData := en |}]> cache).
    split; [exact (Hif vs dd en Hc) |].
    split; [reflexivity |].
    split; [apply lookup_insert_eq |].
    split; [intros k Hk; apply lookup_insert_ne; congruence |].
    split; [unfold cachedContent_after; rewrite (Hif vs dd en Hc); reflexivity |].
    repeat split.
Qed.

(** C1 on the chapter Genesis 1 with an empty cache and every collaborator
    answering: the one update carries the one-entry mapping. *)
Lemma fetchAllChapterData_writes_complete_bundles_only_witness :
  updates (trace (fetchAllChapterData full_service ∅ genesis1
                    (getCacheKey genesis1 "web") "web" (start blank)).2)
  = [cachedContent_update
       (<["Genesis-1-web" :=
            {| cc_verses := [genesis_1_1];
               cc_deepDiveData := Some genesis_deepDive;
               cc_allEnrichmentData := genesis_enrichments |}]> ∅)].
Proof.
  apply (fetchAllChapterData_writes_complete_bundles_only full_service ∅ genesis1
           (getCacheKey genesis1 "web") "web" blank).
  repeat split; try reflexivity. discriminate.
Defined.

(** Fetching a chapter whose text fetch fails leaves the cache as it was,
    however often it is done. *)
Lemma failing_chapter_is_never_cached svc cache c key tr v e :
  fetched_verses svc c tr v = Throw e ->
  cachedContent_after cache
    (trace (fetchAllChapterData svc cache c key tr (start v)).2) = cache.
Proof.
  intros H. unfold cachedContent_after.
  rewrite fetchAllChapterData_updates, H.
  destruct (cache !! key); reflexivity.
Qed.

(** An enrichment call that fails inside [getAllChapterEnrichments] does
    not make the result [null]: the service returns the empty structure, and
    the bundle that holds it is written like any other. *)
Lemma failed_enrichment_call_is_cached svc cache c key tr v v0 vs dd e :
  cache !! key = None ->
  fetched_verses svc c tr v = Normal (v0 :: vs) ->
  fetched_deepDive svc c v = Normal (Some dd) ->
  generateEnrichments svc c = Throw e ->
  updates (trace (fetchAllChapterData svc cache c key tr (start v)).2)
  = [cachedContent_update
       (<[key := {| cc_verses := v0 :: vs; cc_deepDiveData := Some dd;
                    cc_allEnrichmentData := emptyEnrichments |}]> cache)].
Proof.
  intros Hmiss Hvs Hdd He.
  rewrite fetchAllChapterData_updates, Hmiss, Hvs, Hdd.
  rewrite (fetched_enrichments_on_error _ _ _ _ He). reflexivity.
Qed.

(** The effect runs the pipeline, under the key of the current chapter, in
    every study mode but the scripture reader, and sends nothing there or
    without a current chapter. *)
Lemma chapterEffect_runs_pipeline svc cache c mode tr :
  mode <> SCRIPTURE_READER ->
  chapterEffect svc cache (Some c) mode tr
  = fetchAllChapterData svc cache c (getCacheKey c tr) tr.
Proof.
  intros Hmode. unfold chapterEffect.
  assert (Hkey : String.eqb (getCacheKey c tr) "" = false).
  { apply String.eqb_neq. unfold getCacheKey.
    destruct (replace_spaces "_" (book c)); discriminate. }
  rewrite Hkey. rewrite bool_decide_eq_false_2 by exact Hmode. reflexivity.
Qed.

Lemma chapterEffect_idle svc cache c tr v :
  trace (chapterEffect svc cache c SCRIPTURE_READER tr (start v)).2 = []
  /\ trace (chapterEffect svc cache None READ_THROUGH tr (start v)).2 = [].
Proof.
  split; [| reflexivity].
  unfold chapterEffect. destruct c as [c |]; [| reflexivity].
  rewrite andb_false_r. reflexivity.
Qed.

(** ** The fallback of the [catch] block *)

Lemma prefix_iff p s : String.prefix p s = true <-> exists b, s = p ++ b.
Proof.
  revert s. induction p as [| x p IH]; intros s.
  - split; [intros _; exists s; reflexivity | intros _; destruct s; reflexivity].
  - destruct s as [| y s]; simpl.
    + split; [discriminate | intros [b Hb]; discriminate Hb].
    + destruct (ascii_dec x y) as [<- | Hxy].
      * split.
        -- intros H. apply IH in H as [b ->]. exists b. reflexivity.
        -- intros [b Hb]. simpl in Hb. injection Hb as ->. apply IH. exists b. reflexivity.
      * split; [discriminate | intros [b Hb]; injection Hb as Hx _; congruence].
Qed.

Lemma includes_unfold s word :
  includes s word =
  String.prefix word s
  || match s with
     | EmptyString => false
     | String _ s' => includes s' word
     end.
Proof. destruct s; reflexivity. Qed.

Lemma includes_iff s word : includes s word = true <-> mentions s word.
Proof.
  unfold mentions. split.
  - induction s as [| x s IH]; rewrite includes_unfold; intros H;
      apply orb_true_iff in H as [H | H].
    + apply prefix_iff in H as [b Hb]. exists "", b. exact Hb.
    + discriminate H.
    + apply prefix_iff in H as [b Hb]. exists "", b. exact Hb.
    + destruct (IH H) as (a & b & ->). exists (String x a), b. reflexivity.
  - intros (a & b & ->). induction a as [| x a IH];
      rewrite includes_unfold; apply orb_true_iff.
    + left. apply prefix_iff. exists b. reflexivity.
    + right. exact IH.
Qed.

(** A miss in the cache enters the [try] statement with the view cleared. *)
Lemma fetchAllChapterData_miss svc cache c key tr v :
  cache !! key = None ->
  fetchAllChapterData svc cache c key tr (start v)
  = try_finally
      (try_catch (fetchBody svc cache c key tr) (fetchFallback c))
      (setIsChapterLoading false) cleared.
Proof.
  intros H. unfold fetchAllChapterData, bind, setIsChapterLoading, setVerses,
    setDeepDiveData, setAllEnrichmentData, modify, start, cleared.
  cbn [view trace]. rewrite H. reflexivity.
Qed.

(** A failing text fetch is a throw out of the [try] block, after the one
    call to the text API. *)
Lemma fetchBody_text_failure svc cache c key tr e :
  fetched_verses svc c tr (view cleared) = Throw e ->
  fetchBody svc cache c key tr cleared
  = (Throw e,
     {| view := view cleared;
        trace := [EvGetPassage (book c ++ " " ++ number_to_string (chapter c)) tr] |}).
Proof.
  unfold cleared. unfold_pipeline.
  split_text svc c tr; intros H; try discriminate H; injection H as <-; reflexivity.
Qed.

(** C5.  When anything thrown inside the [try] block of a run reaches its
    [catch] (the failing text fetch, or a rejected profile update), the run
    ends normally with a verse list of exactly one verse, whose number is 0
    and whose text is the daily-limit message when the thrown error's
    message contains [quota], and else the generic message around the
    error's message (around [Unknown error] for a thrown value that is no
    error); the enrichments shown are the empty structure, not [null]: its
    three lists are empty arrays, and the sub-fields of its historical
    context and of its literary analysis are empty strings and an empty
    array. *)
Theorem fetchAllChapterData_error_fallback (svc : Services)
    (cache : gmap string CachedChapterContent) (c : ChapterIdentifier)
    (key tr : string) (v : View) (e : Thrown) (w1 : World) :
  cache !! key = None ->
  fetchBody svc cache c key tr cleared = (Throw e, w1) ->
  let r := fetchAllChapterData svc cache c key tr (start v) in
  r.1 = Normal tt
  /\ verses (view r.2) = [errorVerse c e]
  /\ verse (errorVerse c e) = 0%Z
  /\ allEnrichmentData (view r.2) = Some emptyEnrichments
  /\ isChapterLoading (view r.2) = false
  /\ (forall message, e = JsError message -> mentions message "quota" ->
       text (errorVerse c e)
       = "Failed to load chapter data: Daily API quota exceeded. Please try again tomorrow.")
  /\ (forall message, e = JsError message -> ~ mentions message "quota" ->
       text (errorVerse c e)
       = "There was an error loading the chapter text: " ++ message ++ ". Please try again.")
  /\ (forall x, e = NonError x ->
       text (errorVerse c e)
       = "There was an error loading the chapter text: Unknown error. Please try again.")
  /\ (exists en,
        allEnrichmentData (view r.2) = Some en
        /\ crossReferences en = Some []
        /\ wordStudies en = Some []
        /\ interpretations en = Some []
        /\ historicalContext en
           = Some {| geography := ""; customs := ""; politicalClimate := "" |}
        /\ literaryAnalysis en = Some {| structure := ""; themes := [] |}).
Proof.
  intros Hmiss Hthrow r. subst r.
  rewrite (fetchAllChapterData_miss _ _ _ _ _ _ Hmiss).
  unfold try_finally, try_catch. rewrite Hthrow.
  unfold fetchFallback, bind, setVerses, setAllEnrichmentData, setIsChapterLoading, modify.
  cbn [view trace fst snd verses allEnrichmentData isChapterLoading].
  repeat split.
  - intros message -> Hq. apply includes_iff in Hq. simpl. rewrite Hq. reflexivity.
  - intros message -> Hq. simpl.
    destruct (includes message "quota") eqn:E; [| reflexivity].
    apply includes_iff in E. contradiction.
  - intros x ->. reflexivity.
  - eexists. repeat split.
Qed.

(** C5 on the text API refusing with a quota error. *)
Lemma fetchAllChapterData_error_fallback_witness :
  verses (view (fetchAllChapterData quota_on_text ∅ genesis1
                  (getCacheKey genesis1 "web") "web" (start blank)).2)
  = [errorVerse genesis1 (JsError "Request failed: quota exceeded")].
Proof.
  apply (fetchAllChapterData_error_fallback quota_on_text ∅ genesis1
           (getCacheKey genesis1 "web") "web" blank
           (JsError "Request failed: quota exceeded")
           {| view := view cleared; trace := [EvGetPassage "Genesis 1" "web"] |}).
  - reflexivity.
  - reflexivity.
Defined.

(** ** A failing text fetch and the enrichments *)

(** When the text fetch throws, the run calls the AI service for nothing:
    the enrichments shown are the empty structure of the [catch] block. *)
Lemma text_failure_skips_ai svc cache c key tr v e :
  cache !! key = None ->
  fetched_verses svc c tr (view cleared) = Throw e ->
  let w' := (fetchAllChapterData svc cache c key tr (start v)).2 in
  ai_calls (trace w') = []
  /\ allEnrichmentData (view w') = Some emptyEnrichments
  /\ updates (trace w') = [].
Proof.
  intros Hmiss Hthrow w'. subst w'.
  rewrite (fetchAllChapterData_miss _ _ _ _ _ _ Hmiss).
  unfold try_finally, try_catch.
  rewrite (fetchBody_text_failure _ _ _ _ _ _ Hthrow).
  repeat split.
Qed.

(** C4: with the text API refusing Genesis 1 for quota and an AI service
    that would answer with real enrichments, the run calls the text API
    and nothing else; the enrichments shown are the empty structure and not
    the ones the AI service has.  The verse list is the one error verse with
    number 0 and the quota message, and nothing is written to the cache. *)
Theorem quota_on_text_skips_enrichments :
  let r := fetchAllChapterData quota_on_text ∅ genesis1
             (getCacheKey genesis1 "web") "web" (start blank) in
  fetched_enrichments quota_on_text genesis1 blank = Normal (Some genesis_enrichments)
  /\ trace r.2 = [EvGetPassage "Genesis 1" "web"]
  /\ ai_calls (trace r.2) = []
  /\ allEnrichmentData (view r.2) = Some emptyEnrichments
  /\ emptyEnrichments <> genesis_enrichments
  /\ verses (view r.2)
     = [ {| book_id := ""; book_name := "Genesis"; verse_chapter := 1; verse := 0;
            text := "Failed to load chapter data: Daily API quota exceeded. Please try again tomorrow." |} ]
  /\ updates (trace r.2) = [].
Proof.
  cbv zeta. repeat split; try reflexivity. discriminate.
Qed.

End PipelineFacts.

(* ===================================================================== *)
(** * The two readers of utils/cache.ts agree *)
(* ===================================================================== *)

Module CacheLegacyFacts.
Import Js Js.Notations Cache CacheLegacy Scenarios.

(** X1.  On every store, key, fallback and callback, [robustSafeParse]
    returns the value [safeParse] returns for the stored item; [safeParse]
    itself never throws and changes nothing. *)
Theorem robustSafeParse_returns_what_safeParse_returns {S : Type}
    (JSON_parse : string -> Completion JsVal) (key : string) (fallback : JsVal)
    (onCorrupt : option (S -> S)) (w : World S) :
  (robustSafeParse JSON_parse key fallback onCorrupt w).1
  = (safeParse JSON_parse (localStorage w !! key) fallback w).1
  /\ (safeParse JSON_parse (localStorage w !! key) fallback w).2 = w
  /\ exists v, (safeParse JSON_parse (localStorage w !! key) fallback w).1 = Normal v.
Proof.
  unfold robustSafeParse, safeParse, bind, getItem, ret, try_catch, settle,
    console_warn, removeItem, call, modify.
  destruct (localStorage w !! key) as [raw |]; simpl; [| eauto].
  destruct (String.eqb raw ""); simpl; [eauto |].
  destruct (JSON_parse raw) as [v | e]; simpl; [eauto |].
  destruct onCorrupt; simpl; eauto.
Qed.

End CacheLegacyFacts.

(* ===================================================================== *)
(** * Writing, reading back and creating a profile *)
(* ===================================================================== *)

Module ProfilesFacts.
Import Js Js.Notations Types AuthService Profiles Scenarios CodecSpec.

(** ** updateUserData *)

(** X2.  [updateUserData] sends one update for the given id.  Its patch is
    the encoding of the data with [updated_at] set to the current time, also
    for an empty update; it never names [id].  When the backend answers,
    with an error or without, the call ends normally: a refused write is
    only logged.  A rejected call is passed on. *)
Theorem updateUserData_stamps_and_swallows
    (update : string -> gmap string JsVal -> Completion JsVal)
    (now id : string) (data : gmap string JsVal) :
  let r := updateUserData update now id data [] in
  let patch := <["updated_at" := JStr now]> (toSupabase data) in
  r.2 = [EvUpdate id patch]
  /\ patch !! "updated_at" = Some (JStr now)
  /\ patch !! "id" = None
  /\ (forall w, w <> "updated_at" -> patch !! w = toSupabase data !! w)
  /\ (forall error, update id patch = Normal error -> r.1 = Normal tt)
  /\ (forall e, update id patch = Throw e -> r.1 = Throw e).
Proof.
  intros r patch. subst r.
  unfold updateUserData, bind, modify, settle, ret. cbn [fst snd].
  fold patch.
  split; [destruct (update id patch); reflexivity |].
  split; [apply lookup_insert_eq |].
  split.
  { unfold patch. rewrite lookup_insert_ne by discriminate.
    rewrite AuthServiceFacts.toSupabase_lookup. reflexivity. }
  split; [intros w Hw; apply lookup_insert_ne; congruence |].
  split; intros x Hx; rewrite Hx; reflexivity.
Qed.

(** ** A write followed by a read *)

Lemma prop_stored row patch w :
  prop (stored row patch) w =
  match patch !! w with
  | Some v => v
  | None => prop row w
  end.
Proof.
  unfold prop, stored. rewrite lookup_union.
  destruct (patch !! w), (row !! w); reflexivity.
Qed.

(** A column of an encoded field takes the update's value when the update
    has the field, and keeps the row's value when it has not. *)
Lemma written_column row data f w :
  (f, w) ∈ encoded_fields ->
  prop (stored row (toSupabase data)) w =
  if is_defined (prop data f) then prop data f else prop row w.
Proof.
  intros Hin. rewrite prop_stored, AuthServiceFacts.toSupabase_lookup.
  unfold encoded_value. rewrite (AuthServiceFacts.encoded_fields_cases _ _ Hin).
  cbn [fst snd]. destruct (is_defined (prop data f)); reflexivity.
Qed.

Lemma unwritten_column row data w :
  w = "id" \/ w = "updated_at" ->
  prop (stored row (toSupabase data)) w = prop row w.
Proof.
  intros Hw. rewrite prop_stored, AuthServiceFacts.toSupabase_lookup.
  destruct Hw as [-> | ->]; reflexivity.
Qed.

Lemma encoded_field_in f w :
  In (f, w) [ ("username", "username");
              ("studyMode", "study_mode");
              ("readThroughIndex", "read_through_index");
              ("userSelectedChapter", "user_selected_chapter");
              ("completedChapters", "completed_chapters");
              ("bookmarks", "bookmarks");
              ("notes", "notes");
              ("cachedContent", "cached_content");
              ("translation", "translation") ] ->
  (f, w) ∈ encoded_fields.
Proof.
  intros H. apply list_elem_of_In. rewrite AuthServiceFacts.encoded_fields_eq. exact H.
Qed.

(** Rewrites every column read of a stored row. *)
Ltac read_columns :=
  unfold fromSupabase;
  rewrite ?(unwritten_column _ _ "id") by (left; reflexivity);
  rewrite ?(unwritten_column _ _ "updated_at") by (right; reflexivity);
  rewrite ?(written_column _ _ "username" "username") by (apply encoded_field_in; simpl; tauto);
  rewrite ?(written_column _ _ "studyMode" "study_mode") by (apply encoded_field_in; simpl; tauto);
  rewrite ?(written_column _ _ "readThroughIndex" "read_through_index")
    by (apply encoded_field_in; simpl; tauto);
  rewrite ?(written_column _ _ "userSelectedChapter" "user_selected_chapter")
    by (apply encoded_field_in; simpl; tauto);
  rewrite ?(written_column _ _ "completedChapters" "completed_chapters")
    by (apply encoded_field_in; simpl; tauto);
  rewrite ?(written_column _ _ "bookmarks" "bookmarks") by (apply encoded_field_in; simpl; tauto);
  rewrite ?(written_column _ _ "notes" "notes") by (apply encoded_field_in; simpl; tauto);
  rewrite ?(written_column _ _ "cachedContent" "cached_content")
    by (apply encoded_field_in; simpl; tauto);
  rewrite ?(written_column _ _ "translation" "translation")
    by (apply encoded_field_in; simpl; tauto).

(** The patch [updateUserData] sends: the encoding of the data with the
    time of the update. *)
Lemma sent_patch update now uid data uid' patch :
  (updateUserData update now uid data []).2 = [EvUpdate uid' patch] ->
  uid' = uid /\ patch = <["updated_at" := JStr now]> (toSupabase data).
Proof.
  unfold updateUserData, bind, modify, settle, ret. cbn [fst snd app].
  destruct (update uid _); cbn [snd]; intros [= <- <-]; split; reflexivity.
Qed.

(** The stamp changes the column [updated_at] and no other. *)
Lemma stamped_column row patch now w :
  prop (stored row (<["updated_at" := JStr now]> patch)) w =
  if String.eqb w "updated_at" then JStr now else prop (stored row patch) w.
Proof.
  rewrite !prop_stored. destruct (String.eqb w "updated_at") eqn:E.
  - apply String.eqb_eq in E. subst w. rewrite lookup_insert_eq. reflexivity.
  - apply String.eqb_neq in E. rewrite lookup_insert_ne by congruence. reflexivity.
Qed.

(** Rewrites every column read of a row stored with the stamp. *)
Ltac read_stamped_columns :=
  unfold fromSupabase; rewrite !stamped_column; cbn [String.eqb Ascii.eqb Bool.eqb].

(** X3.  A partial update leaves alone what it does not name: after the
    patch [updateUserData] sends, which it sends for the given id, is
    stored over a row, the decoded profile has the old [id], the time of
    the update as [updated_at] (an ISO time, which is not the empty
    string), and the old value of every field the update lacks. *)
Theorem partial_update_keeps_other_fields
    (update : string -> gmap string JsVal -> Completion JsVal) (now uid uid' : string)
    (row data patch : gmap string JsVal) :
  (updateUserData update now uid data []).2 = [EvUpdate uid' patch] ->
  let u := fromSupabase row in
  let u' := fromSupabase (stored row patch) in
  uid' = uid
  /\ id u' = id u
  /\ (now <> "" -> updated_at u' = JStr now)
  /\ (prop data "username" = JUndefined -> username u' = username u)
  /\ (prop data "studyMode" = JUndefined -> studyMode u' = studyMode u)
  /\ (prop data "readThroughIndex" = JUndefined -> readThroughIndex u' = readThroughIndex u)
  /\ (prop data "userSelectedChapter" = JUndefined ->
      userSelectedChapter u' = userSelectedChapter u)
  /\ (prop data "completedChapters" = JUndefined -> completedChapters u' = completedChapters u)
  /\ (prop data "bookmarks" = JUndefined -> bookmarks u' = bookmarks u)
  /\ (prop data "notes" = JUndefined -> notes u' = notes u)
  /\ (prop data "cachedContent" = JUndefined -> cachedContent u' = cachedContent u)
  /\ (prop data "translation" = JUndefined -> translation u' = translation u).
Proof.
  intros Hsent u u'. apply sent_patch in Hsent as [-> ->]. subst u u'.
  split; [reflexivity |].
  read_stamped_columns. read_columns. cbn.
  repeat split; try reflexivity; try (intros ->; reflexivity).
  intros Hnow. unfold or_else. cbn [truthy].
  replace (String.eqb now "") with false by (symmetry; apply String.eqb_neq; exact Hnow).
  reflexivity.
Qed.

(** The update [markChapterComplete] sends, stored over a row with notes. *)
Lemma partial_update_keeps_other_fields_witness :
  notes (fromSupabase
           (stored {[ "id" := JStr "u1"; "notes" := JObj {[ "Genesis-1" := JStr "light" ]} ]}
                   (<["updated_at" := JStr "2025-06-01T08:00:00.000Z"]>
                      (toSupabase {[ "completedChapters" := JArr [JStr "Genesis-1"] ]}))))
  = notes (fromSupabase {[ "id" := JStr "u1"; "notes" := JObj {[ "Genesis-1" := JStr "light" ]} ]}).
Proof.
  pose proof (partial_update_keeps_other_fields
                (fun _ _ => Normal JNull) "2025-06-01T08:00:00.000Z" "u1" "u1"
                {[ "id" := JStr "u1"; "notes" := JObj {[ "Genesis-1" := JStr "light" ]} ]}
                {[ "completedChapters" := JArr [JStr "Genesis-1"] ]}
                (<["updated_at" := JStr "2025-06-01T08:00:00.000Z"]>
                   (toSupabase {[ "completedChapters" := JArr [JStr "Genesis-1"] ]}))
                eq_refl)
    as (_ & _ & _ & _ & _ & _ & _ & _ & _ & Hnotes & _).
  exact (Hnotes eq_refl).
Defined.

(** ** What a write reads back as *)

Lemma truthy_defined v : truthy v = true -> is_defined v = true.
Proof. destruct v; simpl; congruence. Qed.

Lemma array_defined v : Array_isArray v = true -> is_defined v = true.
Proof. destruct v; simpl; congruence. Qed.

Lemma chapter_identifier_defined v : isChapterIdentifier v = true -> is_defined v = true.
Proof.
  unfold isChapterIdentifier. intros H.
  apply andb_true_iff in H as [H _]. apply andb_true_iff in H as [H _].
  apply truthy_defined. exact H.
Qed.

(** X4.  A field that [updateUserData] writes reads back as written when
    the decoder accepts the value: a truthy [username], [studyMode],
    [notes], [cachedContent] or [translation], an array for the two lists,
    a chapter identifier for the selected chapter, any value but [null] for
    the index.  A falsy value written to one of the five fields reads back
    as the field's default (an empty user name as ['User'], a study mode as
    the read-through mode, [null] notes or cached content as the empty
    object, a translation as ['web']), and [null] written as the selected
    chapter stays [null]. *)
Theorem written_fields_read_back
    (update : string -> gmap string JsVal -> Completion JsVal) (now uid uid' : string)
    (row data patch : gmap string JsVal) :
  (updateUserData update now uid data []).2 = [EvUpdate uid' patch] ->
  let u' := fromSupabase (stored row patch) in
  (truthy (prop data "username") = true -> username u' = prop data "username")
  /\ (truthy (prop data "studyMode") = true -> studyMode u' = prop data "studyMode")
  /\ (truthy (prop data "notes") = true -> notes u' = prop data "notes")
  /\ (truthy (prop data "cachedContent") = true -> cachedContent u' = prop data "cachedContent")
  /\ (truthy (prop data "translation") = true -> translation u' = prop data "translation")
  /\ (Array_isArray (prop data "completedChapters") = true ->
      completedChapters u' = prop data "completedChapters")
  /\ (Array_isArray (prop data "bookmarks") = true -> bookmarks u' = prop data "bookmarks")
  /\ (isChapterIdentifier (prop data "userSelectedChapter") = true ->
      userSelectedChapter u' = prop data "userSelectedChapter")
  /\ (prop data "userSelectedChapter" = JNull -> userSelectedChapter u' = JNull)
  /\ (is_defined (prop data "readThroughIndex") = true ->
      prop data "readThroughIndex" <> JNull ->
      readThroughIndex u' = prop data "readThroughIndex")
  /\ (is_defined (prop data "username") = true -> truthy (prop data "username") = false ->
      username u' = JStr "User")
  /\ (is_defined (prop data "studyMode") = true -> truthy (prop data "studyMode") = false ->
      studyMode u' = JStr "Read Through")
  /\ (is_defined (prop data "notes") = true -> truthy (prop data "notes") = false ->
      notes u' = JObj ∅)
  /\ (is_defined (prop data "cachedContent") = true ->
      truthy (prop data "cachedContent") = false ->
      cachedContent u' = JObj ∅)
  /\ (is_defined (prop data "translation") = true -> truthy (prop data "translation") = false ->
      translation u' = JStr "web").
Proof.
  intros Hsent u'. apply sent_patch in Hsent as [-> ->]. subst u'.
  read_stamped_columns. read_columns. cbn.
  repeat split.
  - intros H. rewrite (truthy_defined _ H). unfold or_else. rewrite H. reflexivity.
  - intros H. rewrite (truthy_defined _ H). unfold or_else. rewrite H. reflexivity.
  - intros H. rewrite (truthy_defined _ H). unfold or_else. rewrite H. reflexivity.
  - intros H. rewrite (truthy_defined _ H). unfold or_else. rewrite H. reflexivity.
  - intros H. rewrite (truthy_defined _ H). unfold or_else. rewrite H. reflexivity.
  - intros H. rewrite (array_defined _ H), H. reflexivity.
  - intros H. rewrite (array_defined _ H), H. reflexivity.
  - intros H. rewrite (chapter_identifier_defined _ H), H. reflexivity.
  - intros ->. reflexivity.
  - intros H Hn. rewrite H.
    destruct (prop data "readThroughIndex"); try reflexivity;
      [discriminate H | contradiction].
  - intros H Hf. rewrite H. unfold or_else. rewrite Hf. reflexivity.
  - intros H Hf. rewrite H. unfold or_else. rewrite Hf. reflexivity.
  - intros H Hf. rewrite H. unfold or_else. rewrite Hf. reflexivity.
  - intros H Hf. rewrite H. unfold or_else. rewrite Hf. reflexivity.
  - intros H Hf. rewrite H. unfold or_else. rewrite Hf. reflexivity.
Qed.

(** Written over a row with another name: the list reads back, and the
    empty user name reads back as the default. *)
Lemma written_fields_read_back_witness :
  completedChapters
    (fromSupabase
       (stored {[ "id" := JStr "u1"; "username" := JStr "ruth" ]}
               (<["updated_at" := JStr "2025-06-01T08:00:00.000Z"]>
                  (toSupabase {[ "completedChapters" := JArr [JStr "Ruth-1"];
                                 "username" := JStr "" ]}))))
  = JArr [JStr "Ruth-1"]
  /\ username
       (fromSupabase
          (stored {[ "id" := JStr "u1"; "username" := JStr "ruth" ]}
                  (<["updated_at" := JStr "2025-06-01T08:00:00.000Z"]>
                     (toSupabase {[ "completedChapters" := JArr [JStr "Ruth-1"];
                                    "username" := JStr "" ]}))))
     = JStr "User".
Proof.
  pose proof (written_fields_read_back
                (fun _ _ => Normal JNull) "2025-06-01T08:00:00.000Z" "u1" "u1"
                {[ "id" := JStr "u1"; "username" := JStr "ruth" ]}
                {[ "completedChapters" := JArr [JStr "Ruth-1"]; "username" := JStr "" ]}
                (<["updated_at" := JStr "2025-06-01T08:00:00.000Z"]>
                   (toSupabase {[ "completedChapters" := JArr [JStr "Ruth-1"];
                                  "username" := JStr "" ]}))
                eq_refl)
    as (_ & _ & _ & _ & _ & Hlist & _ & _ & _ & _ & Hname & _).
  split.
  - exact (Hlist eq_refl).
  - exact (Hname eq_refl eq_refl).
Defined.

(** ** Writing the whole profile back *)

Lemma or_else_twice v d :
  truthy d = true ->
  is_defined (or_else v d) = true /\ or_else (or_else v d) d = or_else v d.
Proof.
  intros Hd. unfold or_else. destruct (truthy v) eqn:Hv.
  - rewrite Hv. split; [apply truthy_defined; exact Hv | reflexivity].
  - rewrite Hd. split; [apply truthy_defined; exact Hd | reflexivity].
Qed.

(** X5.  Decoding is stable under a write of its own result: when the
    whole decoded profile is encoded and stored over the row it came from,
    the row decodes to the same profile. *)
Theorem decoded_profile_written_back (row : gmap string JsVal) :
  fromSupabase (stored row (toSupabase (as_object (fromSupabase row)))) = fromSupabase row.
Proof.
  set (u := fromSupabase row).
  assert (Hp : prop (as_object u) "username" = username u
               /\ prop (as_object u) "studyMode" = studyMode u
               /\ prop (as_object u) "readThroughIndex" = readThroughIndex u
               /\ prop (as_object u) "userSelectedChapter" = userSelectedChapter u
               /\ prop (as_object u) "completedChapters" = completedChapters u
               /\ prop (as_object u) "bookmarks" = bookmarks u
               /\ prop (as_object u) "notes" = notes u
               /\ prop (as_object u) "cachedContent" = cachedContent u
               /\ prop (as_object u) "translation" = translation u).
  { repeat split; reflexivity. }
  destruct Hp as (H1 & H2 & H3 & H4 & H5 & H6 & H7 & H8 & H9).
  read_columns. rewrite H1, H2, H3, H4, H5, H6, H7, H8, H9.
  subst u. unfold fromSupabase. cbn.
  destruct (or_else_twice (prop row "username") (JStr "User") eq_refl) as [-> ->].
  destruct (or_else_twice (prop row "study_mode") (JStr "Read Through") eq_refl) as [-> ->].
  destruct (or_else_twice (prop row "notes") (JObj ∅) eq_refl) as [-> ->].
  destruct (or_else_twice (prop row "cached_content") (JObj ∅) eq_refl) as [-> ->].
  destruct (or_else_twice (prop row "translation") (JStr "web") eq_refl) as [-> ->].
  assert (Hidx : forall v, is_defined (nullish v (JNum 0)) = true
                           /\ nullish (nullish v (JNum 0)) (JNum 0) = nullish v (JNum 0)).
  { intros v. destruct v; split; reflexivity. }
  destruct (Hidx (prop row "read_through_index")) as [-> ->].
  assert (Harr : forall v, let x := if Array_isArray v then v else JArr [] in
                           is_defined x = true /\ (if Array_isArray x then x else JArr []) = x).
  { intros v. destruct v; split; reflexivity. }
  destruct (Harr (prop row "completed_chapters")) as [-> ->].
  destruct (Harr (prop row "bookmarks")) as [-> ->].
  assert (Hch : forall v, let x := if isChapterIdentifier v then v else JNull in
                          is_defined x = true /\ (if isChapterIdentifier x then x else JNull) = x).
  { intros v. cbv zeta. destruct (isChapterIdentifier v) eqn:E.
    - rewrite E. split; [apply chapter_identifier_defined; exact E | reflexivity].
    - split; reflexivity. }
  destruct (Hch (prop row "user_selected_chapter")) as [-> ->].
  reflexivity.
Qed.

(** ** getUserData: what the first attempt decides *)

(** X6.  Whatever the page's global object holds, [getUserData] ends after
    its first query in three cases: a row that was found is decoded and
    returned, also when the timer has fired meanwhile; a rejected query
    gives [null]; and so does a query without a row whose timer has
    fired. *)
Theorem getUserData_first_attempt (backend : Backend) (globalThis : gmap string JsVal)
    (id : string) :
  (forall data error,
     q_result (backend id 1%nat) = Normal (data, error) -> truthy data = true ->
     getUserData backend globalThis id []
     = (Normal (Some (fromSupabase (as_row data))), [EvGetSession; EvQuery id 1]))
  /\ (forall e,
        q_result (backend id 1%nat) = Throw e ->
        getUserData backend globalThis id [] = (Normal None, [EvGetSession; EvQuery id 1]))
  /\ (forall data error,
        q_result (backend id 1%nat) = Normal (data, error) -> truthy data = false ->
        q_timer_fired (backend id 1%nat) = true ->
        getUserData backend globalThis id [] = (Normal None, [EvGetSession; EvQuery id 1])).
Proof.
  repeat split.
  - intros data error Hq Hd.
    unfold getUserData, for_attempts, attempt_body, bind, emit, modify,
      try_catch, settle, ret. simpl. rewrite Hq. simpl. rewrite Hd. reflexivity.
  - intros e Hq.
    unfold getUserData, for_attempts, attempt_body, bind, emit, modify,
      try_catch, settle, ret. simpl. rewrite Hq. reflexivity.
  - intros data error Hq Hd Ht.
    unfold getUserData, for_attempts, attempt_body, bind, emit, modify,
      try_catch, settle, ret. simpl. rewrite Hq. simpl. rewrite Hd, Ht. reflexivity.
Qed.

(** A backend that has the row of a user who finished two chapters. *)
Lemma getUserData_first_attempt_witness :
  (getUserData
     (fun _ _ =>
        {| q_result :=
             Normal (JObj {[ "id" := JStr "u1";
                             "completed_chapters" := JArr [JStr "Genesis-1"; JStr "Genesis-2"] ]},
                     JNull);
           q_timer_fired := false |})
     ∅ "u1" []).1
  = Normal (Some (fromSupabase {[ "id" := JStr "u1";
                                  "completed_chapters" :=
                                    JArr [JStr "Genesis-1"; JStr "Genesis-2"] ]})).
Proof.
  rewrite (proj1 (getUserData_first_attempt
                    (fun _ _ =>
                       {| q_result :=
                            Normal (JObj {[ "id" := JStr "u1";
                                            "completed_chapters" :=
                                              JArr [JStr "Genesis-1"; JStr "Genesis-2"] ]},
                                    JNull);
                          q_timer_fired := false |})
                    ∅ "u1")
             (JObj {[ "id" := JStr "u1";
                      "completed_chapters" := JArr [JStr "Genesis-1"; JStr "Genesis-2"] ]})
             JNull eq_refl eq_refl).
  reflexivity.
Defined.

(** X7.  In a page whose global object has no [error] property,
    [getUserData] never retries: whatever the backend answers, the run is
    the session call and the first query, with no pause; and it ends by the
    [ReferenceError] of reading [error] exactly when that query answered in
    time without a row. *)
Theorem getUserData_never_retries (backend : Backend) (globalThis : gmap string JsVal)
    (id : string) :
  globalThis !! "error" = None ->
  exists r,
    getUserData backend globalThis id [] = (r, [EvGetSession; EvQuery id 1])
    /\ (r = Throw (JsError "error is not defined")
        <-> exists data error,
              q_result (backend id 1%nat) = Normal (data, error)
              /\ truthy data = false
              /\ q_timer_fired (backend id 1%nat) = false).
Proof.
  intros Hg.
  unfold getUserData, for_attempts, attempt_body, bind, emit, modify,
    try_catch, settle, free_identifier, ret, throw.
  simpl.
  destruct (q_result (backend id 1%nat)) as [[data error] | e]; simpl.
  - destruct (truthy data) eqn:Hd; simpl.
    + eexists. split; [reflexivity |]. split; [discriminate |].
      intros (data' & error' & [= <- <-] & Hd' & _). congruence.
    + destruct (q_timer_fired (backend id 1%nat)) eqn:Ht; simpl.
      * eexists. split; [reflexivity |]. split; [discriminate |].
        intros (data' & error' & _ & _ & Ht'). discriminate Ht'.
      * rewrite Hg. eexists. split; [reflexivity |]. split; [| reflexivity].
        intros _. exists data, error. auto.
  - eexists. split; [reflexivity |]. split; [discriminate |].
    intros (data' & error' & Hq & _). discriminate Hq.
Qed.

(** On a backend that rejects every query. *)
Lemma getUserData_never_retries_witness :
  exists r,
    getUserData (fun _ _ => {| q_result := Throw (JsError "Failed to fetch");
                               q_timer_fired := false |})
      ∅ "u1" []
    = (r, [EvGetSession; EvQuery "u1" 1]).
Proof.
  destruct (getUserData_never_retries
              (fun _ _ => {| q_result := Throw (JsError "Failed to fetch");
                             q_timer_fired := false |})
              ∅ "u1" (lookup_empty _)) as (r & Hrun & _).
  exists r. exact Hrun.
Defined.

(** ** createProfileForUser *)

Lemma string_length_app (a b : string) :
  String.length (a ++ b) = (String.length a + String.length b)%nat.
Proof. induction a as [| c a IH]; simpl; [reflexivity | rewrite IH; reflexivity]. Qed.

(** The user name that is inserted first has three characters or more:
    the given name trimmed, when that is long enough, and else [user_]
    followed by the start of the id. *)
Lemma baseUsername_length id username :
  (3 <= String.length (baseUsername id username))%nat.
Proof.
  unfold baseUsername.
  assert (Hid : (3 <= String.length ("user_" ++ String.substring 0 8 id))%nat).
  { rewrite string_length_app. simpl. lia. }
  destruct username as [u |]; [| exact Hid].
  destruct (negb (String.eqb u "") && (3 <=? String.length (trim u))%nat) eqn:E;
    [| exact Hid].
  apply andb_true_iff in E as [_ E]. apply Nat.leb_le in E. exact E.
Qed.

Lemma inserted_app t1 t2 : inserted (t1 ++ t2) = (inserted t1 ++ inserted t2)%list.
Proof. unfold inserted. apply omap_app. Qed.

Lemma inserted_reads reads : inserted (map EvRead reads) = [].
Proof. induction reads as [| e reads IH]; [reflexivity | exact IH]. Qed.

Lemma read_profile_inserts backend globalThis id t :
  inserted (read_profile backend globalThis id t).2 = inserted t.
Proof.
  unfold read_profile.
  destruct (getUserData (select backend) globalThis id []) as [r reads]. cbn [snd].
  rewrite inserted_app, inserted_reads. apply app_nil_r.
Qed.

(** X8.  [createProfileForUser] inserts once, or twice: the second insert
    is made exactly when the first was refused with code 23505 and a
    message naming [profiles_username_key], and differs from the first in
    the user name only, which gets the random suffix.  Every inserted row
    has the given id, a user name of three characters or more, and the
    registration defaults in the other columns. *)
Theorem createProfileForUser_inserts (backend : ProfileBackend)
    (globalThis : gmap string JsVal) (suffix id : string) (username : option string) :
  let base := baseUsername id username in
  let rows := inserted (createProfileForUser backend globalThis suffix id username []).2 in
  (rows = [profileToInsert id base]
   \/ rows = [profileToInsert id base;
              <["username" := JStr (base ++ "_" ++ suffix)]> (profileToInsert id base)])
  /\ (length rows = 2%nat <->
      exists data error,
        insert backend (profileToInsert id base) = Normal (data, Some error)
        /\ code error = "23505"
        /\ includes (message error) "profiles_username_key" = true)
  /\ Forall (fresh_row id) rows.
Proof.
  intros base rows.
  assert (Hbase : fresh_row id (profileToInsert id base)).
  { unfold fresh_row, username_length. repeat split; try reflexivity.
    exists (String.length base). split; [reflexivity | apply baseUsername_length]. }
  assert (Hfallback : fresh_row id (<["username" := JStr (base ++ "_" ++ suffix)]>
                                      (profileToInsert id base))).
  { unfold fresh_row, username_length. repeat split; try reflexivity.
    exists (String.length (base ++ "_" ++ suffix)). split; [reflexivity |].
    rewrite string_length_app. pose proof (baseUsername_length id username). fold base in H. lia. }
  assert (Hrows :
    rows = match insert backend (profileToInsert id base) with
           | Normal (_, Some error) =>
               if String.eqb (code error) "23505"
                  && includes (message error) "profiles_username_key"
               then [profileToInsert id base;
                     <["username" := JStr (base ++ "_" ++ suffix)]> (profileToInsert id base)]
               else [profileToInsert id base]
           | _ => [profileToInsert id base]
           end).
  { subst rows. unfold createProfileForUser, do_insert, bind, modify, settle, ret.
    fold base. cbn [fst snd app].
    destruct (insert backend (profileToInsert id base)) as [[data [error |]] | e];
      cbn [fst snd]; try reflexivity.
    - destruct (String.eqb (code error) "23505"
                && includes (message error) "profiles_username_key") eqn:E; cbn [fst snd app].
      + destruct (insert backend
                    (<["username" := JStr (base ++ "_" ++ suffix)]> (profileToInsert id base)))
          as [[data2 [error2 |]] | e2]; cbn [fst snd]; try reflexivity.
        * destruct (String.eqb (code error2) "23505"); [| reflexivity].
          rewrite read_profile_inserts. reflexivity.
        * destruct (truthy data2); reflexivity.
      + destruct (String.eqb (code error) "23505"); [| reflexivity].
        rewrite read_profile_inserts. reflexivity.
    - destruct (truthy data); reflexivity. }
  rewrite Hrows. clear Hrows rows.
  destruct (insert backend (profileToInsert id base)) as [[data [error |]] | e].
  - destruct (String.eqb (code error) "23505"
              && includes (message error) "profiles_username_key") eqn:E.
    + split; [right; reflexivity |]. split.
      * split; [| reflexivity]. intros _. exists data, error.
        apply andb_true_iff in E as [Hc Hm]. apply String.eqb_eq in Hc. auto.
      * repeat (constructor; [assumption |]); constructor.
    + split; [left; reflexivity |]. split.
      * split; [discriminate |]. intros (d & er & [= <- <-] & Hc & Hm).
        rewrite Hc, Hm in E. discriminate E.
      * repeat (constructor; [assumption |]); constructor.
  - split; [left; reflexivity |]. split.
    + split; [discriminate |]. intros (d & er & [=] & _).
    + repeat (constructor; [assumption |]); constructor.
  - split; [left; reflexivity |]. split.
    + split; [discriminate |]. intros (d & er & [=] & _).
    + repeat (constructor; [assumption |]); constructor.
Qed.

(** X9.  When the first insert is accepted and answers with a row, that
    row is decoded and returned after the one insert, with no query.  A row
    that is the inserted one decodes to the registration defaults: the
    user name as inserted, the read-through mode at index 0, no selected
    chapter, empty lists and objects, and the translation [web]. *)
Theorem createProfileForUser_returns_created_profile (backend : ProfileBackend)
    (globalThis : gmap string JsVal) (suffix id : string) (username : option string)
    (data : JsVal) :
  let base := baseUsername id username in
  insert backend (profileToInsert id base) = Normal (data, None) ->
  truthy data = true ->
  createProfileForUser backend globalThis suffix id username []
  = (Normal (Some (fromSupabase (as_row data))), [EvInsert (profileToInsert id base)])
  /\ fromSupabase (profileToInsert id base)
     = {| AuthService.id := JStr id;
          AuthService.username := JStr base;
          studyMode := JStr "Read Through";
          readThroughIndex := JNum 0;
          userSelectedChapter := JNull;
          completedChapters := JArr [];
          bookmarks := JArr [];
          notes := JObj ∅;
          cachedContent := JObj ∅;
          translation := JStr "web";
          updated_at := JUndefined |}
  /\ decoded_well_formed (fromSupabase (profileToInsert id base)).
Proof.
  intros base Hins Hdata.
  assert (Hname : or_else (JStr base) (JStr "User") = JStr base).
  { unfold or_else. simpl.
    pose proof (baseUsername_length id username) as Hlen. fold base in Hlen.
    destruct base; [simpl in Hlen; lia | reflexivity]. }
  assert (Hdec : fromSupabase (profileToInsert id base)
                 = {| AuthService.id := JStr id;
                      AuthService.username := JStr base;
                      studyMode := JStr "Read Through";
                      readThroughIndex := JNum 0;
                      userSelectedChapter := JNull;
                      completedChapters := JArr [];
                      bookmarks := JArr [];
                      notes := JObj ∅;
                      cachedContent := JObj ∅;
                      translation := JStr "web";
                      updated_at := JUndefined |}).
  { unfold fromSupabase.
    change (prop (profileToInsert id base) "username") with (JStr base).
    rewrite Hname. reflexivity. }
  split.
  - unfold createProfileForUser, do_insert, bind, modify, settle, ret.
    fold base. cbn [fst snd app]. rewrite Hins. cbn [fst snd]. rewrite Hdata. reflexivity.
  - split; [exact Hdec |]. rewrite Hdec. repeat split.
Qed.

(** A backend that answers an insert with the row it was given. *)
Lemma createProfileForUser_returns_created_profile_witness :
  (createProfileForUser
     {| insert := fun row => Normal (JObj row, None);
        select := fun _ _ => {| q_result := Throw (JsError "unused"); q_timer_fired := false |} |}
     ∅ "k3f9" "3f2c9a7e-1111-2222-3333-444455556666" (Some "  naomi ") []).1
  = Normal (Some (fromSupabase
                    (profileToInsert "3f2c9a7e-1111-2222-3333-444455556666" "naomi"))).
Proof.
  rewrite (proj1 (createProfileForUser_returns_created_profile
                    {| insert := fun row => Normal (JObj row, None);
                       select := fun _ _ => {| q_result := Throw (JsError "unused");
                                               q_timer_fired := false |} |}
                    ∅ "k3f9" "3f2c9a7e-1111-2222-3333-444455556666" (Some "  naomi ")
                    (JObj (profileToInsert "3f2c9a7e-1111-2222-3333-444455556666" "naomi"))
                    eq_refl eq_refl)).
  reflexivity.
Defined.

End ProfilesFacts.

(* ===================================================================== *)
(** * Moving between chapters *)
(* ===================================================================== *)

Module NavigationFacts.
Import Js Js.Notations Types StudyApp Navigation Scenarios NavigationScenarios.

(** Unfolds a handler down to the answers of [updateUserData]. *)
Ltac unfold_handler :=
  unfold handleNextChapter, handlePreviousChapter, handleToggleBookmark,
    markChapterComplete, onUpdateUserData, book_at,
    bind, emit, modify, settle, ret, throw, start in *;
  cbn [view trace fst snd] in *.

(** Splits on every answer of [updateUserData] and every test that is left. *)
Ltac split_run :=
  repeat match goal with
         | |- context [updateUserData ?svc ?p] =>
             destruct (updateUserData svc p) as [[] | ?]
         | |- context [match ?x with _ => _ end] =>
             lazymatch x with
             | context [match _ with _ => _ end] => fail
             | _ => destruct x eqn:?
             end
         end;
  cbn [view trace fst snd app] in *.

(** What a run sends when it calls [onUpdateUserData]. *)
Lemma onUpdateUserData_run svc p w :
  onUpdateUserData svc p w
  = (updateUserData svc p, {| view := view w; trace := (trace w ++ [EvUpdateUserData p])%list |}).
Proof. unfold onUpdateUserData, bind, emit, modify, settle. reflexivity. Qed.

(** [markChapterComplete] sends no index and selects no chapter, and when
    the parent's update resolves it ends normally. *)
Lemma markChapterComplete_run svc key completed v :
  exists t,
    (markChapterComplete svc key completed (start v)).2 = {| view := v; trace := t |}
    /\ indexes t = [] /\ selected t = None /\ bookmark_lists t = []
    /\ ((forall p, updateUserData svc p = Normal tt) ->
        (markChapterComplete svc key completed (start v)).1 = Normal tt).
Proof.
  unfold markChapterComplete.
  destruct key as [k |]; [| exists []; repeat split].
  destruct (negb (String.eqb k "") && negb (list_includes completed k));
    [| exists []; repeat split].
  rewrite onUpdateUserData_run. cbn [fst snd start view trace app].
  eexists. split; [reflexivity |]. repeat split. intros H. apply H.
Qed.

Lemma indexes_snoc t p :
  indexes (t ++ [EvUpdateUserData p])
  = (indexes t ++ match p_readThroughIndex p with Some i => [i] | None => [] end)%list.
Proof.
  unfold indexes, updates. rewrite !omap_app. simpl.
  destruct (p_readThroughIndex p); reflexivity.
Qed.

(** ** Read-through mode *)

(** What the two handlers send in read-through mode when the parent's
    updates resolve. *)
Lemma read_through_next svc books plan idx sel completed v :
  (forall p, updateUserData svc p = Normal tt) ->
  indexes (trace (handleNextChapter svc books plan READ_THROUGH idx sel completed (start v)).2)
  = if (idx <? Z.of_nat (length plan) - 1)%Z then [(idx + 1)%Z] else [].
Proof.
  intros Hok. unfold handleNextChapter, bind.
  destruct (markChapterComplete_run svc
              (chapterIdentifierKey (currentChapter READ_THROUGH idx sel plan)) completed v)
    as (t & Hw & Hi & _ & _ & Hn).
  destruct (markChapterComplete svc _ completed (start v)) as [r w1].
  cbn [fst snd] in *. subst w1. rewrite (Hn Hok).
  rewrite bool_decide_eq_true_2 by reflexivity.
  destruct (idx <? Z.of_nat (length plan) - 1)%Z.
  - rewrite onUpdateUserData_run. cbn [snd trace]. rewrite indexes_snoc, Hi. reflexivity.
  - exact Hi.
Qed.

Lemma read_through_previous svc books plan idx sel v :
  indexes (trace (handlePreviousChapter svc books plan READ_THROUGH idx sel (start v)).2)
  = if (0 <? idx)%Z then [(idx - 1)%Z] else [].
Proof.
  unfold handlePreviousChapter. rewrite bool_decide_eq_true_2 by reflexivity.
  destruct (0 <? idx)%Z; [| reflexivity].
  rewrite onUpdateUserData_run. reflexivity.
Qed.

(** X10.  In read-through mode, from an index inside the reading plan, the
    indexes the two handlers send stay inside the plan, whether or not the
    parent's updates resolve: next stops at the last entry, previous at the
    first. *)
Theorem read_through_index_stays_in_plan (svc : Services) (books : list Book)
    (plan : list ChapterIdentifier) (idx : Z) (sel : option ChapterIdentifier)
    (completed : list string) (v : View) :
  (0 <= idx < Z.of_nat (length plan))%Z ->
  Forall (fun i => (0 <= i < Z.of_nat (length plan))%Z)
    (indexes (trace (handleNextChapter svc books plan READ_THROUGH idx sel completed
                       (start v)).2))
  /\ Forall (fun i => (0 <= i < Z.of_nat (length plan))%Z)
       (indexes (trace (handlePreviousChapter svc books plan READ_THROUGH idx sel
                          (start v)).2)).
Proof.
  intros Hidx. split.
  - unfold handleNextChapter, bind.
    destruct (markChapterComplete_run svc
                (chapterIdentifierKey (currentChapter READ_THROUGH idx sel plan)) completed v)
      as (t & Hw & Hi & _ & _ & _).
    destruct (markChapterComplete svc _ completed (start v)) as [[[] | e] w1];
      cbn [fst snd] in *; subst w1; cbn [snd trace]; [| rewrite Hi; constructor].
    rewrite bool_decide_eq_true_2 by reflexivity.
    destruct (idx <? Z.of_nat (length plan) - 1)%Z eqn:E.
    + rewrite onUpdateUserData_run. cbn [snd trace]. rewrite indexes_snoc, Hi.
      cbn [readThroughIndex_update p_readThroughIndex app].
      apply Z.ltb_lt in E. repeat constructor; lia.
    + cbn [ret snd trace]. rewrite Hi. constructor.
  - rewrite read_through_previous. destruct (0 <? idx)%Z eqn:E; [| constructor].
    apply Z.ltb_lt in E. repeat constructor; lia.
Qed.

Lemma read_through_index_stays_in_plan_witness :
  Forall (fun i => (0 <= i < 2)%Z)
    (indexes (trace (handleNextChapter full_service [] [genesis1; genesis1] READ_THROUGH 0
                       None [] (start blank)).2)).
Proof.
  apply (read_through_index_stays_in_plan full_service [] [genesis1; genesis1] 0 None []
           blank).
  simpl. lia.
Defined.

(** X11.  In read-through mode, when the parent's updates resolve, next
    sends the index plus one unless the index is the last of the plan or
    beyond, and sends nothing then; previous sends the index minus one
    unless the index is 0 or below, and sends nothing then; and from an
    index that is not negative previous undoes next: from the index next
    has sent, previous sends the index next started from. *)
Theorem read_through_previous_undoes_next (svc : Services) (books : list Book)
    (plan : list ChapterIdentifier) (idx : Z) (sel : option ChapterIdentifier)
    (completed : list string) (v : View) :
  (forall p, updateUserData svc p = Normal tt) ->
  let next_sent :=
    indexes (trace (handleNextChapter svc books plan READ_THROUGH idx sel completed
                      (start v)).2) in
  let previous_sent :=
    indexes (trace (handlePreviousChapter svc books plan READ_THROUGH idx sel (start v)).2) in
  ((idx < Z.of_nat (length plan) - 1)%Z -> next_sent = [(idx + 1)%Z])
  /\ ((Z.of_nat (length plan) - 1 <= idx)%Z -> next_sent = [])
  /\ ((0 < idx)%Z -> previous_sent = [(idx - 1)%Z])
  /\ ((idx <= 0)%Z -> previous_sent = [])
  /\ ((0 <= idx)%Z ->
      forall i, next_sent = [i] ->
      indexes (trace (handlePreviousChapter svc books plan READ_THROUGH i sel (start v)).2)
      = [idx]).
Proof.
  intros Hok next_sent previous_sent. subst next_sent previous_sent.
  rewrite (read_through_next _ _ _ _ _ _ _ Hok), !read_through_previous.
  split; [| split; [| split; [| split]]].
  - intros H. apply Z.ltb_lt in H. rewrite H. reflexivity.
  - intros H. apply Z.ltb_ge in H. rewrite H. reflexivity.
  - intros H. apply Z.ltb_lt in H. rewrite H. reflexivity.
  - intros H. apply Z.ltb_ge in H. rewrite H. reflexivity.
  - intros Hidx i Hi. rewrite read_through_previous.
    destruct (idx <? Z.of_nat (length plan) - 1)%Z; [| discriminate Hi].
    injection Hi as <-.
    replace (0 <? idx + 1)%Z with true by (symmetry; apply Z.ltb_lt; lia).
    f_equal. lia.
Qed.

Lemma read_through_previous_undoes_next_witness :
  indexes (trace (handleNextChapter full_service [] [genesis1; genesis1; genesis1]
                    READ_THROUGH 1 None [] (start blank)).2)
  = [2%Z].
Proof.
  refine (proj1 (read_through_previous_undoes_next full_service [] [genesis1; genesis1; genesis1]
                   1 None [] blank _) _).
  - reflexivity.
  - simpl. lia.
Defined.

(** ** The other modes: from chapter to chapter *)

Lemma selected_snoc t p :
  selected (t ++ [EvUpdateUserData p])
  = match p_userSelectedChapter p with
    | Some c => c
    | None => selected t
    end.
Proof.
  unfold selected, updates. rewrite omap_app. simpl. rewrite fold_left_app. reflexivity.
Qed.

Lemma current_is_selected mode idx sel plan :
  mode <> READ_THROUGH -> currentChapter mode idx sel plan = sel.
Proof. intros H. unfold currentChapter. rewrite bool_decide_eq_false_2 by exact H. reflexivity. Qed.

(** With updates that resolve, the two handlers select their targets. *)
Lemma handleNextChapter_selects svc books plan mode idx c completed v :
  mode <> READ_THROUGH ->
  (forall p, updateUserData svc p = Normal tt) ->
  selected (trace (handleNextChapter svc books plan mode idx (Some c) completed (start v)).2)
  = next_target books c.
Proof.
  intros Hmode Hok. unfold handleNextChapter, bind.
  rewrite (current_is_selected _ _ _ _ Hmode).
  destruct (markChapterComplete_run svc (chapterIdentifierKey (Some c)) completed v)
    as (t & Hw & _ & Hs & _ & Hn).
  destruct (markChapterComplete svc _ completed (start v)) as [r w1].
  cbn [fst snd] in *. subst w1. rewrite (Hn Hok).
  rewrite bool_decide_eq_false_2 by exact Hmode.
  unfold next_target.
  destruct (find_book books (book c)) as [cb |]; [| exact Hs].
  destruct (chapter c <? chapters cb)%Z.
  { rewrite onUpdateUserData_run. cbn [snd trace]. rewrite selected_snoc. reflexivity. }
  destruct ((-1 <? findIndex books (book c))%Z
            && (findIndex books (book c) <? Z.of_nat (length books) - 1)%Z); [| exact Hs].
  unfold book_at.
  destruct (if (0 <=? findIndex books (book c) + 1)%Z
            then books !! Z.to_nat (findIndex books (book c) + 1) else None) as [nb |].
  - unfold ret. rewrite onUpdateUserData_run. cbn [snd trace]. rewrite selected_snoc.
    reflexivity.
  - exact Hs.
Qed.

Lemma handlePreviousChapter_selects svc books plan mode idx c v :
  mode <> READ_THROUGH ->
  selected (trace (handlePreviousChapter svc books plan mode idx (Some c) (start v)).2)
  = previous_target books c.
Proof.
  intros Hmode. unfold handlePreviousChapter, bind.
  rewrite (current_is_selected _ _ _ _ Hmode).
  rewrite bool_decide_eq_false_2 by exact Hmode.
  unfold previous_target.
  destruct (findIndex books (book c) =? -1)%Z; [reflexivity |].
  destruct (1 <? chapter c)%Z.
  { rewrite onUpdateUserData_run. reflexivity. }
  destruct (0 <? findIndex books (book c))%Z; [| reflexivity].
  unfold book_at.
  destruct (if (0 <=? findIndex books (book c) - 1)%Z
            then books !! Z.to_nat (findIndex books (book c) - 1) else None) as [pb |].
  - unfold ret. rewrite onUpdateUserData_run. reflexivity.
  - reflexivity.
Qed.

(** Whatever the parent's updates do, next sends nothing or its target. *)
Lemma handleNextChapter_selects_at_most svc books plan mode idx c completed v :
  mode <> READ_THROUGH ->
  selected (trace (handleNextChapter svc books plan mode idx (Some c) completed (start v)).2)
  = None
  \/ selected (trace (handleNextChapter svc books plan mode idx (Some c) completed
                        (start v)).2)
     = next_target books c.
Proof.
  intros Hmode. unfold handleNextChapter, bind.
  rewrite (current_is_selected _ _ _ _ Hmode).
  destruct (markChapterComplete_run svc (chapterIdentifierKey (Some c)) completed v)
    as (t & Hw & _ & Hs & _ & _).
  destruct (markChapterComplete svc _ completed (start v)) as [[[] | e] w1];
    cbn [fst snd] in *; subst w1; [| left; exact Hs].
  right.
  rewrite bool_decide_eq_false_2 by exact Hmode.
  unfold next_target.
  destruct (find_book books (book c)) as [cb |]; [| exact Hs].
  destruct (chapter c <? chapters cb)%Z.
  { rewrite onUpdateUserData_run. cbn [snd trace]. rewrite selected_snoc. reflexivity. }
  destruct ((-1 <? findIndex books (book c))%Z
            && (findIndex books (book c) <? Z.of_nat (length books) - 1)%Z); [| exact Hs].
  unfold book_at.
  destruct (if (0 <=? findIndex books (book c) + 1)%Z
            then books !! Z.to_nat (findIndex books (book c) + 1) else None) as [nb |].
  - unfold ret. rewrite onUpdateUserData_run. cbn [snd trace]. rewrite selected_snoc.
    reflexivity.
  - exact Hs.
Qed.

(** *** The table of books *)

Lemma find_book_Some books n b :
  find_book books n = Some b -> b ∈ books /\ name b = n.
Proof.
  unfold find_book. intros H. apply find_some in H as [Hin Heq].
  split; [apply list_elem_of_In; exact Hin | apply String.eqb_eq; exact Heq].
Qed.

Lemma findIndex_bounds books n :
  (-1 <= findIndex books n < Z.of_nat (length books))%Z.
Proof.
  induction books as [| b books IH]; simpl; [lia |].
  destruct (String.eqb (name b) n); [lia |].
  destruct (findIndex books n <? 0)%Z eqn:E; [lia |]. apply Z.ltb_ge in E. lia.
Qed.

(** The index found is the place of the book found. *)
Lemma findIndex_find books n :
  match find_book books n with
  | Some b => exists k, findIndex books n = Z.of_nat k /\ books !! k = Some b
  | None => findIndex books n = (-1)%Z
  end.
Proof.
  unfold find_book. induction books as [| b books IH]; simpl; [reflexivity |].
  destruct (String.eqb (name b) n); [exists 0%nat; split; reflexivity |].
  destruct (List.find _ books) as [b' |].
  - destruct IH as (k & Hk & Hb). exists (S k). rewrite Hk. split; [| exact Hb].
    replace (Z.of_nat k <? 0)%Z with false by (symmetry; apply Z.ltb_ge; lia). lia.
  - rewrite IH. reflexivity.
Qed.

(** In a table without a repeated name, a book is found at its place. *)
Lemma findIndex_at books k b :
  NoDup (map name books) -> books !! k = Some b -> findIndex books (name b) = Z.of_nat k.
Proof.
  revert k. induction books as [| b0 books IH]; intros k Hnd Hk; [discriminate Hk |].
  simpl in Hnd. apply NoDup_cons in Hnd as [Hnotin Hnd]. simpl.
  destruct k as [| k]; simpl in Hk.
  - injection Hk as ->. rewrite String.eqb_refl. reflexivity.
  - destruct (String.eqb (name b0) (name b)) eqn:E.
    + exfalso. apply String.eqb_eq in E. apply Hnotin. rewrite E.
      apply list_elem_of_fmap. exists b. split; [reflexivity |].
      apply list_elem_of_lookup. exists k. exact Hk.
    + rewrite (IH k Hnd Hk).
      replace (Z.of_nat k <? 0)%Z with false by (symmetry; apply Z.ltb_ge; lia). lia.
Qed.

(** X12.  Outside read-through mode, in a table whose books all have a
    chapter, the two handlers keep the selection inside the table: from a
    chapter of the table, whatever next or previous selects is a chapter of
    the table again, whether or not the parent's updates resolve. *)
Theorem selection_stays_in_canon (svc : Services) (books : list Book)
    (plan : list ChapterIdentifier) (mode : StudyMode) (idx : Z)
    (c : ChapterIdentifier) (completed : list string) (v : View) :
  mode <> READ_THROUGH ->
  Forall (fun b => (1 <= chapters b)%Z) books ->
  in_canon books c ->
  (forall c', selected (trace (handleNextChapter svc books plan mode idx (Some c) completed
                                 (start v)).2) = Some c' -> in_canon books c')
  /\ (forall c', selected (trace (handlePreviousChapter svc books plan mode idx (Some c)
                                    (start v)).2) = Some c' -> in_canon books c').
Proof.
  intros Hmode Hch (b & Hb & Hname & Hlo & Hhi).
  rewrite Forall_forall in Hch.
  assert (Hnext : forall c', next_target books c = Some c' -> in_canon books c').
  { intros c'. unfold next_target.
    destruct (find_book books (book c)) as [cb |] eqn:Hf; [| discriminate].
    apply find_book_Some in Hf as [Hcb Hcbn].
    destruct (chapter c <? chapters cb)%Z eqn:E.
    - intros [= <-]. apply Z.ltb_lt in E. exists cb. simpl. repeat split; auto; lia.
    - destruct (_ && _); [| discriminate].
      destruct (0 <=? findIndex books (book c) + 1)%Z; [| discriminate].
      destruct (books !! Z.to_nat (findIndex books (book c) + 1)) as [nb |] eqn:Hnb;
        [| discriminate].
      intros [= <-]. exists nb. simpl.
      assert (Hin : nb ∈ books) by (apply list_elem_of_lookup; eauto).
      repeat split; auto; try lia; apply Hch; exact Hin. }
  split.
  - intros c' Hsel.
    destruct (handleNextChapter_selects_at_most svc books plan mode idx c completed v Hmode)
      as [Hnone | Hsome].
    + rewrite Hnone in Hsel. discriminate Hsel.
    + rewrite Hsome in Hsel. apply Hnext. exact Hsel.
  - intros c'. rewrite (handlePreviousChapter_selects _ _ _ _ _ _ _ Hmode).
    unfold previous_target.
    destruct (findIndex books (book c) =? -1)%Z; [discriminate |].
    destruct (1 <? chapter c)%Z eqn:E.
    + intros [= <-]. apply Z.ltb_lt in E. exists b. simpl. repeat split; auto; lia.
    + destruct (0 <? findIndex books (book c))%Z; [| discriminate].
      destruct (0 <=? findIndex books (book c) - 1)%Z; [| discriminate].
      destruct (books !! Z.to_nat (findIndex books (book c) - 1)) as [pb |] eqn:Hpb;
        [| discriminate].
      intros [= <-]. exists pb. simpl.
      assert (Hin : pb ∈ books) by (apply list_elem_of_lookup; eauto).
      pose proof (Hch pb Hin). repeat split; auto; lia.
Qed.

Lemma selection_stays_in_canon_witness : in_canon genesis_exodus exodus1.
Proof.
  refine (proj1 (selection_stays_in_canon full_service genesis_exodus [] BOOK 0
                   genesis50 [] blank _ _ _) exodus1 _).
  - discriminate.
  - repeat constructor; simpl; lia.
  - exists {| name := "Genesis"; chapters := 50; testament := "Old" |}.
    split; [left |]. simpl. repeat split; lia.
  - reflexivity.
Defined.

Lemma find_book_at books k b :
  NoDup (map name books) -> books !! k = Some b -> find_book books (name b) = Some b.
Proof.
  intros Hnd Hk. pose proof (findIndex_find books (name b)) as H.
  rewrite (findIndex_at books k b Hnd Hk) in H.
  destruct (find_book books (name b)) as [b' |]; [| lia].
  destruct H as (k' & Hk' & Hb'). apply Nat2Z.inj in Hk'. subst k'. congruence.
Qed.

(** X13.  Outside read-through mode, in a table without a repeated name
    whose books all have a chapter, previous and next undo each other on the
    chapters of the table: when the parent's updates resolve and next moves
    from a chapter to another, previous moves from that one back to the
    first, and the other way round. *)
Theorem previous_and_next_undo_each_other (svc : Services) (books : list Book)
    (plan : list ChapterIdentifier) (mode : StudyMode) (idx : Z)
    (c c' : ChapterIdentifier) (completed completed' : list string) (v v' : View) :
  mode <> READ_THROUGH ->
  canon books ->
  in_canon books c ->
  (forall p, updateUserData svc p = Normal tt) ->
  (selected (trace (handleNextChapter svc books plan mode idx (Some c) completed
                      (start v)).2) = Some c' ->
   selected (trace (handlePreviousChapter svc books plan mode idx (Some c')
                      (start v')).2) = Some c)
  /\ (selected (trace (handlePreviousChapter svc books plan mode idx (Some c)
                         (start v)).2) = Some c' ->
      selected (trace (handleNextChapter svc books plan mode idx (Some c') completed'
                         (start v')).2) = Some c).
Proof.
  intros Hmode [Hnd Hch] (b & Hb & Hname & Hlo & Hhi) Hok.
  rewrite !(handlePreviousChapter_selects _ _ _ _ _ _ _ Hmode).
  rewrite !(handleNextChapter_selects _ _ _ _ _ _ _ _ Hmode Hok).
  apply list_elem_of_lookup in Hb as [kb Hkb].
  pose proof (find_book_at books kb b Hnd Hkb) as Hfind.
  pose proof (findIndex_at books kb b Hnd Hkb) as Hindex.
  rewrite Hname in Hfind, Hindex.
  pose proof (lookup_lt_Some _ _ _ Hkb) as Hlen.
  destruct c as [bk ch]. cbn [book chapter] in *.
  split.
  - unfold next_target. cbn [book chapter]. rewrite Hfind, Hindex.
    destruct (ch <? chapters b)%Z eqn:E.
    + intros [= <-]. unfold previous_target. cbn [book chapter]. rewrite Hindex.
      replace (Z.of_nat kb =? -1)%Z with false by (symmetry; apply Z.eqb_neq; lia).
      replace (1 <? ch + 1)%Z with true by (symmetry; apply Z.ltb_lt; lia).
      f_equal. f_equal. lia.
    + apply Z.ltb_ge in E.
      destruct (_ && _); [| discriminate].
      replace (0 <=? Z.of_nat kb + 1)%Z with true by (symmetry; apply Z.leb_le; lia).
      replace (Z.to_nat (Z.of_nat kb + 1)) with (S kb) by lia.
      destruct (books !! S kb) as [nb |] eqn:Hnb; [| discriminate].
      intros [= <-]. unfold previous_target. cbn [book chapter].
      rewrite (findIndex_at books (S kb) nb Hnd Hnb).
      replace (Z.of_nat (S kb) =? -1)%Z with false by (symmetry; apply Z.eqb_neq; lia).
      replace (1 <? 1)%Z with false by reflexivity.
      replace (0 <? Z.of_nat (S kb))%Z with true by (symmetry; apply Z.ltb_lt; lia).
      replace (0 <=? Z.of_nat (S kb) - 1)%Z with true by (symmetry; apply Z.leb_le; lia).
      replace (Z.to_nat (Z.of_nat (S kb) - 1)) with kb by lia.
      rewrite Hkb. f_equal. f_equal; [exact Hname | lia].
  - unfold previous_target. cbn [book chapter]. rewrite Hindex.
    replace (Z.of_nat kb =? -1)%Z with false by (symmetry; apply Z.eqb_neq; lia).
    destruct (1 <? ch)%Z eqn:E.
    + intros [= <-]. unfold next_target. cbn [book chapter]. rewrite Hfind.
      replace (ch - 1 <? chapters b)%Z with true by (symmetry; apply Z.ltb_lt; lia).
      f_equal. f_equal. lia.
    + apply Z.ltb_ge in E.
      destruct (0 <? Z.of_nat kb)%Z eqn:Ek; [| discriminate]. apply Z.ltb_lt in Ek.
      replace (0 <=? Z.of_nat kb - 1)%Z with true by (symmetry; apply Z.leb_le; lia).
      destruct (books !! Z.to_nat (Z.of_nat kb - 1)) as [pb |] eqn:Hpb; [| discriminate].
      intros [= <-]. unfold next_target. cbn [book chapter].
      rewrite (find_book_at books _ pb Hnd Hpb), (findIndex_at books _ pb Hnd Hpb).
      rewrite Z.ltb_irrefl.
      replace ((-1 <? Z.of_nat (Z.to_nat (Z.of_nat kb - 1)))%Z
               && (Z.of_nat (Z.to_nat (Z.of_nat kb - 1)) <? Z.of_nat (length books) - 1)%Z)
        with true
        by (symmetry; apply andb_true_intro; split; apply Z.ltb_lt; lia).
      replace (0 <=? Z.of_nat (Z.to_nat (Z.of_nat kb - 1)) + 1)%Z with true
        by (symmetry; apply Z.leb_le; lia).
      replace (Z.to_nat (Z.of_nat (Z.to_nat (Z.of_nat kb - 1)) + 1)) with kb by lia.
      rewrite Hkb. f_equal. f_equal; [exact Hname | lia].
Qed.

Lemma previous_and_next_undo_each_other_witness :
  selected (trace (handlePreviousChapter full_service genesis_exodus [] BOOK 0
                     (Some exodus1) (start blank)).2) = Some genesis50.
Proof.
  refine (proj1 (previous_and_next_undo_each_other full_service genesis_exodus []
                   BOOK 0 genesis50 exodus1 [] [] blank blank _ _ _ _) _).
  - discriminate.
  - split; [| repeat constructor; simpl; lia].
    simpl. apply NoDup_cons.
    split; [rewrite list_elem_of_singleton; discriminate | apply NoDup_singleton].
  - exists {| name := "Genesis"; chapters := 50; testament := "Old" |}.
    split; [left |]. simpl. repeat split; lia.
  - reflexivity.
  - reflexivity.
Defined.

(** ** Bookmarks *)

Lemma filter_others_absent key (l : list string) :
  key ∉ l -> List.filter (fun b => negb (String.eqb b key)) l = l.
Proof.
  induction l as [| x l IH]; intros Hn; [reflexivity |].
  apply not_elem_of_cons in Hn as [Hx Hl]. simpl.
  replace (String.eqb x key) with false by (symmetry; apply String.eqb_neq; congruence).
  simpl. rewrite (IH Hl). reflexivity.
Qed.

Lemma filter_others_twice key (l : list string) :
  List.filter (fun b => negb (String.eqb b key))
    (List.filter (fun b => negb (String.eqb b key)) l)
  = List.filter (fun b => negb (String.eqb b key)) l.
Proof.
  induction l as [| x l IH]; [reflexivity |]. simpl.
  destruct (negb (String.eqb x key)) eqn:E; [| exact IH].
  simpl. rewrite E, IH. reflexivity.
Qed.

Lemma filter_others_snoc key (l : list string) :
  List.filter (fun b => negb (String.eqb b key)) (l ++ [key])
  = List.filter (fun b => negb (String.eqb b key)) l.
Proof.
  rewrite List.filter_app. simpl. rewrite String.eqb_refl. simpl. apply app_nil_r.
Qed.

Lemma filter_NoDup (f : string -> bool) (l : list string) :
  NoDup l -> NoDup (List.filter f l).
Proof.
  induction l as [| x l IH]; intros Hnd; [constructor |].
  apply NoDup_cons in Hnd as [Hx Hl]. simpl.
  destruct (f x); [| exact (IH Hl)].
  apply NoDup_cons. split; [| exact (IH Hl)].
  intros Hin. apply Hx. apply list_elem_of_In in Hin. apply filter_In in Hin as [Hin _].
  apply list_elem_of_In. exact Hin.
Qed.

Lemma handleToggleBookmark_run svc key bookmarks v :
  key <> "" ->
  trace (handleToggleBookmark svc (Some key) bookmarks (start v)).2
  = [EvUpdateUserData
       (bookmarks_update
          (if list_includes bookmarks key
           then List.filter (fun b => negb (String.eqb b key)) bookmarks
           else (bookmarks ++ [key])%list))].
Proof.
  intros Hkey. unfold handleToggleBookmark.
  replace (String.eqb key "") with false by (symmetry; apply String.eqb_neq; exact Hkey).
  rewrite onUpdateUserData_run. reflexivity.
Qed.

(** X14.  Toggling the bookmark of a chapter sends one update, a list of
    bookmarks in which the chapter's key is present exactly when it was
    absent before, the other entries are the same, in the same order, and
    no entry is repeated if none was; nothing else is sent.  Toggling again,
    after the key was added, sends the list the first toggle started from. *)
Theorem handleToggleBookmark_flips_membership (svc : Services) (key : string)
    (bookmarks : list string) (v v' : View) :
  key <> "" ->
  exists l,
    updates (trace (handleToggleBookmark svc (Some key) bookmarks (start v)).2)
    = [bookmarks_update l]
    /\ (key ∈ l <-> key ∉ bookmarks)
    /\ List.filter (fun b => negb (String.eqb b key)) l
       = List.filter (fun b => negb (String.eqb b key)) bookmarks
    /\ (NoDup bookmarks -> NoDup l)
    /\ (key ∉ bookmarks ->
        bookmark_lists (trace (handleToggleBookmark svc (Some key) l (start v')).2)
        = [bookmarks]).
Proof.
  intros Hkey. rewrite (handleToggleBookmark_run _ _ _ _ Hkey).
  destruct (list_includes bookmarks key) eqn:E.
  - apply CacheKeyFacts.list_includes_elem in E.
    exists (List.filter (fun b => negb (String.eqb b key)) bookmarks).
    split; [reflexivity |]. split; [| split; [| split]].
    + split; [| intros Hn; contradiction].
      intros Hin. apply list_elem_of_In, filter_In in Hin as [_ Hf].
      rewrite String.eqb_refl in Hf. discriminate Hf.
    + apply filter_others_twice.
    + apply filter_NoDup.
    + intros Hn. contradiction.
  - assert (Hn : key ∉ bookmarks).
    { intros Hin. apply CacheKeyFacts.list_includes_elem in Hin. congruence. }
    exists (bookmarks ++ [key])%list.
    split; [reflexivity |]. split; [| split; [| split]].
    + split; [intros _; exact Hn | intros _; apply elem_of_app; right; left].
    + apply filter_others_snoc.
    + intros Hnd. apply NoDup_app. split; [exact Hnd |].
      split; [| apply NoDup_singleton].
      intros x Hx Hx'. apply list_elem_of_singleton in Hx'. subst x. contradiction.
    + intros _. rewrite (handleToggleBookmark_run _ _ _ _ Hkey).
      replace (list_includes (bookmarks ++ [key]) key) with true.
      * unfold bookmark_lists. simpl. rewrite filter_others_snoc, (filter_others_absent _ _ Hn).
        reflexivity.
      * symmetry. apply CacheKeyFacts.list_includes_elem. apply elem_of_app. right. left.
Qed.

Lemma handleToggleBookmark_flips_membership_witness :
  exists l,
    updates (trace (handleToggleBookmark full_service (Some "Genesis-1") ["Exodus-3"]
                      (start blank)).2)
    = [bookmarks_update l]
    /\ ("Genesis-1" ∈ l <-> "Genesis-1" ∉ ["Exodus-3"])
    /\ List.filter (fun b => negb (String.eqb b "Genesis-1")) l
       = List.filter (fun b => negb (String.eqb b "Genesis-1")) ["Exodus-3"]
    /\ (NoDup ["Exodus-3"] -> NoDup l)
    /\ ("Genesis-1" ∉ ["Exodus-3"] ->
        bookmark_lists (trace (handleToggleBookmark full_service (Some "Genesis-1") l
                                 (start blank)).2)
        = [["Exodus-3"]]).
Proof.
  apply (handleToggleBookmark_flips_membership full_service "Genesis-1" ["Exodus-3"]
           blank blank).
  discriminate.
Defined.

End NavigationFacts.

(* ===================================================================== *)
(** * Properties of the chapter keys *)
(* ===================================================================== *)

Module ChapterKeysFacts.
Import Js Types StudyApp Navigation ChapterKeys.

Lemma split_nonempty sep s : split sep s <> [].
Proof.
  destruct s as [| c s]; simpl; [discriminate |].
  destruct (Ascii.eqb c sep); [discriminate |].
  destruct (split sep s); discriminate.
Qed.

Lemma split_without sep d :
  all_chars (fun c => negb (Ascii.eqb c sep)) d = true -> split sep d = [d].
Proof.
  induction d as [| c d IH]; simpl; [reflexivity |].
  intros H. apply andb_prop in H as [Hc Hd].
  apply negb_true_iff in Hc. rewrite Hc, (IH Hd). reflexivity.
Qed.

Lemma split_snoc sep a d :
  all_chars (fun c => negb (Ascii.eqb c sep)) d = true ->
  split sep (a ++ String sep d) = (split sep a ++ [d])%list.
Proof.
  intros Hd. induction a as [| c a IH]; simpl.
  - rewrite Ascii.eqb_refl, (split_without _ _ Hd). reflexivity.
  - rewrite IH. destruct (Ascii.eqb c sep); [reflexivity |].
    pose proof (split_nonempty sep a) as Hne.
    destruct (split sep a) as [| p ps]; [contradiction | reflexivity].
Qed.

Lemma join_split sep a : join (String sep "") (split sep a) = a.
Proof.
  unfold join. induction a as [| c a IH]; [reflexivity |]. simpl.
  pose proof (split_nonempty sep a) as Hne.
  destruct (Ascii.eqb c sep) eqn:E.
  - apply Ascii.eqb_eq in E. subst c.
    destruct (split sep a) as [| p ps]; [contradiction |].
    simpl in *. rewrite IH. reflexivity.
  - destruct (split sep a) as [| p ps]; [contradiction |].
    destruct ps; simpl in *; rewrite <- IH; reflexivity.
Qed.

Lemma all_chars_app f a b : all_chars f (a ++ b) = all_chars f a && all_chars f b.
Proof.
  induction a as [| c a IH]; simpl; [reflexivity |]. rewrite IH. apply andb_assoc.
Qed.

Lemma all_chars_weaken (f g : ascii -> bool) s :
  (forall c, f c = true -> g c = true) -> all_chars f s = true -> all_chars g s = true.
Proof.
  intros Hfg. induction s as [| c s IH]; simpl; [reflexivity |].
  intros H. apply andb_prop in H as [Hc Hs]. rewrite (Hfg c Hc), (IH Hs). reflexivity.
Qed.

(** A digit is no white space, no sign and no dash. *)
Lemma is_digit_plain c :
  is_digit c = true ->
  is_space c = false /\ Ascii.eqb c "-"%char = false /\ Ascii.eqb c "+"%char = false.
Proof.
  unfold is_digit, is_space. intros H. apply andb_prop in H as [Hlo Hhi].
  apply Nat.leb_le in Hlo, Hhi.
  split; [| split].
  - repeat (apply orb_false_intro); apply Nat.eqb_neq; lia.
  - apply Ascii.eqb_neq. intros ->. cbv in Hlo. lia.
  - apply Ascii.eqb_neq. intros ->. cbv in Hlo. lia.
Qed.

Lemma pretty_N_char_digit r :
  (r < 10)%N ->
  is_digit (pretty_N_char r) = true
  /\ (Z.of_nat (nat_of_ascii (pretty_N_char r)) - 48 = Z.of_N r)%Z.
Proof.
  intros Hr.
  assert (H : (r = 0 \/ r = 1 \/ r = 2 \/ r = 3 \/ r = 4 \/ r = 5 \/ r = 6 \/ r = 7
               \/ r = 8 \/ r = 9)%N) by lia.
  repeat (destruct H as [-> | H]; [split; reflexivity |]). subst r. split; reflexivity.
Qed.

Lemma parse_digits_app acc d s :
  all_chars is_digit d = true ->
  parse_digits acc (d ++ s) = parse_digits (parse_digits acc d) s.
Proof.
  revert acc. induction d as [| c d IH]; intros acc H; [reflexivity |].
  simpl in *. apply andb_prop in H as [Hc Hd]. rewrite Hc. apply IH. exact Hd.
Qed.

Lemma append_nil_r (a : string) : a ++ "" = a.
Proof. induction a as [| x a IH]; [reflexivity | exact (f_equal (String x) IH)]. Qed.

Lemma append_assoc (a b c : string) : (a ++ b) ++ c = a ++ (b ++ c).
Proof. induction a as [| x a IH]; [reflexivity | exact (f_equal (String x) IH)]. Qed.

(** The digits [pretty] writes for a positive number, read back. *)
Lemma pretty_N_go_digits x :
  (0 < x)%N ->
  forall s, exists d,
    pretty_N_go x s = d ++ s
    /\ d <> ""
    /\ all_chars is_digit d = true
    /\ forall acc, parse_digits acc d
                   = Some (default 0 acc * 10 ^ Z.of_nat (String.length d) + Z.of_N x)%Z.
Proof.
  induction (N.lt_wf_0 x) as [x _ IH]. intros Hx s.
  rewrite (pretty_N_go_step x s Hx).
  pose proof (N.mod_lt x 10 ltac:(lia)) as Hr.
  destruct (pretty_N_char_digit _ Hr) as [Hdigit Hvalue].
  pose proof (N.div_mod x 10 ltac:(lia)) as Hdm.
  destruct (N.eq_dec (x `div` 10)%N 0%N) as [Hq | Hq].
  - rewrite Hq, pretty_N_go_0.
    exists (String (pretty_N_char (x `mod` 10)) ""). split; [reflexivity |].
    split; [discriminate |]. split; [simpl; rewrite Hdigit; reflexivity |].
    intros acc. simpl. rewrite Hdigit, Hvalue. f_equal. lia.
  - destruct (IH (x `div` 10)%N) with (s := String (pretty_N_char (x `mod` 10)) s)
      as (d & Heq & Hne & Hd & Hparse).
    { apply N.div_lt; lia. }
    { lia. }
    exists (d ++ String (pretty_N_char (x `mod` 10)) "").
    split; [rewrite Heq, append_assoc; reflexivity |].
    split; [destruct d; [contradiction | discriminate] |].
    split; [rewrite all_chars_app, Hd; simpl; rewrite Hdigit; reflexivity |].
    intros acc. rewrite (parse_digits_app _ _ _ Hd), Hparse. simpl.
    rewrite Hdigit, Hvalue. f_equal.
    rewrite ProfilesFacts.string_length_app. simpl String.length.
    replace (Z.of_nat (String.length d + 1)) with (Z.of_nat (String.length d) + 1)%Z by lia.
    rewrite Z.pow_add_r by lia. lia.
Qed.

(** [`${n}`] for a number that is not negative is a run of digits, and
    [parseInt] reads the number back from it. *)
Lemma number_to_string_digits n :
  (0 <= n)%Z ->
  all_chars is_digit (number_to_string n) = true
  /\ number_to_string n <> ""
  /\ parseInt (number_to_string n) = Some n.
Proof.
  intros Hn. unfold number_to_string, pretty, pretty_Z.
  destruct n as [| p | p]; [repeat split; discriminate | | lia].
  unfold pretty, pretty_positive, pretty, pretty_N.
  destruct (decide (N.pos p = 0%N)) as [H | _]; [discriminate H |].
  destruct (pretty_N_go_digits (N.pos p) ltac:(lia) "") as (d & Heq & Hne & Hd & Hparse).
  rewrite Heq, append_nil_r.
  split; [exact Hd |]. split; [exact Hne |].
  destruct d as [| c d]; [contradiction |].
  pose proof Hd as Hd'. simpl in Hd'. apply andb_prop in Hd' as [Hc _].
  destruct (is_digit_plain c Hc) as (Hsp & Hdash & Hplus).
  unfold parseInt. simpl trim_start. rewrite Hsp, Hdash, Hplus.
  rewrite Hparse. reflexivity.
Qed.

Lemma replace_underscores_spaces s :
  plain_name s = true -> replace_underscores (replace_spaces "_" s) = s.
Proof.
  unfold plain_name, replace_underscores, replace_spaces.
  induction s as [| c s IH]; [reflexivity |]. simpl.
  intros H. apply andb_prop in H as [Hc Hs]. apply andb_prop in Hc as [Hu Hsp].
  rewrite (IH Hs). f_equal.
  apply negb_true_iff in Hu.
  destruct (is_space c); simpl in Hsp.
  - apply Ascii.eqb_eq in Hsp. subst c. reflexivity.
  - rewrite Hu. reflexivity.
Qed.

(** The key of a chapter, taken apart again. *)
Lemma key_parts a d :
  all_chars is_digit d = true ->
  pop (split "-" (a ++ "-" ++ d)) = (Some d, split "-" a).
Proof.
  intros Hd. change (a ++ "-" ++ d) with (a ++ String "-" d).
  rewrite split_snoc.
  - unfold pop. rewrite last_snoc, removelast_last. reflexivity.
  - apply (all_chars_weaken is_digit); [| exact Hd].
    intros c Hc. apply is_digit_plain in Hc as (_ & Hdash & _). rewrite Hdash. reflexivity.
Qed.

Lemma key_decodes bk ch :
  plain_name bk = true ->
  (0 <= ch)%Z ->
  decodeChapterKey (replace_spaces "_" bk ++ "-" ++ number_to_string ch) = (bk, Some ch)
  /\ decodeBookmarkKey (replace_spaces "_" bk ++ "-" ++ number_to_string ch) = (bk, Some ch).
Proof.
  intros Hbk Hch. destruct (number_to_string_digits ch Hch) as (Hd & Hne & Hparse).
  unfold decodeChapterKey, decodeBookmarkKey. rewrite (key_parts _ _ Hd).
  rewrite (join_split "-"), (replace_underscores_spaces _ Hbk), Hparse.
  split; [reflexivity |].
  replace (String.eqb (number_to_string ch) "") with false
    by (symmetry; apply String.eqb_neq; exact Hne).
  rewrite Hparse. reflexivity.
Qed.

(** X15.  The key of a chapter leads back to the chapter: for a book name
    without underscore whose only white space is the plain space, and a
    chapter number that is not negative, what [handleRandomChapter] and the
    bookmark list of the sidebar read from the chapter's key are the book
    name and the chapter number the key was made from. *)
Theorem chapter_key_round_trip (c : ChapterIdentifier) (k : string) :
  plain_name (book c) = true ->
  (0 <= chapter c)%Z ->
  chapterIdentifierKey (Some c) = Some k ->
  decodeChapterKey k = (book c, Some (chapter c))
  /\ decodeBookmarkKey k = (book c, Some (chapter c)).
Proof.
  intros Hbk Hch [= <-]. apply key_decodes; assumption.
Qed.

Lemma chapter_key_round_trip_witness :
  decodeChapterKey "1_Samuel-3" = ("1 Samuel", Some 3%Z)
  /\ decodeBookmarkKey "1_Samuel-3" = ("1 Samuel", Some 3%Z).
Proof.
  apply (chapter_key_round_trip {| book := "1 Samuel"; chapter := 3 |} "1_Samuel-3");
    [reflexivity | simpl; lia | reflexivity].
Defined.

(** The two hypotheses are needed: the dash of a negative number is taken
    for the separator, and an underscore of the name comes back as a
    space. *)
Example negative_chapter_is_not_read_back :
  chapterIdentifierKey (Some {| book := "Genesis"; chapter := -5 |}) = Some "Genesis--5"
  /\ decodeChapterKey "Genesis--5" = ("Genesis-", Some 5%Z).
Proof. split; reflexivity. Qed.

Example underscore_is_not_read_back :
  chapterIdentifierKey (Some {| book := "Song_of Songs"; chapter := 2 |})
  = Some "Song_of_Songs-2"
  /\ decodeChapterKey "Song_of_Songs-2" = ("Song of Songs", Some 2%Z).
Proof. split; reflexivity. Qed.

(** X16.  The chapters [handleRandomChapter] draws from are the chapters
    of the table that are not completed: a key is among the unread ones
    exactly when it is the key of a chapter of the table and is not in the
    list of completed chapters; and when the names of the table are plain,
    the handler reads that chapter back from the key. *)
Theorem unreadChapters_are_the_unread_of_the_table (books : list Book)
    (completed : list string) (k : string) :
  (k ∈ unreadChapters books completed
   <-> exists c, in_canon books c /\ chapterIdentifierKey (Some c) = Some k /\ k ∉ completed)
  /\ ((forall b, b ∈ books -> plain_name (name b) = true) ->
      k ∈ unreadChapters books completed ->
      exists c, in_canon books c /\ decodeChapterKey k = (book c, Some (chapter c))).
Proof.
  assert (Hall : k ∈ allChapters books
                 <-> exists c, in_canon books c /\ chapterIdentifierKey (Some c) = Some k).
  { unfold allChapters. rewrite list_elem_of_In, in_flat_map. split.
    - intros (b & Hb & Hk). apply list_elem_of_In in Hb, Hk.
      unfold chapter_keys in Hk. apply list_elem_of_fmap in Hk as (i & -> & Hi).
      apply elem_of_seqZ in Hi.
      exists {| book := name b; chapter := i + 1 |}. split; [| reflexivity].
      exists b. simpl. repeat split; auto; lia.
    - intros (c & (b & Hb & Hname & Hlo & Hhi) & [= <-]).
      exists b. split; [apply list_elem_of_In; exact Hb |].
      apply list_elem_of_In. unfold chapter_keys. apply list_elem_of_fmap.
      exists (chapter c - 1)%Z. split.
      + rewrite Hname. replace (chapter c - 1 + 1)%Z with (chapter c) by lia. reflexivity.
      + apply elem_of_seqZ. lia. }
  assert (Hunread : k ∈ unreadChapters books completed
                    <-> k ∈ allChapters books /\ k ∉ completed).
  { unfold unreadChapters. rewrite list_elem_of_In, filter_In, <- list_elem_of_In.
    rewrite negb_true_iff, <- not_true_iff_false, CacheKeyFacts.list_includes_elem.
    reflexivity. }
  split.
  - rewrite Hunread, Hall. split.
    + intros [(c & Hc & Hk) Hn]. exists c. auto.
    + intros (c & Hc & Hk & Hn). split; [exists c; auto | exact Hn].
  - intros Hplain Hk. apply Hunread in Hk as [Hk _]. apply Hall in Hk as (c & Hc & Hk).
    exists c. split; [exact Hc |].
    destruct Hc as (b & Hb & Hname & Hlo & Hhi).
    injection Hk as <-. apply key_decodes; [| lia].
    rewrite <- Hname. apply Hplain. exact Hb.
Qed.

End ChapterKeysFacts.

(* ===================================================================== *)
(** * Properties of the text service *)
(* ===================================================================== *)

Module BibleApiFacts.
Import Js Js.Notations Types StudyApp ChapterKeys.

(** ** Trimming *)

Lemma trim_start_head s :
  trim_start s = "" \/ exists c t, trim_start s = String c t /\ is_space c = false.
Proof.
  induction s as [| c s IH]; simpl; [left; reflexivity |].
  destruct (is_space c) eqn:E; [exact IH |]. right. exists c, s. auto.
Qed.

Lemma trim_end_head c t :
  is_space c = false -> exists t', trim_end (String c t) = String c t'.
Proof.
  intros Hc. simpl. rewrite Hc. destruct (trim_end t); eauto.
Qed.

Lemma trim_end_twice s : trim_end (trim_end s) = trim_end s.
Proof.
  induction s as [| c s IH]; [reflexivity |]. simpl.
  destruct (trim_end s) as [| d t] eqn:E.
  - destruct (is_space c) eqn:Hc; [reflexivity |]. simpl. rewrite Hc. reflexivity.
  - change (trim_end (String c (String d t))) with
      (match trim_end (String d t) with
       | EmptyString => if is_space c then EmptyString else String c EmptyString
       | t' => String c t'
       end).
    rewrite IH. reflexivity.
Qed.

(** A trimmed string is left alone by [trim]. *)
Lemma trim_twice s : trim (trim s) = trim s.
Proof.
  unfold trim. destruct (trim_start_head s) as [-> | (c & t & -> & Hc)]; [reflexivity |].
  destruct (trim_end_head c t Hc) as [t' Ht']. rewrite Ht'.
  simpl trim_start. rewrite Hc, <- Ht'. apply trim_end_twice.
Qed.

Lemma all_chars_trim_start f s : all_chars f s = true -> all_chars f (trim_start s) = true.
Proof.
  induction s as [| c s IH]; simpl; [reflexivity |].
  intros H. destruct (is_space c); [| exact H].
  apply andb_prop in H as [_ H]. exact (IH H).
Qed.

Lemma all_chars_trim_end f s : all_chars f s = true -> all_chars f (trim_end s) = true.
Proof.
  induction s as [| c s IH]; simpl; [reflexivity |].
  intros H. apply andb_prop in H as [Hc Hs]. specialize (IH Hs).
  destruct (trim_end s) as [| d t].
  - destruct (is_space c); simpl; [reflexivity | rewrite Hc; reflexivity].
  - simpl in *. rewrite Hc, IH. reflexivity.
Qed.

Lemma replace_newlines_none s :
  all_chars (fun c => negb (Ascii.eqb c "010"%char)) (replace_newlines s) = true.
Proof.
  unfold replace_newlines. induction s as [| c s IH]; simpl; [reflexivity |].
  rewrite IH, andb_true_r. destruct (Ascii.eqb c "010"%char) eqn:E; [reflexivity |].
  rewrite E. reflexivity.
Qed.

Lemma replace_newlines_without s :
  all_chars (fun c => negb (Ascii.eqb c "010"%char)) s = true -> replace_newlines s = s.
Proof.
  unfold replace_newlines. induction s as [| c s IH]; simpl; [reflexivity |].
  intros H. apply andb_prop in H as [Hc Hs]. apply negb_true_iff in Hc.
  rewrite Hc, (IH Hs). reflexivity.
Qed.

(** The text of a cleaned verse has no line feed and no white space at
    either end, and cleaning it again changes nothing. *)
Lemma clean_verse_text v :
  all_chars (fun c => negb (Ascii.eqb c "010"%char)) (text (clean_verse v)) = true
  /\ trim (text (clean_verse v)) = text (clean_verse v)
  /\ clean_verse (clean_verse v) = clean_verse v.
Proof.
  assert (Hnl : all_chars (fun c => negb (Ascii.eqb c "010"%char)) (text (clean_verse v))
                = true).
  { simpl. unfold trim. apply all_chars_trim_end, all_chars_trim_start, replace_newlines_none. }
  split; [exact Hnl |]. split; [apply trim_twice |].
  unfold clean_verse at 1. cbn [book_id book_name verse_chapter verse].
  rewrite (replace_newlines_without _ Hnl).
  unfold clean_verse. cbn [text]. rewrite trim_twice. reflexivity.
Qed.

(** X17.  [getChapterTextFromApi] asks the text API once, for the
    reference made of the book name, a space and the chapter number.  When
    it returns, the API has answered with a list of verses that is not
    empty, and the result has these verses in order, each with its book,
    chapter and verse number and with a text that has no line feed and no
    white space at either end; cleaning the result again changes nothing.
    It throws in every other case: the rejection of the API, or an error
    when the answer has no verse. *)
Theorem getChapterTextFromApi_cleans_verses (svc : Services) (identifier : ChapterIdentifier)
    (translation : string) (v : View) :
  let passageRef := book identifier ++ " " ++ number_to_string (chapter identifier) in
  let r := getChapterTextFromApi svc identifier translation (start v) in
  trace r.2 = [EvGetPassage passageRef translation]
  /\ (forall verses,
        r.1 = Normal verses ->
        exists passageData given,
          getPassage svc passageRef translation = Normal passageData
          /\ passage_verses passageData = Some given
          /\ given <> []
          /\ length verses = length given
          /\ map (fun x => (book_id x, book_name x, verse_chapter x, verse x)) verses
             = map (fun x => (book_id x, book_name x, verse_chapter x, verse x)) given
          /\ Forall (fun x =>
                       all_chars (fun c => negb (Ascii.eqb c "010"%char)) (text x) = true
                       /\ trim (text x) = text x) verses
          /\ map clean_verse verses = verses)
  /\ (forall e, getPassage svc passageRef translation = Throw e -> r.1 = Throw e)
  /\ (forall passageData,
        getPassage svc passageRef translation = Normal passageData ->
        passage_verses passageData = None \/ passage_verses passageData = Some [] ->
        exists e, r.1 = Throw e).
Proof.
  intros passageRef r. subst r.
  unfold getChapterTextFromApi, try_catch, bind, emit, modify, settle, ret, throw.
  fold passageRef. cbn [start trace view fst snd].
  destruct (getPassage svc passageRef translation) as [p | e] eqn:Hp; cbn [fst snd].
  - destruct (passage_verses p) as [[| x xs] |] eqn:Hv; cbn [fst snd trace].
    + split; [reflexivity |]. split; [discriminate |]. split; [discriminate |]. eauto.
    + split; [reflexivity |]. split; [| split; [discriminate |]].
      * intros verses [= <-]. exists p, (x :: xs).
        split; [reflexivity |]. split; [exact Hv |]. split; [discriminate |].
        split; [exact (length_map clean_verse (x :: xs)) |].
        split; [exact (map_map clean_verse _ (x :: xs)) |].
        split.
        -- apply Forall_forall. intros y Hy. apply list_elem_of_In in Hy.
           change (In y (map clean_verse (x :: xs))) in Hy.
           apply in_map_iff in Hy as (z & <- & _).
           destruct (clean_verse_text z) as (Hnl & Htrim & _). auto.
        -- change (map clean_verse (map clean_verse (x :: xs)) = map clean_verse (x :: xs)).
           rewrite map_map. apply map_ext. intros z. apply clean_verse_text.
      * intros p' [= <-] [H | H]; rewrite Hv in H; discriminate H.
    + split; [reflexivity |]. split; [discriminate |]. split; [discriminate |]. eauto.
  - split; [reflexivity |]. split; [discriminate |].
    split; [intros e' [= <-]; reflexivity | discriminate].
Qed.

End BibleApiFacts.

(* ===================================================================== *)
(** * The pipeline and the cache it fills *)
(* ===================================================================== *)

Module PipelineCacheFacts.
Import Js Js.Notations Types StudyApp Scenarios PipelineScenarios PipelineFacts.

(** A complete fetch whose write resolves: the four calls, and the view
    that shows what was fetched. *)
Lemma complete_fetch_run svc cache c key tr v vs dd en :
  complete_fetch svc cache c key tr v vs dd en ->
  (forall p, updateUserData svc p = Normal tt) ->
  fetchAllChapterData svc cache c key tr (start v)
  = (Normal tt,
     {| view := {| verses := vs; deepDiveData := Some dd; allEnrichmentData := Some en;
                   isChapterLoading := false |};
        trace := [EvGetPassage (book c ++ " " ++ number_to_string (chapter c)) tr;
                  EvDeepDive c; EvEnrichments c;
                  EvUpdateUserData
                    (cachedContent_update
                       (<[key := {| cc_verses := vs; cc_deepDiveData := Some dd;
                                    cc_allEnrichmentData := en |}]> cache))] |}).
Proof.
  intros (Hmiss & Hvs & Hne & Hdd & Hen) Hok.
  unfold_pipeline. rewrite Hmiss. cbn [view trace fst snd].
  split_text svc c tr; try discriminate Hvs.
  injection Hvs as <-.
  split_ai svc c; try discriminate Hdd; try discriminate Hen;
    injection Hdd as <-; injection Hen as <-; rewrite Hok; reflexivity.
Qed.

(** X18.  What a complete fetch stores is what is shown the next time:
    when the write of a complete fetch resolves and the mapping it carried
    is the profile's cache, a later run for the same key, with whatever
    services, sends nothing (no request for the text, no AI call, no
    update) and ends with the view the first run ended with. *)
Theorem stored_chapter_is_shown_again (svc svc' : Services)
    (cache : gmap string CachedChapterContent) (c : ChapterIdentifier)
    (key tr : string) (v v' : View) (vs : list Verse) (dd : DeepDiveData)
    (en : AllEnrichmentData) :
  complete_fetch svc cache c key tr v vs dd en ->
  (forall p, updateUserData svc p = Normal tt) ->
  let first := fetchAllChapterData svc cache c key tr (start v) in
  let stored := cachedContent_after cache (trace first.2) in
  let second := fetchAllChapterData svc' stored c key tr (start v') in
  second.1 = Normal tt
  /\ trace second.2 = []
  /\ view second.2 = view first.2
  /\ verses (view second.2) = vs.
Proof.
  intros Hc Hok first stored second.
  assert (Hstored : stored !! key
                    = Some {| cc_verses := vs; cc_deepDiveData := Some dd;
                              cc_allEnrichmentData := en |}).
  { subst stored first. rewrite (complete_fetch_run _ _ _ _ _ _ _ _ _ Hc Hok).
    unfold cachedContent_after. cbn. apply lookup_insert_eq. }
  subst second. rewrite (fetchAllChapterData_hit _ _ _ _ _ _ _ Hstored).
  subst first. rewrite (complete_fetch_run _ _ _ _ _ _ _ _ _ Hc Hok).
  repeat split; reflexivity.
Qed.

Lemma stored_chapter_is_shown_again_witness :
  trace (fetchAllChapterData quota_on_text
           (cachedContent_after ∅
              (trace (fetchAllChapterData full_service ∅ genesis1
                        (getCacheKey genesis1 "web") "web" (start blank)).2))
           genesis1 (getCacheKey genesis1 "web") "web" (start blank)).2 = [].
Proof.
  refine (proj1 (proj2 (stored_chapter_is_shown_again full_service quota_on_text ∅ genesis1
                          (getCacheKey genesis1 "web") "web" blank blank
                          [genesis_1_1] genesis_deepDive genesis_enrichments _ _))).
  - repeat split; try reflexivity. discriminate.
  - reflexivity.
Defined.

(** X19.  An enrichment call that fails is stored as a chapter without
    enrichments: when the text and the deep dive arrive, the enrichment
    request is rejected and the write resolves, the run stores a bundle
    whose enrichments are the empty structure, and every later run for the
    key shows the empty enrichments without asking the AI service again. *)
Theorem failed_enrichment_call_is_stored (svc svc' : Services)
    (cache : gmap string CachedChapterContent) (c : ChapterIdentifier)
    (key tr : string) (v v' : View) (vs : list Verse) (dd : DeepDiveData) (e : Thrown) :
  cache !! key = None ->
  fetched_verses svc c tr v = Normal vs ->
  generateDeepDive svc c = Normal (Some dd) ->
  generateEnrichments svc c = Throw e ->
  (forall p, updateUserData svc p = Normal tt) ->
  let stored :=
    cachedContent_after cache (trace (fetchAllChapterData svc cache c key tr (start v)).2) in
  let later := fetchAllChapterData svc' stored c key tr (start v') in
  stored !! key = Some {| cc_verses := vs; cc_deepDiveData := Some dd;
                          cc_allEnrichmentData := emptyEnrichments |}
  /\ ai_calls (trace later.2) = []
  /\ allEnrichmentData (view later.2) = Some emptyEnrichments.
Proof.
  intros Hmiss Hvs Hdd Hen Hok stored later.
  assert (Hc : complete_fetch svc cache c key tr v vs dd emptyEnrichments).
  { repeat split; auto.
    - exact (fetched_verses_nonempty _ _ _ _ _ Hvs).
    - unfold_pipeline. rewrite Hdd. reflexivity.
    - exact (fetched_enrichments_on_error _ _ _ _ Hen). }
  assert (Hstored : stored !! key
                    = Some {| cc_verses := vs; cc_deepDiveData := Some dd;
                              cc_allEnrichmentData := emptyEnrichments |}).
  { subst stored. rewrite (complete_fetch_run _ _ _ _ _ _ _ _ _ Hc Hok).
    unfold cachedContent_after. cbn. apply lookup_insert_eq. }
  split; [exact Hstored |].
  subst later. rewrite (fetchAllChapterData_hit _ _ _ _ _ _ _ Hstored).
  split; reflexivity.
Qed.

Lemma failed_enrichment_call_is_stored_witness :
  allEnrichmentData
    (view (fetchAllChapterData full_service
             (cachedContent_after ∅
                (trace (fetchAllChapterData enrichments_down ∅ genesis1
                          (getCacheKey genesis1 "web") "web" (start blank)).2))
             genesis1 (getCacheKey genesis1 "web") "web" (start blank)).2)
  = Some emptyEnrichments.
Proof.
  refine (proj2 (proj2 (failed_enrichment_call_is_stored enrichments_down full_service ∅
                          genesis1 (getCacheKey genesis1 "web") "web" blank blank
                          [genesis_1_1] genesis_deepDive
                          (JsError "503 Service Unavailable") _ _ _ _ _)));
    reflexivity.
Defined.

End PipelineCacheFacts.

(* ===================================================================== *)
(** * Properties of the chat panel *)
(* ===================================================================== *)

Module ChatPanelFacts.
Import Js Js.Notations ChatPanel.





End ChatPanelFacts.

(* ===================================================================== *)
(** * Properties of the study view *)
(* ===================================================================== *)

Module StudyViewFacts.
Import Js Js.Notations Types StudyApp StudyView Scenarios PipelineFacts.






End StudyViewFacts.
